(** * AI landing-page backend: the page-generation pipeline

    A shallow embedding of the crawler ([app/crawler.py]), the prompt
    composer ([app/llm/prompts.py]), the generation client
    ([app/llm/generator.py]), the document store ([app/db.py]) and the page
    routes ([app/routes/pages.py]).

    Conventions.
    - A Python [str] is a [string]; one [ascii] stands for one character.
    - JSON values and the dicts built from them are [Json]; a dict is an
      association list with unique keys in insertion order.  JSON numbers
      are integers.
    - Python exceptions are values of [exn]; code runs in the monad [M],
      which threads the request's state (store, logs, counters) and keeps
      it when an exception is raised.
    - What the interpreter and the libraries decide (HTML parsing, URL
      joining, JSON decoding, [repr] of a [str], Unicode-aware [str]
      methods) is the [Platform]; what the outside world decides (network
      content, the hash seed, the provider's replies, random identifiers,
      the clock) is the [World]. *)

From Stdlib Require Import String Ascii List ZArith Bool Lia QArith.
From Stdlib Require Import DecimalString Permutation.
Import ListNotations.

Local Open Scope list_scope.
Local Open Scope string_scope.
Local Open Scope Z_scope.

(** ** Strings *)

Definition nl : string := String (ascii_of_nat 10) EmptyString.

(** [str(n)] of an [int]. *)
Definition str_of_Z (n : Z) : string := NilZero.string_of_int (Z.to_int n).
Definition str_of_nat (n : nat) : string := str_of_Z (Z.of_nat n).

(** [s.startswith(p)] and [s.startswith((p1, ..., pn))]. *)
Definition startswith (s p : string) : bool := String.prefix p s.
Definition startswith_any (s : string) (ps : list string) : bool :=
  existsb (startswith s) ps.

(** [s.rstrip(c)] for a one-character [c]. *)
Fixpoint rstrip_char (c : ascii) (s : string) : string :=
  match s with
  | EmptyString => EmptyString
  | String a r =>
      match rstrip_char c r with
      | EmptyString => if Ascii.eqb a c then EmptyString else String a EmptyString
      | r' => String a r'
      end
  end.

(** [s[:n]] for a constant [n >= 0]. *)
Definition str_take (n : nat) (s : string) : string := substring 0 n s.

(** [sep.join(l)]. *)
Definition join (sep : string) (l : list string) : string := String.concat sep l.

(** [x in s] for two strings. *)
Fixpoint str_contains (x s : string) : bool :=
  String.prefix x s ||
  match s with
  | EmptyString => false
  | String _ r => str_contains x r
  end.

(** The same as a proposition: [x] occurs in [s]. *)
Definition occurs_in (x s : string) : Prop :=
  exists a b, s = a ++ x ++ b.

(** In the long prompt templates the double-quote character of the source
    is written [~] (the templates contain no [~]); [qq] puts it back. *)
Fixpoint qq (s : string) : string :=
  match s with
  | EmptyString => EmptyString
  | String a r => String (if Ascii.eqb a "~"%char then ascii_of_nat 34 else a) (qq r)
  end.

(** [l[:n]] for any Python [int] [n]: a negative [n] counts from the end. *)
Definition py_slice_to {A : Type} (l : list A) (n : Z) : list A :=
  if 0 <=? n then firstn (Z.to_nat n) l
  else firstn (length l - Z.to_nat (- n)) l.

(** [enumerate(l)]. *)
Fixpoint enumerate_from {A : Type} (i : nat) (l : list A) : list (nat * A) :=
  match l with
  | [] => []
  | x :: r => (i, x) :: enumerate_from (S i) r
  end.
Definition enumerate {A : Type} (l : list A) : list (nat * A) := enumerate_from 0 l.

(** ** JSON values and Python dicts *)

#[warnings="-register-all"]
Inductive Json : Type :=
| JNull
| JBool (b : bool)
| JInt (n : Z)
| JStr (s : string)
| JList (l : list Json)
| JDict (d : list (string * Json)).

Definition dict : Type := list (string * Json).

(** [d.get(k)], as an option. *)
Fixpoint dict_get (d : dict) (k : string) : option Json :=
  match d with
  | [] => None
  | (k', v) :: r => if String.eqb k' k then Some v else dict_get r k
  end.

(** [d.get(k, default)]. *)
Definition dict_get_default (d : dict) (k : string) (default : Json) : Json :=
  match dict_get d k with
  | Some v => v
  | None => default
  end.

(** [d[k] = v]: an existing key keeps its place, a new one goes last. *)
Fixpoint dict_set (d : dict) (k : string) (v : Json) : dict :=
  match d with
  | [] => [(k, v)]
  | (k', v') :: r =>
      if String.eqb k' k then (k', v) :: r else (k', v') :: dict_set r k v
  end.

(** [d.setdefault(k, v)]-style completion, used to state defaults. *)
Definition dict_setdefault (d : dict) (k : string) (v : Json) : dict :=
  match dict_get d k with
  | Some _ => d
  | None => dict_set d k v
  end.

(** Python truthiness. *)
Definition truthy (j : Json) : bool :=
  match j with
  | JNull => false
  | JBool b => b
  | JInt n => negb (n =? 0)
  | JStr s => negb (String.eqb s "")
  | JList l => match l with [] => false | _ => true end
  | JDict d => match d with [] => false | _ => true end
  end.

Definition str_truthy (s : string) : bool := negb (String.eqb s "").

(** [if c:] for an [Optional[str]]. *)
Definition opt_str_truthy (c : option string) : bool :=
  match c with
  | Some s => str_truthy s
  | None => false
  end.

(** ** Exceptions *)

Inductive exn : Type :=
| JSONDecodeError (msg : string)        (* json; a ValueError *)
| ValidationError (msg : string)        (* pydantic; a ValueError *)
| ValueError (msg : string)
| KeyError (key : string)
| TypeError (msg : string)
| AttributeError (msg : string)
| RequestException (msg : string)       (* requests: connection, timeout, status *)
| ProviderError (msg : string)          (* openai: timeout, rate limit, auth *)
| DuplicateKeyError (msg : string)      (* pymongo *)
| HTTPException (status_code : Z) (detail : string)
| PyException (msg : string)            (* a plain Exception *)
| ResponseValidationError (msg : string). (* fastapi: a returned value that does not
                                             fit the route's response_model *)

(** [isinstance(e, json.JSONDecodeError)] and [isinstance(e, ValueError)]. *)
Definition is_JSONDecodeError (e : exn) : bool :=
  match e with JSONDecodeError _ => true | _ => false end.
Definition is_ValueError (e : exn) : bool :=
  match e with
  | JSONDecodeError _ | ValidationError _ | ValueError _ => true
  | _ => false
  end.
Definition is_HTTPException (e : exn) : bool :=
  match e with HTTPException _ _ => true | _ => false end.

(** [str(e)]. *)
Definition exn_str (e : exn) : string :=
  match e with
  | JSONDecodeError m | ValidationError m | ValueError m | TypeError m
  | AttributeError m | RequestException m | ProviderError m
  | DuplicateKeyError m | PyException m | ResponseValidationError m => m
  | KeyError k => "'" ++ k ++ "'"
  | HTTPException c d => str_of_Z c ++ ": " ++ d
  end.

(** ** The store's documents, the provider's requests, the world *)

(** A MongoDB document of the [pages] collection, as [save_page] writes it.
    The fields copied from the provider's output hold whatever JSON value
    the provider sent. *)
Record Document : Type := mkDocument {
  page_id : Json;
  version : Json;
  sections : Json;
  created_at : Z;
  updated_at : Z;
  user_id : option string;
  published : bool;
  user_context : Json;
  crawled_context : option string
}.

(** One call of [client.chat.completions.create]. *)
Record ChatRequest : Type := mkChatRequest {
  model : string;
  system_content : string;
  user_content : string;
  temperature : Q;
  max_tokens : Z
}.

Inductive level : Type := DEBUG | INFO | WARNING | ERROR.

(** What the outside world decides during one request. *)
Record World : Type := mkWorld {
  (** [requests.get(url, ...)] followed by [raise_for_status()]: the body,
      or the exception raised. *)
  requests_get : string -> exn + string;
  (** The place the interpreter's string hash gives a string in a set's
      table (it depends on the process's hash seed); it fixes the
      iteration order of a [set] of strings. *)
  str_hash : string -> nat;
  (** The provider: the exception's message, or
      [response.choices[0].message.content] (which can be [None]). *)
  chat_completions_create : ChatRequest -> string + option string;
  (** The successive values of [uuid.uuid4().hex]. *)
  uuid4_hex : nat -> string;
  (** The successive values of [datetime.utcnow()]. *)
  utcnow : nat -> Z
}.

(** The state one request threads. *)
Record St : Type := mkSt {
  store : list Document;            (* pages_collection, in insertion order *)
  log : list (level * string);      (* crawler.py's logger *)
  fetched : list string;            (* URLs passed to requests.get *)
  sent : list ChatRequest;          (* requests made to the provider *)
  uuid_k : nat;                     (* uuid4() calls so far *)
  clock_k : nat                     (* utcnow() calls so far *)
}.

(** ** The monad *)

Inductive Res (A : Type) : Type :=
| Ok (a : A)
| Raise (e : exn).
Arguments Ok {A} a.
Arguments Raise {A} e.

Definition M (A : Type) : Type := World -> St -> Res A * St.

Definition ret {A : Type} (a : A) : M A := fun _ s => (Ok a, s).
Definition raise {A : Type} (e : exn) : M A := fun _ s => (Raise e, s).
Definition bind {A B : Type} (m : M A) (k : A -> M B) : M B :=
  fun w s =>
    match m w s with
    | (Ok a, s') => k a w s'
    | (Raise e, s') => (Raise e, s')
    end.

(** [try: m  except Exception as e: h e]. *)
Definition try_except {A : Type} (m : M A) (h : exn -> M A) : M A :=
  fun w s =>
    match m w s with
    | (Ok a, s') => (Ok a, s')
    | (Raise e, s') => h e w s'
    end.

Declare Scope py_scope.
Delimit Scope py_scope with py.
Notation "x <- m ;; k" := (bind m (fun x => k))
  (at level 61, m at next level, right associativity) : py_scope.
Notation "m ;;; k" := (bind m (fun _ => k))
  (at level 61, right associativity) : py_scope.
Local Open Scope py_scope.

(** A library call that returns or raises. *)
Definition lift {A : Type} (r : exn + A) : M A :=
  match r with
  | inl e => raise e
  | inr a => ret a
  end.

Definition logger (lv : level) (msg : string) : M unit :=
  fun _ s => (Ok tt, mkSt (store s) (log s ++ [(lv, msg)]) (fetched s) (sent s) (uuid_k s) (clock_k s)).

(** [requests.get(url, headers=..., timeout=10)] and [raise_for_status()]. *)
Definition http_get (url : string) : M string :=
  fun w s =>
    let s' := mkSt (store s) (log s) (fetched s ++ [url]) (sent s) (uuid_k s) (clock_k s) in
    match requests_get w url with
    | inl e => (Raise e, s')
    | inr body => (Ok body, s')
    end.

(** [uuid.uuid4().hex]. *)
Definition uuid4 : M string :=
  fun w s => (Ok (uuid4_hex w (uuid_k s)),
              mkSt (store s) (log s) (fetched s) (sent s) (S (uuid_k s)) (clock_k s)).

(** [datetime.utcnow()]. *)
Definition datetime_utcnow : M Z :=
  fun w s => (Ok (utcnow w (clock_k s)),
              mkSt (store s) (log s) (fetched s) (sent s) (uuid_k s) (S (clock_k s))).

Definition get_store : M (list Document) := fun _ s => (Ok (store s), s).
Definition put_store (d : list Document) : M unit :=
  fun _ s => (Ok tt, mkSt d (log s) (fetched s) (sent s) (uuid_k s) (clock_k s)).


(** [for x in l: acc = body acc x]. *)
Fixpoint for_each {A B : Type} (l : list A) (acc : B) (body : B -> A -> M B) : M B :=
  match l with
  | [] => ret acc
  | x :: r => acc' <- body acc x ;; for_each r acc' body
  end.

(** ** The platform: the interpreter's and the libraries' functions *)

(** [urllib.parse.urlparse]'s result (the fields the code reads). *)
Record ParseResult : Type := mkParseResult {
  scheme : string;
  netloc : string;
  path : string
}.

Class Platform : Type := {
  (** [bs4]: a parsed document and the queries the crawler makes. *)
  soup : Type;
  BeautifulSoup : string -> soup;
  (** [soup.find('title')], then [.get_text(strip=True)]. *)
  soup_find_title : soup -> option string;
  (** [soup.find('meta', attrs={a: v})], then its [content] attribute:
      [None] when the tag or the attribute is missing. *)
  soup_find_meta_content : string -> string -> soup -> option string;
  (** [[t.get_text(strip=True) for t in soup.find_all(tag)]]. *)
  soup_find_all_text : string -> soup -> list string;
  (** [for element in soup(tags): element.decompose()]. *)
  soup_decompose : list string -> soup -> soup;
  (** [soup.get_text(separator=' ', strip=True)]. *)
  soup_get_text : soup -> string;
  (** [str(soup)]. *)
  soup_str : soup -> string;
  (** [[a['href'] for a in soup.find_all('a', href=True)]]. *)
  soup_a_hrefs : soup -> list string;
  (** [urllib.parse]; both raise [ValueError] on some inputs. *)
  urljoin : string -> string -> exn + string;
  urlparse : string -> exn + ParseResult;
  (** [json.loads]: the value, or the [JSONDecodeError]'s message. *)
  json_loads : string -> string + Json;
  (** [repr(s)] of a [str]. *)
  repr_str : string -> string;
  (** [s.strip()], [s.splitlines()], [s.split(sep)], [s.upper()]. *)
  str_strip : string -> string;
  str_splitlines : string -> list string;
  str_split : string -> string -> list string;
  str_upper : string -> string;
  (** [PageSpecResponse(pageId=p, version=v, sections=s)]: the validated
      model as JSON, or the [ValidationError]'s message. *)
  PageSpecResponse : Json -> Json -> Json -> string + Json;
  (** [PublishResponse(page_id=p, version=v, url=u, message=m)], likewise. *)
  PublishResponse : string -> Json -> string -> string -> string + Json
}.

(** ** Python sets of strings

    A set is kept as the list of its elements in insertion order;
    [list(s)] walks the hash table, so the elements come out ordered by
    their hash (elements that collide keep their insertion order). *)

Definition set_add (x : string) (s : list string) : list string :=
  if existsb (String.eqb x) s then s else s ++ [x].

Fixpoint insert_by_hash (h : string -> nat) (x : string) (l : list string) : list string :=
  match l with
  | [] => [x]
  | y :: r => if (h x <=? h y)%nat then x :: y :: r else y :: insert_by_hash h x r
  end.

Definition set_to_list (h : string -> nat) (s : list string) : list string :=
  fold_right (insert_by_hash h) [] s.

(** [list(s)]: the order is the running interpreter's. *)
Definition list_of_set (s : list string) : M (list string) :=
  fun w st => (Ok (set_to_list (str_hash w) s), st).

(** ** app/crawler.py *)

Module Crawler.

Record Headings : Type := mkHeadings {
  h1 : list string;
  h2 : list string;
  h3 : list string
}.

(** The [page_data] dict of [_fetch_page_data]. *)
Record PageData : Type := mkPageData {
  url : string;
  title : string;
  meta_description : string;
  headings : Headings;
  text_content : string;
  html : string
}.

Section WithPlatform.
Context {P : Platform}.

Definition _get_title (sp : soup) : string :=
  match soup_find_title sp with
  | Some t => t
  | None => ""
  end.

Definition _get_meta_description (sp : soup) : string :=
  match soup_find_meta_content "name" "description" sp with
  | Some c =>
      if str_truthy c then str_strip c
      else match soup_find_meta_content "property" "og:description" sp with
           | Some c' => if str_truthy c' then str_strip c' else ""
           | None => ""
           end
  | None =>
      match soup_find_meta_content "property" "og:description" sp with
      | Some c' => if str_truthy c' then str_strip c' else ""
      | None => ""
      end
  end.

Definition _get_headings (sp : soup) : Headings :=
  mkHeadings (filter str_truthy (soup_find_all_text "h1" sp))
             (filter str_truthy (soup_find_all_text "h2" sp))
             (filter str_truthy (soup_find_all_text "h3" sp)).

(** Returns the text and the soup as [decompose] left it. *)
Definition _get_clean_text (sp : soup) : string * soup :=
  let sp' := soup_decompose
               ["script"; "style"; "nav"; "footer"; "header"; "aside"; "iframe"; "noscript"] sp in
  let text := soup_get_text sp' in
  let lines := map str_strip (str_splitlines text) in
  let chunks := flat_map (fun line => map str_strip (str_split "  " line)) lines in
  let text := join " " (filter str_truthy chunks) in
  (str_take 3000 text, sp').

(** The dict's entries are evaluated in order, so [str(soup)] sees the
    soup after [_get_clean_text] has decomposed it. *)
Definition page_data_of (u content : string) : PageData :=
  let sp := BeautifulSoup content in
  let t := _get_title sp in
  let m := _get_meta_description sp in
  let h := _get_headings sp in
  let (text, sp') := _get_clean_text sp in
  mkPageData u t m h text (soup_str sp').

Definition _fetch_page_data (u : string) : M (option PageData) :=
  try_except
    (content <- http_get u ;;
     ret (Some (page_data_of u content)))
    (fun e =>
       logger ERROR ("Error fetching " ++ u ++ ": " ++ exn_str e) ;;;
       ret None).

Definition _extract_internal_links (base_url html_text : string) : M (list string) :=
  let sp := BeautifulSoup html_text in
  base <- lift (urlparse base_url) ;;
  let base_domain := netloc base in
  links <- for_each (soup_a_hrefs sp) []
    (fun links href =>
       if startswith_any href ["#"; "mailto:"; "tel:"; "javascript:"] then ret links
       else
         full_url <- lift (urljoin base_url href) ;;
         parsed <- lift (urlparse full_url) ;;
         if String.eqb (netloc parsed) base_domain then
           let clean_url := scheme parsed ++ "://" ++ netloc parsed ++ path parsed in
           if negb (String.eqb (rstrip_char "/" clean_url) (rstrip_char "/" base_url))
           then ret (set_add clean_url links)
           else ret links
         else ret links) ;;
  all_links <- list_of_set links ;;
  ret (firstn 5 all_links).

(** The lines one page contributes. *)
Definition page_parts (i : nat) (page : PageData) : list string :=
  [ if (i =? 0)%nat
    then "=== HOME PAGE ===" ++ nl ++ "URL: " ++ url page
    else nl ++ "=== PAGE " ++ str_of_nat i ++ " ===" ++ nl ++ "URL: " ++ url page ]
  ++ (if str_truthy (title page) then ["Title: " ++ title page] else [])
  ++ (if str_truthy (meta_description page)
      then ["Description: " ++ meta_description page] else [])
  ++ (match h1 (headings page) with
      | [] => []
      | _ :: _ => ["Main Headings: " ++ join ", " (firstn 3 (h1 (headings page)))]
      end)
  ++ ["Content Preview:" ++ nl ++ str_take 800 (text_content page)].

Definition _build_brand_context (pages : list PageData) : string :=
  join nl (flat_map (fun ip => page_parts (fst ip) (snd ip)) (enumerate pages)).

(** One turn of the inner-page loop. *)
Definition crawl_inner_page (pages_data : list PageData) (link : string)
  : M (list PageData) :=
  try_except
    (logger INFO ("Crawling inner page: " ++ link) ;;;
     page_data <- _fetch_page_data link ;;
     match page_data with
     | Some p => ret (pages_data ++ [p])%list
     | None => ret pages_data
     end)
    (fun e =>
       logger WARNING ("Failed to crawl " ++ link ++ ": " ++ exn_str e) ;;;
       ret pages_data).

Definition crawl_website (base_url : string) (max_inner_pages : Z) : M (option string) :=
  try_except
    (logger INFO ("Crawling: " ++ base_url) ;;;
     home <- _fetch_page_data base_url ;;
     match home with
     | None =>
         logger WARNING "Failed to crawl home page" ;;;
         ret None
     | Some home_data =>
         pages_data <-
           try_except
             (inner_links <- _extract_internal_links base_url (html home_data) ;;
              for_each (py_slice_to inner_links max_inner_pages) [home_data]
                       crawl_inner_page)
             (fun e =>
                logger WARNING ("Failed to extract inner links: " ++ exn_str e) ;;;
                ret [home_data]) ;;
         let brand_context := _build_brand_context pages_data in
         logger INFO ("✓ Crawled " ++ str_of_nat (length pages_data) ++ " pages successfully") ;;;
         ret (Some brand_context)
     end)
    (fun e =>
       logger ERROR ("Crawl failed: " ++ exn_str e) ;;;
       ret None).

(** [crawl_website(base_url)] with the default [max_inner_pages=2]. *)
Definition crawl_website_default (base_url : string) : M (option string) :=
  crawl_website base_url 2.

End WithPlatform.
End Crawler.

(** ** [str(x)] and [repr(x)] of the values found in dicts *)

Section PyStr.
Context {P : Platform}.

Fixpoint py_repr (j : Json) : string :=
  match j with
  | JNull => "None"
  | JBool true => "True"
  | JBool false => "False"
  | JInt n => str_of_Z n
  | JStr s => repr_str s
  | JList l => "[" ++ join ", " (map py_repr l) ++ "]"
  | JDict d =>
      "{" ++ join ", " (map (fun kv => repr_str (fst kv) ++ ": " ++ py_repr (snd kv)) d) ++ "}"
  end.

(** What an f-string prints for [{x}]. *)
Definition py_str (j : Json) : string :=
  match j with
  | JStr s => s
  | _ => py_repr j
  end.

(** [str(x)] of an [Optional] value: a missing one prints as [None]. *)
Definition py_str_opt (j : option Json) : string :=
  match j with
  | Some v => py_str v
  | None => "None"
  end.

End PyStr.

(** ** app/llm/prompts.py *)

Module Prompts.

(** The brand-context block of the generation prompt. *)
Definition brand_context_block (c : string) : string :=
  "
## BRAND CONTEXT (Crawled from Website)
"
  ++ c
  ++ "

".

(** The instruction block that goes with it. *)
Definition tone_instruction_with_context : string :=
  "
CRITICAL: Use the above brand context as your PRIMARY reference for:
- Tone of voice and writing style
- Language patterns and vocabulary
- Brand personality and messaging approach
- Visual aesthetic (colors, imagery style)
- Value propositions and positioning

The generated landing page should feel like a natural extension of the existing brand website.
Match the sophistication level, formality, and emotional tone you observe in the crawled content.
".

(** The tone instruction of a prompt without brand context. *)
Definition tone_instruction_plain (brand_tone : string) : string :=
  "
Use a "
  ++ brand_tone
  ++ " tone throughout all copy.
".

(** The f-string of [build_landing_page_prompt]. *)
Definition landing_page_template
  (industry offer target_audience brand_tone : string)
  (brand_context_section tone_instruction : string)
  (unique_page_id copyright_holder : string) : string :=
  "You are an expert landing page designer and copywriter. Generate a landing page JSON specification that converts visitors into customers.

## USER REQUIREMENTS
"
  ++ "- Industry: "
  ++ industry
  ++ nl
  ++ "- Offer/Product: "
  ++ offer
  ++ nl
  ++ "- Target Audience: "
  ++ target_audience
  ++ nl
  ++ "- Brand Tone: "
  ++ brand_tone
  ++ nl
  ++ nl
  ++ brand_context_section
  ++ tone_instruction
  ++ qq "

## CONTENT GUIDELINES

**If brand context is provided above:**
1. **Tone Matching**: Carefully analyze the writing style, vocabulary, and sentence structure in the brand context. Mirror this style precisely.
2. **Voice Consistency**: If the brand is casual and conversational, be casual. If formal and authoritative, match that.
3. **Vocabulary**: Use similar terminology, industry jargon, and word choices as seen in the context.
4. **Messaging Alignment**: Echo the value propositions and benefits mentioned in the brand context.
5. **Visual Alignment**: If the context mentions colors or aesthetic preferences, respect those.

**General Guidelines:**
- Headlines should be compelling and benefit-driven (5-8 words)
- Subheadlines should expand on the value proposition (1-2 sentences)
- Features should focus on benefits, not just features
- Testimonials should feel authentic and specific
- FAQs should address real objections and concerns
- CTAs should be action-oriented and clear

## TECHNICAL REQUIREMENTS

Return ONLY valid JSON. No markdown code blocks (```json), no explanatory text, just raw JSON.

Use this exact structure: 

{
  ~pageId~: ~"
  ++ unique_page_id
  ++ qq "~,
  ~version~: 1,
  ~sections~: [
    {
      ~id~: ~hero-1~,
      ~type~: ~hero~,
      ~order~: 0,
      ~data~: {
        ~headline~: ~string - powerful main headline (5-8 words, benefit-focused)~,
        ~subheadline~: ~string - supporting headline that expands the value prop (1-2 sentences)~,
        ~ctaText~: ~string - action button text (3-5 words, e.g., 'Start Free Trial', 'Get Started Now')~,
        ~backgroundImage~: ~https://images.unsplash.com/photo-... - relevant unsplash image URL~,
        ~textColor~: ~#FFFFFF~,
        ~backgroundColor~: ~#1a1a1a~
      }
    },
    {
      ~id~: ~features-1~,
      ~type~: ~features~,
      ~order~: 1,
      ~data~: {
        ~title~: ~string - section headline~,
        ~description~: ~string - optional section description (1-2 sentences)~,
        ~items~: [
          {
            ~id~: ~f1~,
            ~title~: ~string - feature name (2-4 words)~,
            ~description~: ~string - benefit-focused description (1 sentence, focus on what the customer gains)~,
            ~icon~: ~emoji - single relevant emoji~
          },
          {
            ~id~: ~f2~,
            ~title~: ~string~,
            ~description~: ~string~,
            ~icon~: ~emoji~
          },
          {
            ~id~: ~f3~,
            ~title~: ~string~,
            ~description~: ~string~,
            ~icon~: ~emoji~
          }
        ]
      }
    },
    {
      ~id~: ~testimonials-1~,
      ~type~: ~testimonials~,
      ~order~: 2,
      ~data~: {
        ~title~: ~string - section title (e.g., 'What Our Customers Say', 'Trusted By Thousands')~,
        ~items~: [
          {
            ~id~: ~t1~,
            ~quote~: ~string - authentic testimonial (1-2 sentences, focus on specific results or benefits)~,
            ~author~: ~string - realistic first and last name~,
            ~role~: ~string - job title~,
            ~company~: ~string - company name (can be real or realistic-sounding)~,
            ~rating~: 5
          },
          {
            ~id~: ~t2~,
            ~quote~: ~string~,
            ~author~: ~string~,
            ~role~: ~string~,
            ~company~: ~string~,
            ~rating~: 5
          }
        ]
      }
    },
    {
      ~id~: ~faq-1~,
      ~type~: ~faq~,
      ~order~: 3,
      ~data~: {
        ~title~: ~Frequently Asked Questions~,
        ~items~: [
          {
            ~id~: ~q1~,
            ~question~: ~string - common objection or question (conversational style)~,
            ~answer~: ~string - clear, concise answer (1-2 sentences)~
          },
          {
            ~id~: ~q2~,
            ~question~: ~string~,
            ~answer~: ~string~
          },
          {
            ~id~: ~q3~,
            ~question~: ~string~,
            ~answer~: ~string~
          }
        ]
      }
    },
    {
      ~id~: ~contact-1~,
      ~type~: ~contact~,
      ~order~: 4,
      ~data~: {
        ~title~: ~string - compelling CTA headline (e.g., 'Ready to Transform Your Business?')~,
        ~description~: ~string - supporting text that creates urgency or reinforces value (1-2 sentences)~,
        ~fields~: [
          {~name~: ~email~, ~label~: ~Email Address~, ~type~: ~email~, ~required~: true},
          {~name~: ~company~, ~label~: ~Company Name~, ~type~: ~text~, ~required~: false},
          {~name~: ~message~, ~label~: ~How can we help?~, ~type~: ~textarea~, ~required~: true}
        ],
        ~submitText~: ~string - button text (e.g., 'Get Started', 'Request Demo')~,
        ~backgroundColor~: ~#f9fafb~
      }
    },
    {
      ~id~: ~footer-1~,
      ~type~: ~footer~,
      ~order~: 5,
      ~data~: {
        ~links~: [
          {~label~: ~Privacy Policy~, ~url~: ~/privacy~},
          {~label~: ~Terms of Service~, ~url~: ~/terms~},
          {~label~: ~Contact~, ~url~: ~/contact~}
        ],
        ~socialLinks~: [
          {~platform~: ~Twitter~, ~url~: ~https://twitter.com~},
          {~platform~: ~LinkedIn~, ~url~: ~https://linkedin.com~}
        ],
        ~copyright~: ~© 2025 "
  ++ copyright_holder
  ++ qq ". All rights reserved.~
      }
    }
  ]
}

Generate the complete landing page JSON now:".

(** The table [section_instructions]. *)
Definition section_instructions : list (string * string) :=
  [ ("hero",
     "For HERO section, regenerate with:
- NEW headline (5-8 words, powerful, unique angle)
- NEW subheadline (1-2 sentences, different messaging)
- Same CTA button text OR new CTA if makes sense
- NEW background image URL from Unsplash that fits the new angle
- Keep same text and background colors");
    ("features",
     "For FEATURES section, regenerate with:
- NEW section title and description
- 3 NEW features (different benefits/angles from current)
- Keep emoji icons
- Different wording, same structure
- Focus on different value propositions");
    ("testimonials",
     "For TESTIMONIALS section, regenerate with:
- NEW section title
- 2 NEW testimonials (different quotes, different personas)
- NEW customer names, roles, companies
- Keep 5-star ratings
- Different benefits highlighted vs current version");
    ("faq",
     "For FAQ section, regenerate with:
- NEW section title (if different angle needed)
- 3 NEW FAQ questions and answers
- Different common questions than current
- 1-2 sentence answers
- Address different concerns/use cases");
    ("contact",
     "For CONTACT section, regenerate with:
- NEW CTA headline
- NEW description copy
- Keep same form fields (email, company, message)
- NEW submit button text if appropriate
- Keep background color");
    ("footer",
     "For FOOTER section, regenerate with:
- Same link structure and URLs
- Same social links
- NEW copyright notice or company tagline if applicable") ].

Definition default_instructions : string :=
  "Regenerate this section with new, unique content while keeping the same structure.".

(** The f-string of [build_section_regenerate_prompt]. *)
Definition section_regenerate_template
  (industry offer target_audience brand_tone crawl_info : string)
  (section_type_upper current_data_str instructions : string)
  (section_id section_type section_order : string) : string :=
  "You are an expert landing page designer. Regenerate a single landing page section.

ORIGINAL USER CONTEXT:
- Industry: "
  ++ industry
  ++ "
- Offer: "
  ++ offer
  ++ "
- Target Audience: "
  ++ target_audience
  ++ "
- Brand Tone: "
  ++ brand_tone
  ++ crawl_info
  ++ "

CURRENT "
  ++ section_type_upper
  ++ " SECTION TO REPLACE:
"
  ++ current_data_str
  ++ "

REGENERATION INSTRUCTIONS:
"
  ++ instructions
  ++ qq "

KEY RULES:
1. Create completely NEW content (different headlines, copy, etc.) - NOT a slight variation
2. Keep the same JSON structure and field names
3. Maintain the brand tone and industry context
4. Keep appealing to the target audience
5. Don't use the exact same words/phrases as the current version
6. All data should be realistic and specific to the industry

Return ONLY valid JSON, no markdown, no code blocks. Ensure valid JSON format:

{
  ~id~: ~"
  ++ section_id
  ++ qq "~,
  ~type~: ~"
  ++ section_type
  ++ qq "~,
  ~order~: "
  ++ section_order
  ++ qq ",
  ~data~: {
    // Your new content here - match the structure of current data
  }
}

Generate completely NEW and UNIQUE content now:".

Section WithPlatform.
Context {P : Platform}.

(** [build_landing_page_prompt] once [uuid.uuid4()] has been drawn. *)
Definition landing_page_prompt
  (unique_page_id : string) (user_input : dict) (crawled_context : option string)
  : string :=
  let industry := dict_get_default user_input "industry" (JStr "general business") in
  let offer := dict_get_default user_input "offer" (JStr "") in
  let target_audience := dict_get_default user_input "target_audience" (JStr "") in
  let brand_tone := dict_get_default user_input "brand_tone" (JStr "professional") in
  let brand_context_section :=
    match crawled_context with
    | Some c => if str_truthy c then brand_context_block c else ""
    | None => ""
    end in
  let tone_instruction :=
    if opt_str_truthy crawled_context
    then tone_instruction_with_context
    else tone_instruction_plain (py_str brand_tone) in
  landing_page_template
    (py_str industry) (py_str offer) (py_str target_audience) (py_str brand_tone)
    brand_context_section tone_instruction
    unique_page_id (if truthy offer then py_str offer else "Company").

Definition build_landing_page_prompt
  (user_input : dict) (crawled_context : option string) : M string :=
  hex <- uuid4 ;;
  let unique_page_id := "landing-" ++ str_take 8 hex in
  ret (landing_page_prompt unique_page_id user_input crawled_context).

(** [section_instructions.get(section_type, default)] for a [str] key. *)
Fixpoint instructions_for (table : list (string * string)) (section_type : string) : string :=
  match table with
  | [] => default_instructions
  | (k, v) :: r => if String.eqb k section_type then v else instructions_for r section_type
  end.

Definition crawl_info_of (crawled_context : option string) : string :=
  match crawled_context with
  | Some c =>
      if str_truthy c
      then nl ++ nl ++ "BRAND CONTEXT FROM WEBSITE:" ++ nl ++ c ++ nl
      else ""
  | None => ""
  end.

(** The prompt for a section whose [type] is the string [section_type]. *)
Definition section_regenerate_prompt
  (section : dict) (section_type : string) (user_context : dict)
  (crawled_context : option string) : string :=
  let current_data := dict_get_default section "data" (JDict []) in
  section_regenerate_template
    (py_str (dict_get_default user_context "industry" (JStr "")))
    (py_str (dict_get_default user_context "offer" (JStr "")))
    (py_str (dict_get_default user_context "target_audience" (JStr "")))
    (py_str (dict_get_default user_context "brand_tone" (JStr "")))
    (crawl_info_of crawled_context)
    (str_upper section_type)
    (py_str current_data)
    (instructions_for section_instructions section_type)
    (py_str_opt (dict_get section "id"))
    section_type
    (py_str (dict_get_default section "order" (JInt 0))).

(** A [type] that is a list or a dict cannot be a dict key ([TypeError]
    in [section_instructions.get]); one that is not a [str] has no
    [upper] ([AttributeError] in the f-string). *)
Definition build_section_regenerate_prompt
  (section : dict) (user_context : dict) (crawled_context : option string) : M string :=
  match dict_get section "type" with
  | Some (JStr section_type) =>
      ret (section_regenerate_prompt section section_type user_context crawled_context)
  | Some (JList _) => raise (TypeError "unhashable type: 'list'")
  | Some (JDict _) => raise (TypeError "unhashable type: 'dict'")
  | _ => raise (AttributeError "object has no attribute 'upper'")
  end.

End WithPlatform.
End Prompts.

(** ** app/llm/generator.py *)

Module Generator.

Definition system_prompt : string :=
  "You are an expert landing page designer and conversion copywriter. "
  ++ "You create compelling marketing copy that drives action, matches brand voice, "
  ++ "and resonates with target audiences. You have deep knowledge of persuasive writing, "
  ++ "user psychology, and marketing best practices. "
  ++ "You always return your work as valid JSON with no markdown formatting.".

(** [client.chat.completions.create(model="gpt-4o", messages=[system, user],
    temperature=0.7, max_tokens=n)], then [response.choices[0].message.content]. *)
Definition chat_create (prompt : string) (n : Z) : M (option string) :=
  fun w s =>
    let req := mkChatRequest "gpt-4o" system_prompt prompt (7 # 10) n in
    let s' := mkSt (store s) (log s) (fetched s) (sent s ++ [req]) (uuid_k s) (clock_k s) in
    match chat_completions_create w req with
    | inl msg => (Raise (ProviderError msg), s')
    | inr content => (Ok content, s')
    end.

Section WithPlatform.
Context {P : Platform}.

(** [json.loads(response_text)]; a [None] content is a [TypeError]. *)
Definition loads (response_text : option string) : M Json :=
  match response_text with
  | None => raise (TypeError "the JSON object must be str, bytes or bytearray, not NoneType")
  | Some t =>
      match json_loads t with
      | inl msg => raise (JSONDecodeError msg)
      | inr j => ret j
      end
  end.

(** [crawler.crawl_website(website_url)] for the value found under [url].
    A value that is not a [str] has no scheme, so [requests.get] raises
    inside [_fetch_page_data] and the crawl returns [None]. *)
Definition crawl_value (website_url : Json) : M (option string) :=
  match website_url with
  | JStr u => Crawler.crawl_website_default u
  | _ =>
      logger INFO ("Crawling: " ++ py_str website_url) ;;;
      logger ERROR ("Error fetching " ++ py_str website_url ++ ": Invalid URL") ;;;
      logger WARNING "Failed to crawl home page" ;;;
      ret None
  end.

(** [website_url = d.get("url")], then the crawl when it is truthy. *)
Definition crawl_if_url (d : dict) : M (option string) :=
  match dict_get d "url" with
  | Some website_url => if truthy website_url then crawl_value website_url else ret None
  | None => ret None
  end.

(** The parameter [crawled_context] is assigned [None] before it is read:
    the context used is the one crawled from [user_input["url"]]. *)
Definition generate_page_spec (user_input : dict) (crawled_context : option string) : M Json :=
  try_except
    (crawled_context <- crawl_if_url user_input ;;
     prompt <- Prompts.build_landing_page_prompt user_input crawled_context ;;
     response_text <- chat_create prompt 2500 ;;
     page_spec <- loads response_text ;;
     ret page_spec)
    (fun e =>
       if is_JSONDecodeError e
       then raise (ValueError ("Failed to parse LLM response as JSON: " ++ exn_str e))
       else raise (PyException ("Error generating page spec: " ++ exn_str e))).

(** [prompt.get("url")] needs a dict. *)
Definition as_dict (j : Json) : M dict :=
  match j with
  | JDict d => ret d
  | _ => raise (AttributeError "object has no attribute 'get'")
  end.

Definition regenerate_section (section : dict) (prompt : Json) : M Json :=
  try_except
    (user_context <- as_dict prompt ;;
     crawled_context <- crawl_if_url user_context ;;
     prompt' <- Prompts.build_section_regenerate_prompt section user_context crawled_context ;;
     response_text <- chat_create prompt' 2000 ;;
     updated_section <- loads response_text ;;
     ret updated_section)
    (fun e =>
       if is_JSONDecodeError e
       then raise (ValueError ("Failed to parse LLM response as JSON: " ++ exn_str e))
       else raise (PyException ("Error regenerating section: " ++ exn_str e))).

End WithPlatform.
End Generator.

(** ** app/db.py

    The [pages] collection is the list [store] of the state, in insertion
    order; it has a unique index on [page_id] ([init_db]).  A query
    [{"page_id": p}] selects the first document whose [page_id] is the
    string [p]. *)

Module Db.

Definition matches (pid : string) (d : Document) : bool :=
  match page_id d with
  | JStr p => String.eqb p pid
  | _ => false
  end.

Fixpoint json_eqb (a b : Json) : bool :=
  match a, b with
  | JNull, JNull => true
  | JBool x, JBool y => Bool.eqb x y
  | JInt x, JInt y => Z.eqb x y
  | JStr x, JStr y => String.eqb x y
  | JList x, JList y =>
      (fix go (l1 l2 : list Json) : bool :=
         match l1, l2 with
         | [], [] => true
         | u :: r1, v :: r2 => json_eqb u v && go r1 r2
         | _, _ => false
         end) x y
  | JDict x, JDict y =>
      (fix go (l1 l2 : list (string * Json)) : bool :=
         match l1, l2 with
         | [], [] => true
         | (k1, u) :: r1, (k2, v) :: r2 => String.eqb k1 k2 && json_eqb u v && go r1 r2
         | _, _ => false
         end) x y
  | _, _ => false
  end.

(** [pages_collection.insert_one(document)]. *)
Definition insert_one (d : Document) : M unit :=
  docs <- get_store ;;
  if existsb (fun d' => json_eqb (page_id d') (page_id d)) docs
  then raise (DuplicateKeyError "E11000 duplicate key error")
  else put_store (docs ++ [d])%list.

(** [pages_collection.find_one({"page_id": page_id})]. *)
Definition find_one (pid : string) : M (option Document) :=
  docs <- get_store ;;
  ret (find (matches pid) docs).

(** The first matching document replaced by [f] of it. *)
Fixpoint update_first (pid : string) (f : Document -> Document) (docs : list Document)
  : list Document :=
  match docs with
  | [] => []
  | d :: r => if matches pid d then f d :: r else d :: update_first pid f r
  end.

(** [pages_collection.find_one_and_update({"page_id": page_id}, {"$set": ...},
    return_document=True)]: the document after the update. *)
Definition find_one_and_update (pid : string) (f : Document -> Document)
  : M (option Document) :=
  docs <- get_store ;;
  match find (matches pid) docs with
  | None => ret None
  | Some d => put_store (update_first pid f docs) ;;; ret (Some (f d))
  end.

Definition save_page (page_spec : Json) (user_context : dict)
  (crawled_context : option string) (user_id : option string) : M Document :=
  match page_spec with
  | JDict spec =>
      created <- datetime_utcnow ;;
      updated <- datetime_utcnow ;;
      let document :=
        mkDocument (dict_get_default spec "pageId" JNull)
                   (dict_get_default spec "version" (JInt 1))
                   (dict_get_default spec "sections" (JList []))
                   created updated user_id false
                   (JDict user_context) crawled_context in
      insert_one document ;;;
      ret document
  | _ => raise (AttributeError "object has no attribute 'get'")
  end.

Definition get_page (pid : string) : M (option Document) := find_one pid.

(** [v + 1] for the stored version. *)
Definition plus_one (v : Json) : M Json :=
  match v with
  | JInt n => ret (JInt (n + 1))
  | JBool b => ret (JInt (Z.b2z b + 1))
  | _ => raise (TypeError "unsupported operand type(s) for +")
  end.

Definition set_sections (new_sections new_version : Json) (t : Z) (d : Document) : Document :=
  mkDocument (page_id d) new_version new_sections (created_at d) t
             (user_id d) (published d) (user_context d) (crawled_context d).

Definition update_page (pid : string) (new_sections : Json) : M (option Document) :=
  page <- get_page pid ;;
  match page with
  | None => ret None
  | Some p =>
      new_version <- plus_one (version p) ;;
      t <- datetime_utcnow ;;
      find_one_and_update pid (set_sections new_sections new_version t)
  end.

Definition set_published (t : Z) (d : Document) : Document :=
  mkDocument (page_id d) (version d) (sections d) (created_at d) t
             (user_id d) true (user_context d) (crawled_context d).

Definition publish_page (pid : string) : M (option Document) :=
  t <- datetime_utcnow ;;
  find_one_and_update pid (set_published t).

(** The first matching document removed. *)
Fixpoint remove_first (pid : string) (docs : list Document) : list Document :=
  match docs with
  | [] => []
  | d :: r => if matches pid d then r else d :: remove_first pid r
  end.

(** [pages_collection.delete_one({"page_id": page_id})]: the count of
    documents deleted. *)
Definition delete_one (pid : string) : M Z :=
  docs <- get_store ;;
  match find (matches pid) docs with
  | None => ret 0
  | Some _ => put_store (remove_first pid docs) ;;; ret 1
  end.

Definition delete_page (pid : string) : M bool :=
  deleted_count <- delete_one pid ;;
  ret (0 <? deleted_count).

End Db.

(** ** Python operators on JSON values *)

(** [key in x]. *)
Definition py_in (key : string) (x : Json) : M bool :=
  match x with
  | JDict d => ret (match dict_get d key with Some _ => true | None => false end)
  | JList l => ret (existsb (Db.json_eqb (JStr key)) l)
  | JStr s => ret (str_contains key s)
  | _ => raise (TypeError "argument is not iterable")
  end.

(** [x[key]] for a [str] key. *)
Definition py_getitem (x : Json) (key : string) : M Json :=
  match x with
  | JDict d =>
      match dict_get d key with
      | Some v => ret v
      | None => raise (KeyError key)
      end
  | JList _ | JStr _ => raise (TypeError "indices must be integers")
  | _ => raise (TypeError "object is not subscriptable")
  end.

(** [x[key] = v] for a [str] key. *)
Definition py_setitem (x : Json) (key : string) (v : Json) : M Json :=
  match x with
  | JDict d => ret (JDict (dict_set d key v))
  | JList _ => raise (TypeError "list indices must be integers or slices, not str")
  | _ => raise (TypeError "object does not support item assignment")
  end.

(** The elements [for x in v] visits. *)
Definition py_iter (v : Json) : M (list Json) :=
  match v with
  | JList l => ret l
  | JDict d => ret (map (fun kv => JStr (fst kv)) d)
  | JStr s => ret (map (fun c => JStr (String c EmptyString)) (list_ascii_of_string s))
  | _ => raise (TypeError "object is not iterable")
  end.

(** [x == s] for a [str] [s]. *)
Definition eq_str (x : Json) (s : string) : bool :=
  match x with
  | JStr t => String.eqb t s
  | _ => false
  end.

(** ** The response model of a route

    On a route declared with [response_model=PageSpecResponse] FastAPI
    validates what the handler returned against the model once the
    handler has returned, and sends the validated model; a value that
    does not fit raises [ResponseValidationError] there, outside the
    handler's [try], and the client gets HTTP 500. *)

Class ResponseModel : Type := {
  (** The body sent for the dict a handler returned, or the validation
      errors. *)
  validate_PageSpecResponse : Json -> string + Json
}.

(** ** app/routes/pages.py *)

Module Routes.

Record GeneratePageRequest : Type := mkGeneratePageRequest {
  industry : string;
  offer : string;
  target_audience : string;
  brand_tone : string;
  website_url : option string
}.

Record EditSectionRequest : Type := mkEditSectionRequest {
  section_id : string;
  data : dict
}.

Record ReorderSectionsRequest : Type := mkReorderSectionsRequest {
  new_sections : list dict
}.

(** [for section in sections: if section["id"] == sid: found = section; break]. *)
Fixpoint find_section (elems : list Json) (sid : string) : M (option Json) :=
  match elems with
  | [] => ret None
  | section :: r =>
      i <- py_getitem section "id" ;;
      if eq_str i sid then ret (Some section) else find_section r sid
  end.

(** [for section in sections: if section["id"] == sid: section["data"] = rhs; break]:
    the list after the loop, and whether a section was found. *)
Fixpoint assign_section_data (elems : list Json) (sid : string) (rhs : M Json)
  : M (list Json * bool) :=
  match elems with
  | [] => ret ([], false)
  | section :: r =>
      i <- py_getitem section "id" ;;
      if eq_str i sid then
        v <- rhs ;;
        section' <- py_setitem section "data" v ;;
        ret (section' :: r, true)
      else
        res <- assign_section_data r sid rhs ;;
        ret (section :: fst res, snd res)
  end.

(** The object [sections] after the loop mutated one of its elements (a
    section can be found only in a list). *)
Definition mutated (sections : Json) (elems : list Json) : Json :=
  match sections with
  | JList _ => JList elems
  | _ => sections
  end.

Definition not_found_page (pid : string) : exn :=
  HTTPException 404 ("Page " ++ pid ++ " not found").
Definition not_found_section (sid : string) : exn :=
  HTTPException 404 ("Section " ++ sid ++ " not found").

(** [except HTTPException: raise / except Exception as e: raise
    HTTPException(500, prefix + str(e))]. *)
Definition reraise_as_500 {A : Type} (prefix : string) (e : exn) : M A :=
  if is_HTTPException e then raise e
  else raise (HTTPException 500 (prefix ++ exn_str e)).

(** [updated_page["version"]] for the optional document a store call returned. *)
Definition version_of (d : option Document) : M Json :=
  match d with
  | Some doc => ret (version doc)
  | None => raise (TypeError "'NoneType' object is not subscriptable")
  end.

Section WithPlatform.
Context {P : Platform}.

Definition user_input_of (request : GeneratePageRequest) : dict :=
  [ ("industry", JStr (industry request));
    ("offer", JStr (offer request));
    ("target_audience", JStr (target_audience request));
    ("brand_tone", JStr (brand_tone request)) ].

Definition generate_landing_page (request : GeneratePageRequest) : M Json :=
  try_except
    (let user_input := user_input_of request in
     crawled_context <-
       match website_url request with
       | Some u => if str_truthy u then Crawler.crawl_website_default u else ret None
       | None => ret None
       end ;;
     page_spec <- Generator.generate_page_spec user_input crawled_context ;;
     has_id <- py_in "pageId" page_spec ;;
     page_spec <-
       (if has_id then ret page_spec
        else hex <- uuid4 ;;
             py_setitem page_spec "pageId" (JStr ("landing-" ++ str_take 8 hex))) ;;
     has_version <- py_in "version" page_spec ;;
     page_spec <-
       (if has_version then ret page_spec
        else py_setitem page_spec "version" (JInt 1)) ;;
     saved <- Db.save_page page_spec user_input crawled_context None ;;
     pid <- py_getitem page_spec "pageId" ;;
     ver <- py_getitem page_spec "version" ;;
     secs <- py_getitem page_spec "sections" ;;
     match PageSpecResponse pid ver secs with
     | inl msg => raise (ValidationError msg)
     | inr body => ret body
     end)
    (fun e =>
       if is_ValueError e
       then raise (HTTPException 400 ("Invalid request: " ++ exn_str e))
       else raise (HTTPException 500 ("Failed to generate landing page: " ++ exn_str e))).

Definition edit_section (pid : string) (request : EditSectionRequest) : M Json :=
  try_except
    (page <- Db.get_page pid ;;
     match page with
     | None => raise (not_found_page pid)
     | Some p =>
         let sections := sections p in
         elems <- py_iter sections ;;
         res <- assign_section_data elems (section_id request) (ret (JDict (data request))) ;;
         if negb (snd res) then raise (not_found_section (section_id request))
         else
           updated_page <- Db.update_page pid (mutated sections (fst res)) ;;
           v <- version_of updated_page ;;
           ret (JDict [ ("message", JStr "Section updated successfully");
                        ("page_id", JStr pid);
                        ("version", v) ])
     end)
    (reraise_as_500 "Failed to edit section: ").

Definition regenerate_section_endpoint (pid : string) (request : EditSectionRequest) : M Json :=
  try_except
    (page <- Db.get_page pid ;;
     match page with
     | None => raise (not_found_page pid)
     | Some p =>
         let sections := sections p in
         elems <- py_iter sections ;;
         section_to_regenerate <- find_section elems (section_id request) ;;
         match section_to_regenerate with
         | Some (JDict section) =>
             let user_input := dict_get_default (data request) "context" (JDict []) in
             regenerated <- Generator.regenerate_section section user_input ;;
             res <- assign_section_data elems (section_id request)
                                        (py_getitem regenerated "data") ;;
             updated_page <- Db.update_page pid (mutated sections (fst res)) ;;
             v <- version_of updated_page ;;
             ret (JDict [ ("message", JStr "Section regenerated successfully");
                          ("page_id", JStr pid);
                          ("version", v) ])
         | _ => raise (not_found_section (section_id request))
         end
     end)
    (reraise_as_500 "Failed to regenerate section: ").

Definition reorder_sections (pid : string) (request : ReorderSectionsRequest) : M Json :=
  try_except
    (page <- Db.get_page pid ;;
     match page with
     | None => raise (not_found_page pid)
     | Some _ =>
         updated_page <- Db.update_page pid (JList (map JDict (new_sections request))) ;;
         v <- version_of updated_page ;;
         ret (JDict [ ("message", JStr "Sections reordered successfully");
                      ("page_id", JStr pid);
                      ("version", v) ])
     end)
    (reraise_as_500 "Failed to reorder sections: ").

Definition publish_landing_page (pid : string) : M Json :=
  try_except
    (page <- Db.get_page pid ;;
     match page with
     | None => raise (not_found_page pid)
     | Some _ =>
         published_page <- Db.publish_page pid ;;
         v <- version_of published_page ;;
         match PublishResponse pid v ("/preview/" ++ pid) "Page published successfully" with
         | inl msg => raise (ValidationError msg)
         | inr body => ret body
         end
     end)
    (reraise_as_500 "Failed to publish page: ").

End WithPlatform.

(** The function [get_landing_page]: the dict it returns. *)
Definition get_landing_page_handler (pid : string) : M Json :=
  try_except
    (page <- Db.get_page pid ;;
     match page with
     | None => raise (not_found_page pid)
     | Some p =>
         let response_data :=
           [ ("pageId", page_id p); ("version", version p); ("sections", sections p) ] in
         if truthy (user_context p)
         then ret (JDict (dict_set response_data "user_context" (user_context p)))
         else ret (JDict response_data)
     end)
    (reraise_as_500 "Failed to retrieve page: ").

Section WithResponseModel.
Context {V : ResponseModel}.

(** The route [GET /pages/{page_id}], declared with
    [response_model=PageSpecResponse]: the handler, then FastAPI's
    validation of the dict it returned. *)
Definition get_landing_page (pid : string) : M Json :=
  response_data <- get_landing_page_handler pid ;;
  match validate_PageSpecResponse response_data with
  | inl msg => raise (ResponseValidationError msg)
  | inr body => ret body
  end.

End WithResponseModel.

Definition delete_landing_page (pid : string) : M Json :=
  try_except
    (success <- Db.delete_page pid ;;
     if negb success then raise (not_found_page pid)
     else ret (JDict [ ("message", JStr "Page deleted successfully");
                       ("page_id", JStr pid) ]))
    (reraise_as_500 "Failed to delete page: ").

End Routes.

(** ** The HTTP surface

    FastAPI validates the request body against the request model before
    it calls the handler and answers 422 with the offending fields when
    the body does not fit; an [HTTPException] raised by the handler
    becomes a response with its status code and detail. *)

Module Api.

Inductive HttpResponse : Type :=
| Http200 (body : Json)
| HttpError (status_code : Z) (detail : string)
| Http422 (fields : list string).

Definition status (r : HttpResponse) : Z :=
  match r with
  | Http200 _ => 200
  | HttpError c _ => c
  | Http422 _ => 422
  end.

Definition respond (m : M Json) : World -> St -> HttpResponse * St :=
  fun w s =>
    match m w s with
    | (Ok body, s') => (Http200 body, s')
    | (Raise (HTTPException c d), s') => (HttpError c d, s')
    | (Raise _, s') => (HttpError 500 "Internal Server Error", s')
    end.





Section WithPlatform.
Context {P : Platform}.


(** [POST /api/pages/{page_id}/edit-section], [.../regenerate-section],
    [.../reorder-sections] and [.../publish] for a validated request. *)
Definition post_edit_section (pid : string) (request : Routes.EditSectionRequest) :=
  respond (Routes.edit_section pid request).
Definition post_regenerate_section (pid : string) (request : Routes.EditSectionRequest) :=
  respond (Routes.regenerate_section_endpoint pid request).
Definition post_reorder_sections (pid : string) (request : Routes.ReorderSectionsRequest) :=
  respond (Routes.reorder_sections pid request).
Definition post_publish (pid : string) :=
  respond (Routes.publish_landing_page pid).

(** A session of regenerations of one section of one page: each request
    meets its own world (provider reply, network, clock). *)
Fixpoint regenerate_many (pid : string) (request : Routes.EditSectionRequest)
  (worlds : list World) (s : St) : St :=
  match worlds with
  | [] => s
  | w :: r => regenerate_many pid request r (snd (post_regenerate_section pid request w s))
  end.

End WithPlatform.

(** [DELETE /api/pages/{page_id}]. *)
Definition delete_page_endpoint (pid : string) := respond (Routes.delete_landing_page pid).

(** One call that can write the store, with a validated request. *)
Inductive Call : Type :=
| Generate (request : Routes.GeneratePageRequest)
| EditSection (pid : string) (request : Routes.EditSectionRequest)
| RegenerateSection (pid : string) (request : Routes.EditSectionRequest)
| ReorderSections (pid : string) (request : Routes.ReorderSectionsRequest)
| Publish (pid : string)
| Delete (pid : string).

Section Router.
Context {P : Platform}.

Definition serve (c : Call) : World -> St -> HttpResponse * St :=
  match c with
  | Generate request => respond (Routes.generate_landing_page request)
  | EditSection pid request => post_edit_section pid request
  | RegenerateSection pid request => post_regenerate_section pid request
  | ReorderSections pid request => post_reorder_sections pid request
  | Publish pid => post_publish pid
  | Delete pid => delete_page_endpoint pid
  end.

(** A sequence of calls, one after the other, each in its own world: the
    answers and the state left. *)
Fixpoint serve_all (calls : list (Call * World)) (s : St) : list HttpResponse * St :=
  match calls with
  | [] => ([], s)
  | (c, w) :: r =>
      let (answer, s1) := serve c w s in
      let (answers, s2) := serve_all r s1 in
      (answer :: answers, s2)
  end.

End Router.
End Api.

(** ** A concrete platform and concrete worlds

    Used to run the model on explicit inputs.  The platform below agrees
    with the libraries on the inputs it is run on: three small pages of
    one site, absolute links, three provider replies. *)

Module Demo.

(** *** Strings *)

Definition is_space (c : ascii) : bool :=
  let n := nat_of_ascii c in
  ((9 <=? n) && (n <=? 13) || (28 <=? n) && (n <=? 32))%nat.

Fixpoint lstrip (s : string) : string :=
  match s with
  | String c r => if is_space c then lstrip r else s
  | EmptyString => EmptyString
  end.

Fixpoint rstrip (s : string) : string :=
  match s with
  | EmptyString => EmptyString
  | String a r =>
      match rstrip r with
      | EmptyString => if is_space a then EmptyString else String a EmptyString
      | r' => String a r'
      end
  end.

Definition strip (s : string) : string := rstrip (lstrip s).

(** [s.split(sep)]: [cur] is the piece being read, [skip] what is left of
    a separator just met. *)
Fixpoint split_go (sep : string) (skip : nat) (cur : string) (s : string) : list string :=
  match s with
  | EmptyString => [cur]
  | String c r =>
      match skip with
      | S k => split_go sep k cur r
      | O =>
          if String.prefix sep s
          then cur :: split_go sep (String.length sep - 1) EmptyString r
          else split_go sep 0 (cur ++ String c EmptyString) r
      end
  end.

Definition split (sep s : string) : list string := split_go sep 0 EmptyString s.

(** [s.splitlines()] for text whose only line breaks are line feeds. *)
Definition splitlines (s : string) : list string :=
  match s with
  | EmptyString => []
  | _ =>
      let parts := split nl s in
      match rev parts with
      | EmptyString :: r => rev r
      | _ => parts
      end
  end.

Definition upper_char (c : ascii) : ascii :=
  let n := nat_of_ascii c in
  if ((97 <=? n) && (n <=? 122))%nat then ascii_of_nat (n - 32) else c.

Fixpoint upper (s : string) : string :=
  match s with
  | EmptyString => EmptyString
  | String c r => String (upper_char c) (upper r)
  end.

(** [repr(s)] for a string without quotes, backslashes or control characters. *)
Definition repr_plain (s : string) : string := "'" ++ s ++ "'".

(** *** URLs of the form [scheme://netloc/path] *)

Fixpoint until_any (stops : list ascii) (s : string) : string * string :=
  match s with
  | EmptyString => (EmptyString, EmptyString)
  | String c r =>
      if existsb (Ascii.eqb c) stops then (EmptyString, s)
      else let (a, b) := until_any stops r in (String c a, b)
  end.

Definition parse_absolute (u : string) : exn + ParseResult :=
  match String.index 0 "://" u with
  | Some i =>
      let rest := substring (i + 3) (String.length u) u in
      let (host, after) := until_any ["/"; "?"; "#"]%char rest in
      let (p, _) := until_any ["?"; "#"]%char after in
      inr (mkParseResult (substring 0 i u) host p)
  | None => inr (mkParseResult "" "" (fst (until_any ["?"; "#"]%char u)))
  end.

(** [urljoin(base, href)] for an absolute [href] or one that starts with [/]. *)
Definition join_url (base href : string) : exn + string :=
  if str_contains "://" href then inr href
  else match parse_absolute base with
       | inr b => inr (scheme b ++ "://" ++ netloc b ++ href)
       | inl e => inl e
       end.

(** *** Three pages *)

Record Page : Type := mkPage {
  source : string;             (* the markup, which is also [str(soup)] *)
  title_text : option string;
  h1_texts : list string;
  text : string;               (* [get_text(separator=' ', strip=True)] *)
  hrefs : list string
}.

Definition home_page : Page :=
  mkPage
    (qq "<title>Acme</title><h1>Anvils</h1><a href=~https://acme.test/about~>About</a><a href=~https://acme.test/pricing~>Pricing</a><a href=~https://acme.test/blog~>Blog</a>")
    (Some "Acme") ["Anvils"] "Acme Anvils About Pricing Blog"
    ["https://acme.test/about"; "https://acme.test/pricing"; "https://acme.test/blog"].

Definition about_page : Page :=
  mkPage "<title>About</title><p>Since 1949</p>" (Some "About") [] "About Since 1949" [].

Definition pricing_page : Page :=
  mkPage "<title>Pricing</title><p>Fair</p>" (Some "Pricing") [] "Pricing Fair" [].

Definition blog_page : Page :=
  mkPage "<title>Blog</title><p>News</p>" (Some "Blog") [] "Blog News" [].

(** A page without links. *)
Definition lone_page : Page :=
  mkPage "<title>Solo</title><p>Hello</p>" (Some "Solo") [] "Solo Hello" [].

Definition empty_page (s : string) : Page := mkPage s None [] "" [].

Definition pages : list Page := [home_page; about_page; pricing_page; blog_page; lone_page].

Definition parse_page (s : string) : Page :=
  match find (fun p => String.eqb (source p) s) pages with
  | Some p => p
  | None => empty_page s
  end.

(** *** Provider replies and their JSON *)

Definition reply_section : string :=
  qq "{~id~: ~other~, ~type~: ~footer~, ~order~: 9, ~data~: {~headline~: ~New~}}".
Definition reply_section_json : Json :=
  JDict [ ("id", JStr "other"); ("type", JStr "footer"); ("order", JInt 9);
          ("data", JDict [("headline", JStr "New")]) ].

Definition reply_page : string :=
  qq "{~pageId~: ~landing-1~, ~version~: 1, ~sections~: []}".
Definition reply_page_json : Json :=
  JDict [ ("pageId", JStr "landing-1"); ("version", JInt 1); ("sections", JList []) ].

(** A reply that is JSON but no page. *)
Definition reply_empty_object : string := "{}".

(** A reply that is not JSON. *)
Definition reply_not_json : string := "Sorry, I cannot produce that page.".

Definition decode (s : string) : string + Json :=
  if String.eqb s reply_section then inr reply_section_json
  else if String.eqb s reply_page then inr reply_page_json
  else if String.eqb s reply_empty_object then inr (JDict [])
  else inl "Expecting value: line 1 column 1 (char 0)".

(** *** Response models *)

Definition is_section (j : Json) : bool :=
  match j with
  | JDict d =>
      match dict_get d "id", dict_get d "type", dict_get d "order", dict_get d "data" with
      | Some (JStr _), Some (JStr _), Some (JInt _), Some (JDict _) => true
      | _, _, _, _ => false
      end
  | _ => false
  end.

Definition page_spec_response (pid ver secs : Json) : string + Json :=
  match pid, ver, secs with
  | JStr _, JInt _, JList l =>
      if forallb is_section l
      then inr (JDict [("pageId", pid); ("version", ver); ("sections", secs);
                       ("user_context", JNull)])
      else inl "validation error for PageSpecResponse"
  | _, _, _ => inl "validation error for PageSpecResponse"
  end.

Definition publish_response (pid : string) (ver : Json) (u m : string) : string + Json :=
  match ver with
  | JInt _ =>
      inr (JDict [("page_id", JStr pid); ("version", ver); ("url", JStr u);
                  ("message", JStr m)])
  | _ => inl "validation error for PublishResponse"
  end.

#[local] Instance platform : Platform := {
  soup := Page;
  BeautifulSoup := parse_page;
  soup_find_title := title_text;
  soup_find_meta_content := fun _ _ _ => None;
  soup_find_all_text := fun tag p => if String.eqb tag "h1" then h1_texts p else [];
  soup_decompose := fun _ p => p;
  soup_get_text := text;
  soup_str := source;
  soup_a_hrefs := hrefs;
  urljoin := join_url;
  urlparse := parse_absolute;
  json_loads := decode;
  repr_str := repr_plain;
  str_strip := strip;
  str_splitlines := splitlines;
  str_split := split;
  str_upper := upper;
  PageSpecResponse := page_spec_response;
  PublishResponse := publish_response
}.

(** *** Worlds *)

Definition site (u : string) : exn + string :=
  if String.eqb u "https://acme.test" then inr (source home_page)
  else if String.eqb u "https://acme.test/about" then inr (source about_page)
  else if String.eqb u "https://acme.test/pricing" then inr (source pricing_page)
  else if String.eqb u "https://acme.test/blog" then inr (source blog_page)
  else if String.eqb u "https://solo.test" then inr (source lone_page)
  else inl (RequestException "404 Client Error: Not Found").

(** The same site with the pricing page down. *)
Definition site_pricing_down (u : string) : exn + string :=
  if String.eqb u "https://acme.test/pricing"
  then inl (RequestException "503 Server Error")
  else site u.

(** Two hash seeds: one orders strings by length, the other the opposite way. *)
Definition hash_a (s : string) : nat := String.length s.
Definition hash_b (s : string) : nat := 100 - String.length s.

Definition world (get : string -> exn + string) (h : string -> nat)
  (reply : string + option string) : World :=
  mkWorld get h (fun _ => reply)
          (fun _ => "0123456789abcdef0123456789abcdef")
          (fun k => 1000 + Z.of_nat k).

Definition empty_state : St := mkSt [] [] [] [] 0 0.

Definition world_a : World := world site hash_a (inr (Some reply_page)).
Definition world_b : World := world site hash_b (inr (Some reply_page)).
Definition world_pricing_down : World :=
  world site_pricing_down hash_b (inr (Some reply_page)).
Definition world_regenerating : World := world site hash_a (inr (Some reply_section)).
Definition world_not_json : World := world site hash_a (inr (Some reply_not_json)).
Definition world_empty_object : World := world site hash_a (inr (Some reply_empty_object)).

(** The brand contexts the crawls below return. *)
Definition solo_context : string :=
  "=== HOME PAGE ===
URL: https://solo.test
Title: Solo
Content Preview:
Solo Hello".

Definition acme_context_a : string :=
  "=== HOME PAGE ===
URL: https://acme.test
Title: Acme
Main Headings: Anvils
Content Preview:
Acme Anvils About Pricing Blog

=== PAGE 1 ===
URL: https://acme.test/blog
Title: Blog
Content Preview:
Blog News

=== PAGE 2 ===
URL: https://acme.test/about
Title: About
Content Preview:
About Since 1949".

Definition acme_context_b : string :=
  "=== HOME PAGE ===
URL: https://acme.test
Title: Acme
Main Headings: Anvils
Content Preview:
Acme Anvils About Pricing Blog

=== PAGE 1 ===
URL: https://acme.test/pricing
Title: Pricing
Content Preview:
Pricing Fair

=== PAGE 2 ===
URL: https://acme.test/about
Title: About
Content Preview:
About Since 1949".

Definition bakery : Routes.GeneratePageRequest :=
  Routes.mkGeneratePageRequest "bakery" "custom cakes" "event planners" "warm"
                               (Some "https://solo.test").

Definition hero : Json :=
  JDict [ ("id", JStr "hero-1"); ("type", JStr "hero"); ("order", JInt 0);
          ("data", JDict [("headline", JStr "Old")]) ].

(** A stored page with its brief and its brand context. *)
Definition stored_page : Document :=
  mkDocument (JStr "landing-1") (JInt 1) (JList [hero]) 1000 1001 None false
             (JDict [ ("industry", JStr "bakery"); ("offer", JStr "custom cakes");
                      ("target_audience", JStr "event planners");
                      ("brand_tone", JStr "warm") ])
             (Some "=== HOME PAGE ===").

(** The state after that page was generated: one identifier drawn, the
    clock read twice. *)
Definition state_with_page : St := mkSt [stored_page] [] [] [] 1 2.

(** A request to regenerate the hero section that carries no context. *)
Definition regenerate_hero : Routes.EditSectionRequest :=
  Routes.mkEditSectionRequest "hero-1" [].

(** A request to edit the hero section. *)
Definition edit_hero : Routes.EditSectionRequest :=
  Routes.mkEditSectionRequest "hero-1" [("headline", JStr "Edited")].

Definition reorder_one : Routes.ReorderSectionsRequest :=
  Routes.mkReorderSectionsRequest
    [[("id", JStr "hero-1"); ("type", JStr "hero"); ("order", JInt 0);
      ("data", JDict [("headline", JStr "Old")])]].

(** A brief without industry, audience and tone. *)
Definition partial_brief : dict := [("offer", JStr "custom cakes")].

(** [Optional[Dict[str, str]]] on a value whose strings are strings. *)
Definition is_str_dict (j : Json) : bool :=
  match j with
  | JDict d => forallb (fun kv => match snd kv with JStr _ => true | _ => false end) d
  | _ => false
  end.

(** The validation of a returned dict against [PageSpecResponse]. *)
Definition validate_page_response (j : Json) : string + Json :=
  match j with
  | JDict d =>
      match dict_get d "pageId", dict_get d "version", dict_get d "sections" with
      | Some (JStr pid), Some (JInt ver), Some (JList l) =>
          if forallb is_section l
          then match dict_get d "user_context" with
               | None | Some JNull =>
                   inr (JDict [("pageId", JStr pid); ("version", JInt ver);
                               ("sections", JList l); ("user_context", JNull)])
               | Some u =>
                   if is_str_dict u
                   then inr (JDict [("pageId", JStr pid); ("version", JInt ver);
                                    ("sections", JList l); ("user_context", u)])
                   else inl "validation error for PageSpecResponse"
               end
          else inl "validation error for PageSpecResponse"
      | _, _, _ => inl "validation error for PageSpecResponse"
      end
  | _ => inl "validation error for PageSpecResponse"
  end.

#[local] Instance response_model : ResponseModel := {
  validate_PageSpecResponse := validate_page_response
}.

End Demo.

(** ** A site with a link that cannot be resolved

    [urljoin] parses its second argument, and [urlsplit] raises
    [ValueError("Invalid IPv6 URL")] on a host with an opening bracket
    and no closing one. *)

Module Faulty.

Definition gate_page : Demo.Page :=
  Demo.mkPage
    (qq "<title>Gate</title><a href=~https://gate.test/about~>About</a><a href=~http://[::1~>Admin</a>")
    (Some "Gate") [] "Gate About Admin"
    ["https://gate.test/about"; "http://[::1"].

Definition parse_page (s : string) : Demo.Page :=
  if String.eqb s (Demo.source gate_page) then gate_page else Demo.parse_page s.

Definition join_url (base href : string) : exn + string :=
  if str_contains "[" href && negb (str_contains "]" href)
  then inl (ValueError "Invalid IPv6 URL")
  else Demo.join_url base href.

#[local] Instance platform : Platform := {
  soup := Demo.Page;
  BeautifulSoup := parse_page;
  soup_find_title := Demo.title_text;
  soup_find_meta_content := fun _ _ _ => None;
  soup_find_all_text := fun tag p => if String.eqb tag "h1" then Demo.h1_texts p else [];
  soup_decompose := fun _ p => p;
  soup_get_text := Demo.text;
  soup_str := Demo.source;
  soup_a_hrefs := Demo.hrefs;
  urljoin := join_url;
  urlparse := Demo.parse_absolute;
  json_loads := Demo.decode;
  repr_str := Demo.repr_plain;
  str_strip := Demo.strip;
  str_splitlines := Demo.splitlines;
  str_split := Demo.split;
  str_upper := Demo.upper;
  PageSpecResponse := Demo.page_spec_response;
  PublishResponse := Demo.publish_response
}.

Definition site (u : string) : exn + string :=
  if String.eqb u "https://gate.test" then inr (Demo.source gate_page)
  else if String.eqb u "https://gate.test/about" then inr (Demo.source Demo.about_page)
  else inl (RequestException "404 Client Error: Not Found").

Definition world : World := Demo.world site Demo.hash_a (inr (Some Demo.reply_page)).

End Faulty.

(** * Vocabulary of the properties *)

Local Open Scope list_scope.

Section Vocabulary.
Context {P : Platform}.

(** What fetching [u] yields in world [w]: the page data, or nothing. *)
Definition page_of (w : World) (u : string) : option Crawler.PageData :=
  match requests_get w u with
  | inr content => Some (Crawler.page_data_of u content)
  | inl _ => None
  end.

(** The error [_fetch_page_data] logs for [u], if any. *)
Definition fetch_log (w : World) (u : string) : list (level * string) :=
  match requests_get w u with
  | inl e => [(ERROR, ("Error fetching " ++ u ++ ": " ++ exn_str e)%string)]
  | inr _ => []
  end.

(** The pages fetched with success among [links], in order. *)
Definition fetched_pages (w : World) (links : list string) : list Crawler.PageData :=
  flat_map (fun u => match page_of w u with Some p => [p] | None => [] end) links.

(** The internal links found on a page (the call reads no state). *)
Definition links_of (w : World) (base_url html_text : string) : Res (list string) :=
  fst (Crawler._extract_internal_links base_url html_text w (mkSt [] [] [] [] 0 0)).

(** The inner pages the crawl goes on to fetch. *)
Definition candidates (w : World) (base_url : string) (home : Crawler.PageData)
  (max_inner_pages : Z) : list string :=
  match links_of w base_url (Crawler.html home) with
  | Ok links => py_slice_to links max_inner_pages
  | Raise _ => []
  end.

(** What the inner-page loop logs for [links]. *)
Definition inner_log (w : World) (links : list string) : list (level * string) :=
  flat_map (fun u => (INFO, ("Crawling inner page: " ++ u)%string) :: fetch_log w u) links.

(** A computation that reads the world but neither reads nor writes the state. *)
Definition stateless {A : Type} (m : M A) : Prop :=
  forall w s s0, m w s = (fst (m w s0), s).

(** The pages the crawl folds: the home page, then the inner pages fetched. *)
Definition crawled_pages (w : World) (base_url : string) (home : Crawler.PageData)
  (max_inner_pages : Z) : list Crawler.PageData :=
  home :: fetched_pages w (candidates w base_url home max_inner_pages).

(** What [crawl_website] returns, fetches and logs, read off the world. *)
Definition crawl_result (w : World) (base_url : string) (max_inner_pages : Z)
  : option string :=
  match page_of w base_url with
  | Some home =>
      Some (Crawler._build_brand_context (crawled_pages w base_url home max_inner_pages))
  | None => None
  end.

Definition crawl_fetches (w : World) (base_url : string) (max_inner_pages : Z)
  : list string :=
  base_url ::
  match page_of w base_url with
  | Some home => candidates w base_url home max_inner_pages
  | None => []
  end.

Definition crawl_log (w : World) (base_url : string) (max_inner_pages : Z)
  : list (level * string) :=
  ((INFO, ("Crawling: " ++ base_url)%string) :: fetch_log w base_url)
  ++ match page_of w base_url with
     | None => [(WARNING, "Failed to crawl home page")]
     | Some home =>
         match links_of w base_url (Crawler.html home) with
         | Ok links => inner_log w (py_slice_to links max_inner_pages)
         | Raise e => [(WARNING, ("Failed to extract inner links: " ++ exn_str e)%string)]
         end
         ++ [(INFO, ("✓ Crawled "
                     ++ str_of_nat (length (crawled_pages w base_url home max_inner_pages))
                     ++ " pages successfully")%string)]
     end.

(** Two worlds in which a computation runs alike. *)
Definition same_run {A : Type} (w1 w2 : World) (m : M A) : Prop :=
  forall s, m w1 s = m w2 s.

(** The brief completed with the defaults of [build_landing_page_prompt]. *)
Definition with_defaults (user_input : dict) : dict :=
  dict_setdefault
    (dict_setdefault
       (dict_setdefault
          (dict_setdefault user_input "industry" (JStr "general business"))
          "offer" (JStr ""))
       "target_audience" (JStr ""))
    "brand_tone" (JStr "professional").

(** What the prompt shows for the field [k] of a brief: the field as
    given, or [default] when the brief has none. *)
Definition shown (user_input : dict) (k default : string) : string :=
  match dict_get user_input k with
  | Some v => py_str v
  | None => default
  end.

(** The text [s] ends with [x]. *)
Definition ends_with (x s : string) : Prop :=
  exists a, s = (a ++ x)%string.

(** The identifier [build_landing_page_prompt] draws in state [s]. *)
Definition drawn_page_id (w : World) (s : St) : string :=
  ("landing-" ++ str_take 8 (uuid4_hex w (uuid_k s)))%string.

(** A computation that leaves the observation [f] of the state as it was. *)
Definition preserves {X A : Type} (f : St -> X) (m : M A) : Prop :=
  forall w s, f (snd (m w s)) = f s.

(** The request [generate_page_spec] sends for a brief, from state [s]. *)
Definition generation_request (w : World) (s : St) (user_input : dict) : ChatRequest :=
  mkChatRequest "gpt-4o" Generator.system_prompt
                (Prompts.landing_page_prompt (drawn_page_id w s) user_input None)
                (7 # 10) 2500.

(** The provider's reply to [q] cannot be used: an error, no content, or
    a text that is not JSON. *)
Definition unusable_reply (w : World) (q : ChatRequest) : Prop :=
  match chat_completions_create w q with
  | inl _ => True
  | inr None => True
  | inr (Some t) => exists msg, json_loads t = inl msg
  end.

(** The field [k] of a section. *)
Definition field (section : Json) (k : string) : option Json :=
  match section with
  | JDict d => dict_get d k
  | _ => None
  end.

(** [y] is [x], or [x] with a new [data] when [x] is the section [sid]. *)
Definition same_but_data (sid : string) (x y : Json) : Prop :=
  x = y
  \/ (field x "id" = Some (JStr sid)
      /\ exists d v, x = JDict d /\ y = JDict (dict_set d "data" v)).

(** The stored [sections] before and after: the same value, or lists whose
    sections correspond one to one. *)
Definition sections_same_but_data (sid : string) (a b : Json) : Prop :=
  a = b
  \/ exists l l', a = JList l /\ b = JList l' /\ Forall2 (same_but_data sid) l l'.

(** The integer a stored version stands for. *)
Definition int_value (v : Json) : option Z :=
  match v with
  | JInt n => Some n
  | JBool b => Some (Z.b2z b)
  | _ => None
  end.

(** The stored page [pid]. *)
Definition stored (pid : string) (s : St) : option Document :=
  find (Db.matches pid) (store s).


(** The outcome of a route that rewrites the sections of page [pid]: it
    fails and the store is as it was, or it succeeds and the store holds
    the page with new sections related to the old ones by [R], the version
    plus one and the time read from the clock. *)
Definition mutation_outcome (R : Json -> Json -> Prop) (pid : string)
  (w : World) (s : St) (r : Res Json * St) : Prop :=
  (store (snd r) = store s /\ exists e, fst r = Raise e)
  \/ exists p n secs body,
       stored pid s = Some p
       /\ int_value (version p) = Some n
       /\ R (sections p) secs
       /\ store (snd r)
          = Db.update_first pid
              (Db.set_sections secs (JInt (n + 1)) (utcnow w (clock_k s))) (store s)
       /\ fst r = Ok body.

(** The crawl [generate_landing_page] makes for the request's URL. *)
Definition route_crawl (request : Routes.GeneratePageRequest)
  : M (option string) :=
  match Routes.website_url request with
  | Some u => if str_truthy u then Crawler.crawl_website_default u else ret None
  | None => ret None
  end.


(** The request [regenerate_section] sends for a section of type [ty], a
    context [d] and a brand context [c]. *)
Definition regeneration_request (section : dict) (ty : string) (d : dict)
  (c : option string) : ChatRequest :=
  mkChatRequest "gpt-4o" Generator.system_prompt
                (Prompts.section_regenerate_prompt section ty d c) (7 # 10) 2000.

(** One block of the brand context: the lines of one page. *)
Definition block (i : nat) (page : Crawler.PageData) : string :=
  join nl (Crawler.page_parts i page).


(** No two documents of the collection have the same [page_id]: what
    the unique index of [init_db] maintains. *)
Fixpoint unique_ids (docs : list Document) : Prop :=
  match docs with
  | [] => True
  | d :: r =>
      Forall (fun x => Db.json_eqb (page_id d) (page_id x) = false) r /\ unique_ids r
  end.

(** A section that is a dict with an [id] other than [sid]. *)
Definition other_section (sid : string) (x : Json) : Prop :=
  exists d i, x = JDict d /\ dict_get d "id" = Some i /\ eq_str i sid = false.

(** The call rewrites the sections of page [pid]. *)
Definition rewrites (pid : string) (c : Api.Call) : bool :=
  match c with
  | Api.EditSection p _ | Api.RegenerateSection p _ | Api.ReorderSections p _ =>
      String.eqb p pid
  | _ => false
  end.

(** The call deletes page [pid]. *)
Definition deletes (pid : string) (c : Api.Call) : bool :=
  match c with
  | Api.Delete p => String.eqb p pid
  | _ => false
  end.

Definition is_ok (r : Api.HttpResponse) : bool :=
  match r with
  | Api.Http200 _ => true
  | _ => false
  end.

(** How many calls of a session rewrote the sections of page [pid] and
    were answered with success. *)
Fixpoint rewrites_done (pid : string) (calls : list (Api.Call * World))
  (answers : list Api.HttpResponse) : Z :=
  match calls, answers with
  | (c, _) :: calls', a :: answers' =>
      (if rewrites pid c && is_ok a then 1 else 0) + rewrites_done pid calls' answers'
  | _, _ => 0
  end.

(** [d'] is a later state of the stored page [d] after [k] rewrites: the
    identifier, the creation time, the owner, the brief and the brand
    context are as they were, a published page is still published, and
    the version has grown by [k]. *)
Definition later_state (k : Z) (d d' : Document) : Prop :=
  page_id d' = page_id d /\ created_at d' = created_at d /\ user_id d' = user_id d
  /\ user_context d' = user_context d /\ crawled_context d' = crawled_context d
  /\ (published d = true -> published d' = true)
  /\ forall n, int_value (version d) = Some n -> int_value (version d') = Some (n + k).

(** The page specification the generate route saves for the object
    [spec] the provider returned: [pageId] and [version] are filled in
    when missing, with the identifier drawn from [hex]. *)
Definition completed_spec (spec : dict) (hex : string) : dict :=
  let spec1 :=
    match dict_get spec "pageId" with
    | Some _ => spec
    | None => dict_set spec "pageId" (JStr ("landing-" ++ str_take 8 hex)%string)
    end in
  match dict_get spec1 "version" with
  | Some _ => spec1
  | None => dict_set spec1 "version" (JInt 1)
  end.

(** A computation that leaves the collection as it was or appends one
    document whose [page_id] no stored document has. *)
Definition appends_doc {A : Type} (m : M A) : Prop :=
  forall w s,
    store (snd (m w s)) = store s
    \/ exists d,
         store (snd (m w s)) = store s ++ [d]
         /\ existsb (fun d' => Db.json_eqb (page_id d') (page_id d)) (store s) = false.

End Vocabulary.

(** * Properties *)

(** ** The crawl, step by step *)

Section CrawlerFacts.
Context {P : Platform}.

Lemma fetch_page_data_run (u : string) (w : World) (s : St) :
  Crawler._fetch_page_data u w s =
  (Ok (page_of w u),
   mkSt (store s) (log s ++ fetch_log w u) (fetched s ++ [u]) (sent s) (uuid_k s) (clock_k s)).
Proof.
  unfold Crawler._fetch_page_data, try_except, bind, http_get, page_of, fetch_log, logger, ret.
  destruct (requests_get w u) as [e | content]; simpl.
  - reflexivity.
  - rewrite app_nil_r. reflexivity.
Qed.

Lemma crawl_inner_page_run (pages : list Crawler.PageData) (link : string) (w : World) (s : St) :
  Crawler.crawl_inner_page pages link w s =
  (Ok (pages ++ fetched_pages w [link])%list,
   mkSt (store s)
        (log s ++ inner_log w [link])
        (fetched s ++ [link]) (sent s) (uuid_k s) (clock_k s)).
Proof.
  unfold Crawler.crawl_inner_page, try_except, bind at 1 2, logger at 1.
  rewrite fetch_page_data_run. unfold fetched_pages, inner_log. cbn [flat_map].
  cbn [store log fetched sent uuid_k clock_k].
  destruct (page_of w link); unfold ret;
    rewrite ?app_nil_r, <- ?app_assoc; reflexivity.
Qed.


Lemma fetched_pages_cons (w : World) (u : string) (r : list string) :
  fetched_pages w (u :: r) = (fetched_pages w [u] ++ fetched_pages w r)%list.
Proof. unfold fetched_pages. cbn [flat_map]. rewrite app_nil_r. reflexivity. Qed.

Lemma inner_log_cons (w : World) (u : string) (r : list string) :
  inner_log w (u :: r) =
  (((INFO, ("Crawling inner page: " ++ u)%string) :: fetch_log w u) ++ inner_log w r)%list.
Proof. reflexivity. Qed.

Lemma for_each_inner_run (links : list string) (pages : list Crawler.PageData)
  (w : World) (s : St) :
  for_each links pages Crawler.crawl_inner_page w s =
  (Ok (pages ++ fetched_pages w links)%list,
   mkSt (store s) (log s ++ inner_log w links) (fetched s ++ links)
        (sent s) (uuid_k s) (clock_k s)).
Proof.
  revert pages s. induction links as [| u r IH]; intros pages s.
  - cbn [for_each]. unfold ret, fetched_pages, inner_log. cbn [flat_map].
    rewrite !app_nil_r. destruct s; reflexivity.
  - rewrite (fetched_pages_cons w u r), (inner_log_cons w u r).
    cbn [for_each]. unfold bind. rewrite crawl_inner_page_run, IH.
    cbn [store log fetched sent uuid_k clock_k].
    unfold inner_log at 1. cbn [flat_map]. rewrite app_nil_r, <- !app_assoc.
    reflexivity.
Qed.

Lemma stateless_ret {A : Type} (a : A) : stateless (ret a).
Proof. intros w s s0. reflexivity. Qed.

Lemma stateless_raise {A : Type} (e : exn) : stateless (@raise A e).
Proof. intros w s s0. reflexivity. Qed.

Lemma stateless_lift {A : Type} (r : exn + A) : stateless (lift r).
Proof. destruct r; [apply stateless_raise | apply stateless_ret]. Qed.

Lemma stateless_bind {A B : Type} (m : M A) (k : A -> M B) :
  stateless m -> (forall a, stateless (k a)) -> stateless (bind m k).
Proof.
  intros Hm Hk w s s0. unfold bind.
  rewrite (Hm w s s0), (Hm w s0 s0).
  destruct (fst (m w s0)) as [a | e]; simpl.
  - rewrite (Hk a w s s0). rewrite (Hk a w s0 s0). reflexivity.
  - reflexivity.
Qed.

Lemma stateless_for_each {A B : Type} (l : list A) (body : B -> A -> M B) :
  (forall acc x, stateless (body acc x)) -> forall acc, stateless (for_each l acc body).
Proof.
  intros Hb. induction l as [| x r IH]; intros acc; simpl.
  - apply stateless_ret.
  - apply stateless_bind; [apply Hb | intros a; apply IH].
Qed.

Lemma stateless_extract (base_url html_text : string) :
  stateless (Crawler._extract_internal_links base_url html_text).
Proof.
  unfold Crawler._extract_internal_links.
  apply stateless_bind; [apply stateless_lift | intros base].
  apply stateless_bind.
  - apply stateless_for_each. intros acc href.
    destruct (startswith_any href _); [apply stateless_ret |].
    apply stateless_bind; [apply stateless_lift | intros full].
    apply stateless_bind; [apply stateless_lift | intros parsed].
    destruct (String.eqb _ _); [| apply stateless_ret].
    destruct (negb _); apply stateless_ret.
  - intros links. apply stateless_bind; [| intros l; apply stateless_ret].
    intros w s s0. reflexivity.
Qed.

Lemma extract_run (base_url html_text : string) (w : World) (s : St) :
  Crawler._extract_internal_links base_url html_text w s =
  (links_of w base_url html_text, s).
Proof. apply stateless_extract. Qed.

Lemma crawl_website_run (base_url : string) (max_inner_pages : Z) (w : World) (s : St) :
  Crawler.crawl_website base_url max_inner_pages w s =
  (Ok (crawl_result w base_url max_inner_pages),
   mkSt (store s) (log s ++ crawl_log w base_url max_inner_pages)
        (fetched s ++ crawl_fetches w base_url max_inner_pages)
        (sent s) (uuid_k s) (clock_k s)).
Proof.
  unfold Crawler.crawl_website, crawl_result, crawl_log, crawl_fetches, crawled_pages,
    candidates.
  unfold try_except at 1. unfold bind at 1. unfold logger at 1.
  unfold bind at 1. rewrite fetch_page_data_run.
  cbn [store log fetched sent uuid_k clock_k].
  destruct (page_of w base_url) as [home |].
  - unfold bind at 1. unfold try_except at 1. unfold bind at 1.
    rewrite extract_run.
    destruct (links_of w base_url (Crawler.html home)) as [links | e].
    + rewrite for_each_inner_run. cbn [store log fetched sent uuid_k clock_k].
      unfold bind, logger, ret. cbn [store log fetched sent uuid_k clock_k].
      rewrite <- !app_assoc. reflexivity.
    + unfold bind, logger, ret. cbn [store log fetched sent uuid_k clock_k].
      unfold fetched_pages. cbn [flat_map]. rewrite <- !app_assoc. reflexivity.
  - unfold bind, logger, ret. cbn [store log fetched sent uuid_k clock_k].
    rewrite <- !app_assoc. reflexivity.
Qed.

End CrawlerFacts.

(** ** Strings and joins *)

Lemma append_assoc (a b c : string) : ((a ++ b) ++ c = a ++ (b ++ c))%string.
Proof. induction a as [| x a IH]; simpl; [reflexivity | rewrite IH; reflexivity]. Qed.

Lemma append_nil_r (a : string) : (a ++ "" = a)%string.
Proof. induction a as [| x a IH]; simpl; [reflexivity | rewrite IH; reflexivity]. Qed.

Lemma prefix_append (p r : string) : String.prefix p (p ++ r) = true.
Proof.
  induction p as [| x p IH]; simpl.
  - destruct r; reflexivity.
  - destruct (ascii_dec x x) as [_ | n]; [exact IH | contradiction].
Qed.

Lemma prefix_split (p s : string) :
  String.prefix p s = true -> exists r, s = (p ++ r)%string.
Proof.
  revert s. induction p as [| x p IH]; intros s.
  - intros _. exists s. reflexivity.
  - destruct s as [| y s]; cbn [String.prefix]; [discriminate |].
    destruct (ascii_dec x y) as [<- | _]; [| discriminate].
    intros H. destruct (IH s H) as [r ->]. exists r. reflexivity.
Qed.

(** [str_contains] decides [occurs_in]. *)
Lemma str_contains_spec (x s : string) : str_contains x s = true <-> occurs_in x s.
Proof.
  split.
  - induction s as [| c s IH]; cbn [str_contains]; intros H.
    + rewrite orb_false_r in H. destruct (prefix_split _ _ H) as [r Hr].
      exists ""%string, r. exact Hr.
    + apply orb_true_iff in H. destruct H as [H | H].
      * destruct (prefix_split _ _ H) as [r Hr]. exists ""%string, r. exact Hr.
      * destruct (IH H) as (a & b & ->). exists (String c a), b. reflexivity.
  - intros (a & b & ->). induction a as [| c a IH].
    + cbn [append]. destruct (x ++ b)%string eqn:E; cbn [str_contains];
        rewrite <- E, prefix_append; reflexivity.
    + cbn [append str_contains]. rewrite IH. apply orb_true_r.
Qed.

Lemma join_cons (sep x : string) (y : string) (r : list string) :
  join sep (x :: y :: r) = (x ++ sep ++ join sep (y :: r))%string.
Proof. reflexivity. Qed.

Lemma join_app (sep : string) (l1 l2 : list string) :
  l1 <> [] -> l2 <> [] ->
  join sep (l1 ++ l2) = (join sep l1 ++ sep ++ join sep l2)%string.
Proof.
  intros H1 H2. induction l1 as [| x r IH]; [contradiction |].
  destruct r as [| y r].
  - destruct l2 as [| z l2]; [contradiction | reflexivity].
  - change ((x :: y :: r) ++ l2) with (x :: y :: (r ++ l2)).
    rewrite !join_cons.
    change (y :: r ++ l2) with ((y :: r) ++ l2).
    rewrite IH by discriminate. rewrite !append_assoc. reflexivity.
Qed.

Lemma join_flat_map {A : Type} (sep : string) (f : A -> list string) (l : list A) :
  (forall x, f x <> []) ->
  join sep (flat_map f l) = join sep (map (fun x => join sep (f x)) l).
Proof.
  intros Hf. induction l as [| x r IH]; [reflexivity |].
  cbn [flat_map map]. destruct r as [| y r].
  - cbn [flat_map map]. rewrite app_nil_r. reflexivity.
  - rewrite join_app.
    + rewrite IH. reflexivity.
    + apply Hf.
    + cbn [flat_map]. intros H. apply app_eq_nil in H. destruct H as [H _].
      exact (Hf y H).
Qed.

Section BrandContextFacts.
Context {P : Platform}.

Lemma page_parts_cons (i : nat) (page : Crawler.PageData) :
  exists hd tl, Crawler.page_parts i page = hd :: tl
    /\ (i = 0%nat -> hd = ("=== HOME PAGE ===" ++ nl ++ "URL: " ++ Crawler.url page)%string).
Proof.
  unfold Crawler.page_parts. eexists. eexists. split.
  - cbn [app]. reflexivity.
  - intros ->. reflexivity.
Qed.

Lemma build_brand_context_blocks (pages : list Crawler.PageData) :
  Crawler._build_brand_context pages =
  join nl (map (fun ip => block (fst ip) (snd ip)) (enumerate pages)).
Proof.
  unfold Crawler._build_brand_context, block.
  apply (join_flat_map nl (fun ip => Crawler.page_parts (fst ip) (snd ip))).
  intros [i page]. destruct (page_parts_cons i page) as (hd & tl & H & _).
  cbn [fst snd]. rewrite H. discriminate.
Qed.

Lemma block_home_prefix (home : Crawler.PageData) :
  exists rest, block 0 home =
    (("=== HOME PAGE ===" ++ nl ++ "URL: " ++ Crawler.url home) ++ rest)%string.
Proof.
  unfold block. destruct (page_parts_cons 0 home) as (hd & tl & H & Hhd).
  rewrite H, (Hhd eq_refl). destruct tl as [| y tl].
  - exists ""%string. cbn [join String.concat]. rewrite append_nil_r. reflexivity.
  - eexists. rewrite join_cons. reflexivity.
Qed.

Lemma brand_context_home_prefix (home : Crawler.PageData) (inner : list Crawler.PageData) :
  startswith (Crawler._build_brand_context (home :: inner))
             ("=== HOME PAGE ===" ++ nl ++ "URL: " ++ Crawler.url home) = true.
Proof.
  rewrite build_brand_context_blocks. unfold enumerate. cbn [enumerate_from map fst snd].
  destruct (block_home_prefix home) as [rest Hb]. rewrite Hb.
  unfold startswith.
  destruct (map _ (enumerate_from 1 inner)) as [| y r].
  - cbn [join String.concat]. apply prefix_append.
  - rewrite join_cons, append_assoc. apply prefix_append.
Qed.

Lemma fetched_pages_length (w : World) (links : list string) :
  (length (fetched_pages w links) <= length links)%nat.
Proof.
  induction links as [| u r IH]; [apply le_n |].
  rewrite fetched_pages_cons, length_app. unfold fetched_pages at 1. cbn [flat_map].
  destruct (page_of w u); cbn [length app]; lia.
Qed.

Lemma page_of_url (w : World) (u : string) (p : Crawler.PageData) :
  page_of w u = Some p -> Crawler.url p = u.
Proof.
  unfold page_of, Crawler.page_data_of. destruct (requests_get w u); [discriminate |].
  intros H. injection H as <-.
  destruct (Crawler._get_clean_text (BeautifulSoup s)). reflexivity.
Qed.

End BrandContextFacts.

(** ** The context extractor *)

Section CrawlerClaims.
Context {P : Platform}.

(** C7. The context extractor never raises: [crawl_website] always returns.
    When the home page cannot be fetched it returns [None], the error is
    logged and no other URL is requested.  When the home page is fetched,
    every candidate inner page is requested, the ones that fail are logged
    and left out, and the ones that succeed are folded, after the home
    page and in order, into the context returned. *)
Theorem crawl_website_never_raises
  (base_url : string) (max_inner_pages : Z) (w : World) (s : St) :
  let r := Crawler.crawl_website base_url max_inner_pages w s in
  (exists ctx, fst r = Ok ctx)
  /\ (forall e, requests_get w base_url = inl e ->
        fst r = Ok None
        /\ fetched (snd r) = fetched s ++ [base_url]
        /\ In (ERROR, ("Error fetching " ++ base_url ++ ": " ++ exn_str e)%string)
              (log (snd r)))
  /\ (forall content, requests_get w base_url = inr content ->
        let home := Crawler.page_data_of base_url content in
        let cands := candidates w base_url home max_inner_pages in
        fst r = Ok (Some (Crawler._build_brand_context (home :: fetched_pages w cands)))
        /\ fetched (snd r) = fetched s ++ base_url :: cands
        /\ (forall u e, In u cands -> requests_get w u = inl e ->
              In (ERROR, ("Error fetching " ++ u ++ ": " ++ exn_str e)%string)
                 (log (snd r)))
        /\ (forall u c, In u cands -> requests_get w u = inr c ->
              In (Crawler.page_data_of u c) (fetched_pages w cands))).
Proof.
  cbv zeta. rewrite crawl_website_run. cbn [fst snd fetched log].
  split; [eexists; reflexivity |]. split.
  - intros e He. unfold crawl_result, crawl_fetches, crawl_log, page_of, fetch_log.
    rewrite He. repeat split.
    apply in_or_app. right. right. left. reflexivity.
  - intros content Hc. unfold crawl_result, crawl_fetches, crawl_log, crawled_pages.
    unfold page_of at 1 2 3. rewrite Hc. repeat split.
    + intros u e Hu He. apply in_or_app. right. apply in_or_app. right.
      apply in_or_app. left. unfold candidates in Hu.
      destruct (links_of w base_url _) as [links | e']; [| destruct Hu].
      unfold inner_log. apply in_flat_map. exists u. split; [exact Hu |].
      right. unfold fetch_log. rewrite He. left. reflexivity.
    + intros u c Hu Hc'. unfold fetched_pages. apply in_flat_map. exists u.
      split; [exact Hu |]. unfold page_of. rewrite Hc'. left. reflexivity.
Qed.

(** C8. When the extraction succeeds and [max_inner_pages] is not negative,
    the context is the blocks of the pages folded, one per page and joined
    by newlines: the first is the home page's and starts with its marker
    and the root URL, there are at most [1 + max_inner_pages] of them, and
    a home page without internal links gives its own block alone. *)
Theorem brand_context_blocks
  (base_url : string) (max_inner_pages : Z) (w : World) (s : St) (ctx : string) :
  0 <= max_inner_pages ->
  fst (Crawler.crawl_website base_url max_inner_pages w s) = Ok (Some ctx) ->
  exists home inner,
    Crawler.url home = base_url
    /\ ctx = join nl (map (fun ip => block (fst ip) (snd ip)) (enumerate (home :: inner)))
    /\ startswith ctx ("=== HOME PAGE ===" ++ nl ++ "URL: " ++ base_url) = true
    /\ Z.of_nat (length (home :: inner)) <= 1 + max_inner_pages
    /\ (links_of w base_url (Crawler.html home) = Ok [] -> ctx = block 0 home).
Proof.
  intros Hmax. rewrite crawl_website_run. cbn [fst]. unfold crawl_result.
  destruct (page_of w base_url) as [home |] eqn:Hhome; [| discriminate].
  intros H. injection H as <-. unfold crawled_pages.
  exists home, (fetched_pages w (candidates w base_url home max_inner_pages)).
  pose proof (page_of_url _ _ _ Hhome) as Hurl.
  split; [exact Hurl |]. split; [apply build_brand_context_blocks |]. split.
  - rewrite <- Hurl. apply brand_context_home_prefix.
  - split.
    + cbn [length].
      pose proof (fetched_pages_length w (candidates w base_url home max_inner_pages)) as Hl.
      assert (Hc : (length (candidates w base_url home max_inner_pages)
                    <= Z.to_nat max_inner_pages)%nat).
      { unfold candidates. destruct (links_of w base_url _) as [links | e].
        - unfold py_slice_to. destruct (0 <=? max_inner_pages) eqn:Hle; [| lia].
          apply firstn_le_length.
        - cbn [length]. lia. }
      lia.
    + intros Hl. unfold candidates. rewrite Hl.
      rewrite build_brand_context_blocks.
      unfold py_slice_to. destruct (0 <=? max_inner_pages); rewrite ?firstn_nil;
        cbn [length Nat.sub firstn]; reflexivity.
Qed.

(** *** Determinism *)

Lemma same_run_ret {A : Type} (w1 w2 : World) (a : A) : same_run w1 w2 (ret a).
Proof. intros s. reflexivity. Qed.

Lemma same_run_lift {A : Type} (w1 w2 : World) (r : exn + A) : same_run w1 w2 (lift r).
Proof. intros s. destruct r; reflexivity. Qed.

Lemma same_run_bind {A B : Type} (w1 w2 : World) (m : M A) (k : A -> M B) :
  same_run w1 w2 m -> (forall a, same_run w1 w2 (k a)) -> same_run w1 w2 (bind m k).
Proof.
  intros Hm Hk s. unfold bind. rewrite (Hm s).
  destruct (m w2 s) as [[a | e] s']; [apply Hk | reflexivity].
Qed.

Lemma same_run_for_each {A B : Type} (w1 w2 : World) (l : list A) (body : B -> A -> M B) :
  (forall acc x, same_run w1 w2 (body acc x)) ->
  forall acc, same_run w1 w2 (for_each l acc body).
Proof.
  intros Hb. induction l as [| x r IH]; intros acc; cbn [for_each].
  - apply same_run_ret.
  - apply same_run_bind; [apply Hb | intros a; apply IH].
Qed.

Lemma set_to_list_ext (h1 h2 : string -> nat) (l : list string) :
  (forall x, h1 x = h2 x) -> set_to_list h1 l = set_to_list h2 l.
Proof.
  intros H. unfold set_to_list. induction l as [| x r IH]; [reflexivity |].
  cbn [fold_right]. rewrite IH. generalize (fold_right (insert_by_hash h2) [] r).
  intros acc. induction acc as [| y acc IHa]; [reflexivity |].
  cbn [insert_by_hash]. rewrite !H, IHa. reflexivity.
Qed.

Lemma links_of_ext (w1 w2 : World) (base_url html_text : string) :
  (forall x, str_hash w1 x = str_hash w2 x) ->
  links_of w1 base_url html_text = links_of w2 base_url html_text.
Proof.
  intros Hh. unfold links_of. f_equal.
  generalize (mkSt [] [] [] [] 0 0). revert base_url html_text.
  intros base_url html_text. change (same_run w1 w2
    (Crawler._extract_internal_links base_url html_text)).
  unfold Crawler._extract_internal_links.
  apply same_run_bind; [apply same_run_lift | intros base].
  apply same_run_bind.
  - apply same_run_for_each. intros acc href.
    destruct (startswith_any href _); [apply same_run_ret |].
    apply same_run_bind; [apply same_run_lift | intros full].
    apply same_run_bind; [apply same_run_lift | intros parsed].
    destruct (String.eqb _ _); [| apply same_run_ret].
    destruct (negb _); apply same_run_ret.
  - intros links. apply same_run_bind; [| intros l; apply same_run_ret].
    intros s. unfold list_of_set. rewrite (set_to_list_ext _ _ links Hh). reflexivity.
Qed.

Lemma page_of_ext (w1 w2 : World) (u : string) :
  (forall x, requests_get w1 x = requests_get w2 x) -> page_of w1 u = page_of w2 u.
Proof. intros H. unfold page_of. rewrite H. reflexivity. Qed.

Lemma fetched_pages_ext (w1 w2 : World) (links : list string) :
  (forall x, requests_get w1 x = requests_get w2 x) ->
  fetched_pages w1 links = fetched_pages w2 links.
Proof.
  intros H. unfold fetched_pages. apply flat_map_ext. intros u.
  rewrite (page_of_ext w1 w2 u H). reflexivity.
Qed.

(** C9, amended. The extractor is deterministic in the network content and
    the interpreter's string hash: two invocations on the same root URL, in
    worlds that give every URL the same content and every string the same
    hash, request the same inner pages in the same order and return the
    same brand context, character for character. *)
Theorem crawl_website_deterministic
  (base_url : string) (max_inner_pages : Z) (w1 w2 : World) (s1 s2 : St) :
  (forall u, requests_get w1 u = requests_get w2 u) ->
  (forall x, str_hash w1 x = str_hash w2 x) ->
  let r1 := Crawler.crawl_website base_url max_inner_pages w1 s1 in
  let r2 := Crawler.crawl_website base_url max_inner_pages w2 s2 in
  fst r1 = fst r2
  /\ exists requested,
       fetched (snd r1) = fetched s1 ++ requested
       /\ fetched (snd r2) = fetched s2 ++ requested.
Proof.
  intros Hget Hhash. cbv zeta. rewrite !crawl_website_run. cbn [fst snd fetched].
  assert (Hc : forall home, candidates w1 base_url home max_inner_pages
                            = candidates w2 base_url home max_inner_pages).
  { intros home. unfold candidates.
    rewrite (links_of_ext w1 w2 _ _ Hhash). reflexivity. }
  split.
  - unfold crawl_result, crawled_pages. rewrite (page_of_ext w1 w2 _ Hget).
    destruct (page_of w2 base_url) as [home |]; [| reflexivity].
    rewrite Hc, (fetched_pages_ext w1 w2 _ Hget). reflexivity.
  - exists (crawl_fetches w2 base_url max_inner_pages). split; [| reflexivity].
    unfold crawl_fetches. rewrite (page_of_ext w1 w2 _ Hget).
    destruct (page_of w2 base_url) as [home |]; [| reflexivity].
    rewrite Hc. reflexivity.
Qed.

End CrawlerClaims.


(** ** The prompt composer *)

Lemma occurs_in_here (x b : string) : occurs_in x (x ++ b).
Proof. exists ""%string, b. reflexivity. Qed.

Lemma occurs_in_app_r (x a s : string) : occurs_in x s -> occurs_in x (a ++ s).
Proof.
  intros (p & q & ->). exists (a ++ p)%string, q. rewrite append_assoc. reflexivity.
Qed.

Lemma occurs_in_app_l (x s b : string) : occurs_in x s -> occurs_in x (s ++ b).
Proof.
  intros (p & q & ->). exists p, (q ++ b)%string. rewrite !append_assoc. reflexivity.
Qed.

Lemma occurs_in_line (p x q b : string) : occurs_in (p ++ x ++ q) (p ++ x ++ q ++ b).
Proof. exists ""%string, b. rewrite !append_assoc. reflexivity. Qed.

Lemma dict_get_set (d : dict) (k k' : string) (v : Json) :
  dict_get (dict_set d k v) k' = if String.eqb k k' then Some v else dict_get d k'.
Proof.
  induction d as [| [k0 v0] r IH]; cbn [dict_set dict_get].
  - destruct (String.eqb_spec k k'); reflexivity.
  - destruct (String.eqb_spec k0 k) as [-> | Hne]; cbn [dict_get].
    + destruct (String.eqb_spec k k'); reflexivity.
    + rewrite IH. destruct (String.eqb_spec k0 k') as [-> | Hne'].
      * destruct (String.eqb_spec k k'); [congruence | reflexivity].
      * reflexivity.
Qed.

Lemma dict_get_setdefault (d : dict) (k k' : string) (v : Json) :
  dict_get (dict_setdefault d k v) k'
  = if String.eqb k k' then Some (dict_get_default d k v) else dict_get d k'.
Proof.
  unfold dict_setdefault, dict_get_default.
  destruct (dict_get d k) as [x |] eqn:Hk.
  - destruct (String.eqb_spec k k') as [<- | _]; [exact Hk | reflexivity].
  - rewrite dict_get_set. reflexivity.
Qed.

Lemma with_defaults_get (d : dict) (x : Json) :
  dict_get_default (with_defaults d) "industry" x
    = dict_get_default d "industry" (JStr "general business")
  /\ dict_get_default (with_defaults d) "offer" x = dict_get_default d "offer" (JStr "")
  /\ dict_get_default (with_defaults d) "target_audience" x
     = dict_get_default d "target_audience" (JStr "")
  /\ dict_get_default (with_defaults d) "brand_tone" x
     = dict_get_default d "brand_tone" (JStr "professional").
Proof.
  unfold with_defaults.
  repeat split; unfold dict_get_default at 1; rewrite !dict_get_setdefault;
    cbn [String.eqb Ascii.eqb Bool.eqb];
    unfold dict_get_default; rewrite ?dict_get_setdefault; reflexivity.
Qed.

Lemma occurs_in_after (a1 a2 x s : string) :
  occurs_in x (a2 ++ s) -> occurs_in x ((a1 ++ a2) ++ s).
Proof. rewrite append_assoc. apply occurs_in_app_r. Qed.

Lemma occurs_in_front (x b s : string) : (x ++ b)%string = s -> occurs_in x s.
Proof. intros <-. apply occurs_in_here. Qed.

(** Splits the literal at the head of the text off its last [n] characters. *)
Ltac skip_to_last n :=
  match goal with
  | |- occurs_in _ (?L ++ ?rest)%string =>
      let len := eval vm_compute in (String.length L) in
      let a1 := eval vm_compute in (substring 0 (len - n) L) in
      let a2 := eval vm_compute in (substring (len - n) n L) in
      change (L ++ rest)%string with ((a1 ++ a2) ++ rest)%string;
      apply occurs_in_after
  end.

Section ComposerClaims.
Context {P : Platform}.

Lemma landing_page_prompt_with_defaults
  (uid : string) (user_input : dict) (c : option string) :
  Prompts.landing_page_prompt uid (with_defaults user_input) c
  = Prompts.landing_page_prompt uid user_input c.
Proof.
  unfold Prompts.landing_page_prompt.
  destruct (with_defaults_get user_input (JStr "general business")) as (-> & _ & _ & _).
  destruct (with_defaults_get user_input (JStr "")) as (_ & -> & -> & _).
  destruct (with_defaults_get user_input (JStr "professional")) as (_ & _ & _ & ->).
  reflexivity.
Qed.

Lemma template_requirements (i o t b bcs ti uid ch : string) :
  occurs_in ("- Industry: " ++ i ++ nl) (Prompts.landing_page_template i o t b bcs ti uid ch)
  /\ occurs_in ("- Offer/Product: " ++ o ++ nl)
               (Prompts.landing_page_template i o t b bcs ti uid ch)
  /\ occurs_in ("- Target Audience: " ++ t ++ nl)
               (Prompts.landing_page_template i o t b bcs ti uid ch)
  /\ occurs_in ("- Brand Tone: " ++ b ++ nl)
               (Prompts.landing_page_template i o t b bcs ti uid ch).
Proof.
  unfold Prompts.landing_page_template. repeat split.
  - apply occurs_in_app_r.
    apply occurs_in_line.
  - do 4 apply occurs_in_app_r.
    apply occurs_in_line.
  - do 7 apply occurs_in_app_r.
    apply occurs_in_line.
  - do 10 apply occurs_in_app_r.
    apply occurs_in_line.
Qed.

Lemma occurs_in_trans (x y s : string) : occurs_in x y -> occurs_in y s -> occurs_in x s.
Proof.
  intros (a & b & ->) (a' & b' & ->). exists (a' ++ a)%string, (b ++ b')%string.
  rewrite !append_assoc. reflexivity.
Qed.

Lemma ends_with_app (x a s : string) : ends_with x s -> ends_with x (a ++ s).
Proof. intros (p & ->). exists (a ++ p)%string. rewrite append_assoc. reflexivity. Qed.

(** The template, whatever fills it: its opening sentence, its blocks,
    the lines of the requirements, the skeleton's identifier, the
    copyright line and its closing line. *)
Lemma template_complete (i o t b bcs ti uid ch : string) :
  let text := Prompts.landing_page_template i o t b bcs ti uid ch in
  startswith text "You are an expert landing page designer and copywriter." = true
  /\ occurs_in ("## USER REQUIREMENTS" ++ nl
                ++ "- Industry: " ++ i ++ nl
                ++ "- Offer/Product: " ++ o ++ nl
                ++ "- Target Audience: " ++ t ++ nl
                ++ "- Brand Tone: " ++ b ++ nl)%string text
  /\ occurs_in (bcs ++ ti)%string text
  /\ occurs_in "## CONTENT GUIDELINES" text
  /\ occurs_in "## TECHNICAL REQUIREMENTS" text
  /\ occurs_in (qq "~pageId~: ~" ++ uid ++ qq "~,")%string text
  /\ occurs_in ("2025 " ++ ch ++ ". All rights reserved.")%string text
  /\ ends_with "Generate the complete landing page JSON now:" text.
Proof.
  cbv zeta. unfold Prompts.landing_page_template.
  split; [reflexivity |]. split.
  { skip_to_last 21%nat. eapply occurs_in_front. rewrite !append_assoc. reflexivity. }
  split.
  { do 14 apply occurs_in_app_r. rewrite <- append_assoc. apply occurs_in_here. }
  split.
  { do 16 apply occurs_in_app_r. apply occurs_in_app_l.
    apply str_contains_spec. vm_compute. reflexivity. }
  split.
  { do 16 apply occurs_in_app_r. apply occurs_in_app_l.
    apply str_contains_spec. vm_compute. reflexivity. }
  split.
  { do 16 apply occurs_in_app_r. skip_to_last 11%nat.
    eapply occurs_in_front. rewrite !append_assoc. reflexivity. }
  split.
  { do 18 apply occurs_in_app_r. skip_to_last 5%nat.
    eapply occurs_in_front. rewrite !append_assoc. reflexivity. }
  do 20 apply ends_with_app.
  match goal with
  | |- ends_with ?x ?L =>
      let n := eval vm_compute in (String.length x) in
      let len := eval vm_compute in (String.length L) in
      let a1 := eval vm_compute in (substring 0 (len - n) L) in
      exists a1
  end.
  vm_compute. reflexivity.
Qed.

Lemma shown_default (user_input : dict) (k default : string) :
  py_str (dict_get_default user_input k (JStr default)) = shown user_input k default.
Proof. unfold shown, dict_get_default. destruct (dict_get user_input k); reflexivity. Qed.

(** C10. [build_landing_page_prompt] does not fail, whatever fields the
    brief has, and produces a complete prompt: the template of
    prompts.py filled with each field of the brief as given and with the
    default of each missing one (general business, the empty string
    twice, professional).  The prompt opens with the template's first
    sentence and closes with its last line, holds its three blocks and
    the skeleton with the identifier drawn; its requirements block shows
    the four fields, given or defaulted; without brand context its tone
    line names the same tone; its copyright line names the offer, or
    [Company] when there is none.  It is also the prompt of the brief
    completed with the defaults.  Below, [qq] writes the double-quote
    character as a tilde. *)
Theorem build_landing_page_prompt_defaults
  (user_input : dict) (c : option string) (w : World) (s : St) :
  let industry := shown user_input "industry" "general business" in
  let offer := shown user_input "offer" "" in
  let target_audience := shown user_input "target_audience" "" in
  let brand_tone := shown user_input "brand_tone" "professional" in
  exists prompt,
    fst (Prompts.build_landing_page_prompt user_input c w s) = Ok prompt
    /\ prompt = Prompts.landing_page_prompt (drawn_page_id w s) (with_defaults user_input) c
    /\ (dict_get user_input "industry" = None ->
        occurs_in ("- Industry: general business" ++ nl) prompt)
    /\ (dict_get user_input "offer" = None ->
        occurs_in ("- Offer/Product: " ++ nl) prompt)
    /\ (dict_get user_input "target_audience" = None ->
        occurs_in ("- Target Audience: " ++ nl) prompt)
    /\ (dict_get user_input "brand_tone" = None ->
        occurs_in ("- Brand Tone: professional" ++ nl) prompt)
    /\ prompt
       = Prompts.landing_page_template industry offer target_audience brand_tone
           (match c with
            | Some x => if str_truthy x then Prompts.brand_context_block x else ""
            | None => ""
            end)
           (if opt_str_truthy c then Prompts.tone_instruction_with_context
            else Prompts.tone_instruction_plain brand_tone)
           (drawn_page_id w s)
           (if truthy (dict_get_default user_input "offer" (JStr "")) then offer
            else "Company")
    /\ startswith prompt "You are an expert landing page designer and copywriter." = true
    /\ occurs_in ("## USER REQUIREMENTS" ++ nl
                  ++ "- Industry: " ++ industry ++ nl
                  ++ "- Offer/Product: " ++ offer ++ nl
                  ++ "- Target Audience: " ++ target_audience ++ nl
                  ++ "- Brand Tone: " ++ brand_tone ++ nl)%string prompt
    /\ (opt_str_truthy c = false ->
        occurs_in ("Use a " ++ brand_tone ++ " tone throughout all copy.")%string prompt)
    /\ occurs_in "## CONTENT GUIDELINES" prompt
    /\ occurs_in "## TECHNICAL REQUIREMENTS" prompt
    /\ occurs_in (qq "~pageId~: ~" ++ drawn_page_id w s ++ qq "~,")%string prompt
    /\ (dict_get user_input "offer" = None ->
        occurs_in "2025 Company. All rights reserved." prompt)
    /\ ends_with "Generate the complete landing page JSON now:" prompt.
Proof.
  cbv zeta.
  exists (Prompts.landing_page_prompt (drawn_page_id w s) user_input c).
  split; [reflexivity |].
  split; [symmetry; apply landing_page_prompt_with_defaults |].
  assert (Heq : Prompts.landing_page_prompt (drawn_page_id w s) user_input c
                = Prompts.landing_page_template
                    (shown user_input "industry" "general business")
                    (shown user_input "offer" "")
                    (shown user_input "target_audience" "")
                    (shown user_input "brand_tone" "professional")
                    (match c with
                     | Some x => if str_truthy x then Prompts.brand_context_block x else ""
                     | None => ""
                     end)
                    (if opt_str_truthy c then Prompts.tone_instruction_with_context
                     else Prompts.tone_instruction_plain
                            (shown user_input "brand_tone" "professional"))
                    (drawn_page_id w s)
                    (if truthy (dict_get_default user_input "offer" (JStr ""))
                     then shown user_input "offer" "" else "Company")).
  { unfold Prompts.landing_page_prompt. rewrite !shown_default. reflexivity. }
  assert (Hdefaults :
    (dict_get user_input "industry" = None ->
     occurs_in ("- Industry: general business" ++ nl)
               (Prompts.landing_page_prompt (drawn_page_id w s) user_input c))
    /\ (dict_get user_input "offer" = None ->
        occurs_in ("- Offer/Product: " ++ nl)
                  (Prompts.landing_page_prompt (drawn_page_id w s) user_input c))
    /\ (dict_get user_input "target_audience" = None ->
        occurs_in ("- Target Audience: " ++ nl)
                  (Prompts.landing_page_prompt (drawn_page_id w s) user_input c))
    /\ (dict_get user_input "brand_tone" = None ->
        occurs_in ("- Brand Tone: professional" ++ nl)
                  (Prompts.landing_page_prompt (drawn_page_id w s) user_input c))).
  { unfold Prompts.landing_page_prompt, dict_get_default.
    repeat split; intros H; rewrite H;
      match goal with
      | |- occurs_in _ (Prompts.landing_page_template ?i ?o ?t ?b ?bcs ?ti ?uid ?ch) =>
          destruct (template_requirements i o t b bcs ti uid ch) as (Hi & Ho & Ht & Hb)
      end; assumption. }
  destruct Hdefaults as (D1 & D2 & D3 & D4).
  split; [exact D1 |]. split; [exact D2 |]. split; [exact D3 |]. split; [exact D4 |].
  split; [exact Heq |]. rewrite Heq.
  match goal with
  | |- context [Prompts.landing_page_template ?i ?o ?t ?b ?bcs ?ti ?uid ?ch] =>
      destruct (template_complete i o t b bcs ti uid ch)
        as (T1 & T2 & T3 & T4 & T5 & T6 & T7 & T8)
  end.
  cbv zeta in T1, T2, T3, T4, T5, T6, T7, T8.
  split; [exact T1 |]. split; [exact T2 |]. split.
  { intros Hc. rewrite Hc in T3 |- *.
    refine (occurs_in_trans _ _ _ _ T3). apply occurs_in_app_r.
    unfold Prompts.tone_instruction_plain. apply (occurs_in_app_r _ nl).
    eapply occurs_in_front. rewrite !append_assoc. reflexivity. }
  split; [exact T4 |]. split; [exact T5 |]. split; [exact T6 |]. split; [| exact T8].
  intros Ho.
  assert (Hch : (if truthy (dict_get_default user_input "offer" (JStr ""))
                 then shown user_input "offer" "" else "Company") = "Company"%string).
  { unfold dict_get_default. rewrite Ho. reflexivity. }
  rewrite Hch in T7 |- *. exact T7.
Qed.

End ComposerClaims.

(** ** Running the monad *)

Lemma preserves_ret {X A : Type} (f : St -> X) (a : A) : preserves f (ret a).
Proof. intros w s. reflexivity. Qed.

Lemma preserves_raise {X A : Type} (f : St -> X) (e : exn) : preserves f (@raise A e).
Proof. intros w s. reflexivity. Qed.

Lemma preserves_lift {X A : Type} (f : St -> X) (r : exn + A) : preserves f (lift r).
Proof. destruct r; [apply preserves_raise | apply preserves_ret]. Qed.

Lemma preserves_bind {X A B : Type} (f : St -> X) (m : M A) (k : A -> M B) :
  preserves f m -> (forall a, preserves f (k a)) -> preserves f (bind m k).
Proof.
  intros Hm Hk w s. unfold bind. specialize (Hm w s).
  destruct (m w s) as [[a | e] s1]; cbn [snd] in *.
  - rewrite (Hk a w s1). exact Hm.
  - exact Hm.
Qed.

Lemma preserves_try_except {X A : Type} (f : St -> X) (m : M A) (h : exn -> M A) :
  preserves f m -> (forall e, preserves f (h e)) -> preserves f (try_except m h).
Proof.
  intros Hm Hh w s. unfold try_except. specialize (Hm w s).
  destruct (m w s) as [[a | e] s1]; cbn [snd] in *.
  - exact Hm.
  - rewrite (Hh e w s1). exact Hm.
Qed.

Lemma preserves_for_each {X A B : Type} (f : St -> X) (l : list A) (body : B -> A -> M B) :
  (forall acc x, preserves f (body acc x)) -> forall acc, preserves f (for_each l acc body).
Proof.
  intros Hb. induction l as [| x r IH]; intros acc; cbn [for_each].
  - apply preserves_ret.
  - apply preserves_bind; [apply Hb | intros a; apply IH].
Qed.

(** Splits a goal [preserves f m] along the structure of [m]. *)
Ltac frame_step :=
  first
    [ apply preserves_ret
    | apply preserves_raise
    | apply preserves_lift
    | apply preserves_bind; [| intros ?]
    | apply preserves_try_except; [| intros ?]
    | apply preserves_for_each; intros ? ?
    | match goal with
      | |- preserves _ (match ?x with _ => _ end) => destruct x
      end
    | (intros ? ?; reflexivity) ].
Create HintDb frame.
Ltac frame := repeat frame_step; auto with frame.

Lemma bind_run {A B : Type} (m : M A) (k : A -> M B) (w : World) (s : St) :
  bind m k w s =
  match m w s with
  | (Ok a, s1) => k a w s1
  | (Raise e, s1) => (Raise e, s1)
  end.
Proof. reflexivity. Qed.

Lemma try_except_run {A : Type} (m : M A) (h : exn -> M A) (w : World) (s : St) :
  try_except m h w s =
  match m w s with
  | (Ok a, s1) => (Ok a, s1)
  | (Raise e, s1) => h e w s1
  end.
Proof. reflexivity. Qed.

(** ** The store *)

Lemma find_update_first (pid : string) (f : Document -> Document) (docs : list Document) :
  (forall d, page_id (f d) = page_id d) ->
  find (Db.matches pid) (Db.update_first pid f docs)
  = option_map f (find (Db.matches pid) docs).
Proof.
  intros Hf. induction docs as [| d r IH]; [reflexivity |].
  cbn [Db.update_first find]. destruct (Db.matches pid d) eqn:Hm.
  - cbn [find]. unfold Db.matches in *. rewrite Hf, Hm. reflexivity.
  - cbn [find]. rewrite Hm. exact IH.
Qed.

Lemma update_page_run (pid : string) (secs : Json) (w : World) (s : St) :
  Db.update_page pid secs w s =
  match stored pid s with
  | None => (Ok None, s)
  | Some p =>
      match int_value (version p) with
      | None => (Raise (TypeError "unsupported operand type(s) for +"), s)
      | Some n =>
          let p' := Db.set_sections secs (JInt (n + 1)) (utcnow w (clock_k s)) p in
          (Ok (Some p'),
           mkSt (Db.update_first pid
                   (Db.set_sections secs (JInt (n + 1)) (utcnow w (clock_k s))) (store s))
                (log s) (fetched s) (sent s) (uuid_k s) (S (clock_k s)))
      end
  end.
Proof.
  unfold Db.update_page, Db.get_page, Db.find_one, stored.
  rewrite !bind_run. unfold get_store at 1, ret at 1.
  destruct (find (Db.matches pid) (store s)) as [p |] eqn:Hp; [| reflexivity].
  rewrite bind_run. unfold Db.plus_one, int_value.
  destruct (version p); try reflexivity.
  - unfold ret at 1. rewrite bind_run. unfold datetime_utcnow at 1.
    unfold Db.find_one_and_update. rewrite bind_run. unfold get_store at 1.
    cbn [store]. rewrite Hp. reflexivity.
  - unfold ret at 1. rewrite bind_run. unfold datetime_utcnow at 1.
    unfold Db.find_one_and_update. rewrite bind_run. unfold get_store at 1.
    cbn [store]. rewrite Hp. reflexivity.
Qed.

Lemma publish_page_run (pid : string) (w : World) (s : St) :
  Db.publish_page pid w s =
  match stored pid s with
  | None => (Ok None, mkSt (store s) (log s) (fetched s) (sent s) (uuid_k s) (S (clock_k s)))
  | Some p =>
      (Ok (Some (Db.set_published (utcnow w (clock_k s)) p)),
       mkSt (Db.update_first pid (Db.set_published (utcnow w (clock_k s))) (store s))
            (log s) (fetched s) (sent s) (uuid_k s) (S (clock_k s)))
  end.
Proof.
  unfold Db.publish_page, Db.find_one_and_update, stored.
  rewrite !bind_run. unfold datetime_utcnow at 1. rewrite bind_run.
  unfold get_store at 1. cbn [store].
  destruct (find (Db.matches pid) (store s)) as [p |]; reflexivity.
Qed.

Lemma get_page_run (pid : string) (w : World) (s : St) :
  Db.get_page pid w s = (Ok (stored pid s), s).
Proof. reflexivity. Qed.

(** ** What the generation client leaves untouched *)

Section GeneratorFacts.
Context {P : Platform}.

Lemma crawl_website_frame (base_url : string) (n : Z) :
  preserves store (Crawler.crawl_website base_url n)
  /\ preserves clock_k (Crawler.crawl_website base_url n)
  /\ preserves uuid_k (Crawler.crawl_website base_url n)
  /\ preserves sent (Crawler.crawl_website base_url n).
Proof. repeat split; intros w s; rewrite crawl_website_run; reflexivity. Qed.

Lemma crawl_if_url_frame (d : dict) :
  preserves store (Generator.crawl_if_url d)
  /\ preserves clock_k (Generator.crawl_if_url d)
  /\ preserves uuid_k (Generator.crawl_if_url d)
  /\ preserves sent (Generator.crawl_if_url d).
Proof.
  unfold Generator.crawl_if_url, Generator.crawl_value, Crawler.crawl_website_default.
  destruct (dict_get d "url") as [u |]; [| repeat split; frame].
  destruct (truthy u); [| repeat split; frame].
  destruct u; first [apply crawl_website_frame | repeat split; frame].
Qed.

Lemma loads_frame {X : Type} (f : St -> X) (t : option string) :
  preserves f (Generator.loads t).
Proof. unfold Generator.loads. destruct t as [t |]; [destruct (json_loads t) |]; frame. Qed.

Lemma chat_create_frame (prompt : string) (n : Z) :
  preserves store (Generator.chat_create prompt n)
  /\ preserves clock_k (Generator.chat_create prompt n).
Proof.
  split; intros w s; unfold Generator.chat_create;
    destruct (chat_completions_create w _); reflexivity.
Qed.

Lemma build_section_regenerate_prompt_frame {X : Type} (f : St -> X)
  (section user_context : dict) (c : option string) :
  preserves f (Prompts.build_section_regenerate_prompt section user_context c).
Proof.
  unfold Prompts.build_section_regenerate_prompt.
  destruct (dict_get section "type") as [[] |]; frame.
Qed.

Lemma regenerate_section_frame (section : dict) (prompt : Json) :
  preserves store (Generator.regenerate_section section prompt)
  /\ preserves clock_k (Generator.regenerate_section section prompt).
Proof.
  unfold Generator.regenerate_section, Generator.as_dict.
  split.
  - apply preserves_try_except; [| intros e; destruct (is_JSONDecodeError e); frame].
    apply preserves_bind; [destruct prompt; frame | intros d].
    apply preserves_bind; [apply crawl_if_url_frame | intros c].
    apply preserves_bind; [apply build_section_regenerate_prompt_frame | intros p].
    apply preserves_bind; [apply chat_create_frame | intros t].
    apply preserves_bind; [apply loads_frame | intros j; frame].
  - apply preserves_try_except; [| intros e; destruct (is_JSONDecodeError e); frame].
    apply preserves_bind; [destruct prompt; frame | intros d].
    apply preserves_bind; [apply crawl_if_url_frame | intros c].
    apply preserves_bind; [apply build_section_regenerate_prompt_frame | intros p].
    apply preserves_bind; [apply chat_create_frame | intros t].
    apply preserves_bind; [apply loads_frame | intros j; frame].
Qed.

(** [generate_page_spec] on a brief without [url]: one request to the
    provider, whose reply decides the outcome. *)
Lemma generate_page_spec_run
  (user_input : dict) (c : option string) (w : World) (s : St) :
  dict_get user_input "url" = None ->
  Generator.generate_page_spec user_input c w s =
  (match chat_completions_create w (generation_request w s user_input) with
   | inl msg => Raise (PyException ("Error generating page spec: " ++ msg))
   | inr None =>
       Raise (PyException
                ("Error generating page spec: "
                 ++ "the JSON object must be str, bytes or bytearray, not NoneType"))
   | inr (Some t) =>
       match json_loads t with
       | inl msg => Raise (ValueError ("Failed to parse LLM response as JSON: " ++ msg))
       | inr j => Ok j
       end
   end,
   mkSt (store s) (log s) (fetched s)
        (sent s ++ [generation_request w s user_input]) (S (uuid_k s)) (clock_k s)).
Proof.
  intros Hurl.
  unfold Generator.generate_page_spec, Generator.crawl_if_url. rewrite Hurl.
  rewrite try_except_run, bind_run. unfold ret at 1.
  unfold Prompts.build_landing_page_prompt. rewrite !bind_run. unfold uuid4 at 1.
  unfold ret at 1. rewrite bind_run. unfold Generator.chat_create at 1.
  cbn [store log fetched sent uuid_k clock_k].
  change (mkChatRequest "gpt-4o" Generator.system_prompt
            (Prompts.landing_page_prompt ("landing-" ++ str_take 8 (uuid4_hex w (uuid_k s)))
               user_input None) (7 # 10) 2500)
    with (generation_request w s user_input).
  destruct (chat_completions_create w (generation_request w s user_input)) as [msg | [t |]].
  - reflexivity.
  - rewrite bind_run. unfold Generator.loads.
    destruct (json_loads t) as [msg | j]; reflexivity.
  - reflexivity.
Qed.

End GeneratorFacts.

(** ** The routes *)

Lemma bind_cases {A B : Type} (m : M A) (k : A -> M B) (w : World) (s : St)
  (Q : Res B * St -> Prop) :
  (forall a s1, m w s = (Ok a, s1) -> Q (k a w s1)) ->
  (forall e s1, m w s = (Raise e, s1) -> Q (Raise e, s1)) ->
  Q (bind m k w s).
Proof.
  intros Hok Hraise. rewrite bind_run.
  destruct (m w s) as [[a | e] s1]; [apply Hok | apply Hraise]; reflexivity.
Qed.

Lemma try_except_cases {A : Type} (m : M A) (h : exn -> M A) (w : World) (s : St)
  (Q : Res A * St -> Prop) :
  (forall a s1, m w s = (Ok a, s1) -> Q (Ok a, s1)) ->
  (forall e s1, m w s = (Raise e, s1) -> Q (h e w s1)) ->
  Q (try_except m h w s).
Proof.
  intros Hok Hraise. rewrite try_except_run.
  destruct (m w s) as [[a | e] s1]; [apply Hok | apply Hraise]; reflexivity.
Qed.

Lemma bind_ok_inv {A B : Type} (m : M A) (k : A -> M B) (w : World) (s s' : St) (b : B) :
  bind m k w s = (Ok b, s') ->
  exists a s1, m w s = (Ok a, s1) /\ k a w s1 = (Ok b, s').
Proof.
  rewrite bind_run. destruct (m w s) as [[a | e] s1]; [| discriminate].
  intros H. exists a, s1. split; [reflexivity | exact H].
Qed.

Lemma preserved {X A : Type} (f : St -> X) (m : M A) (w : World) (s s1 : St) (r : Res A) :
  preserves f m -> m w s = (r, s1) -> f s1 = f s.
Proof. intros H E. specialize (H w s). rewrite E in H. exact H. Qed.

Lemma py_getitem_frame {X : Type} (f : St -> X) (x : Json) (k : string) :
  preserves f (py_getitem x k).
Proof. unfold py_getitem. destruct x; frame. Qed.

Lemma py_setitem_frame {X : Type} (f : St -> X) (x : Json) (k : string) (v : Json) :
  preserves f (py_setitem x k v).
Proof. unfold py_setitem. destruct x; frame. Qed.

Lemma py_iter_frame {X : Type} (f : St -> X) (x : Json) : preserves f (py_iter x).
Proof. unfold py_iter. destruct x; frame. Qed.

Lemma py_in_frame {X : Type} (f : St -> X) (k : string) (x : Json) : preserves f (py_in k x).
Proof. unfold py_in. destruct x; frame. Qed.

#[local] Hint Resolve py_getitem_frame py_setitem_frame py_iter_frame py_in_frame : frame.

Lemma save_page_frame (j : Json) (u : dict) (c : option string) (i : option string) :
  preserves sent (Db.save_page j u c i).
Proof. unfold Db.save_page, Db.insert_one. destruct j; frame. Qed.
#[local] Hint Resolve save_page_frame : frame.

Lemma find_section_frame {X : Type} (f : St -> X) (elems : list Json) (sid : string) :
  preserves f (Routes.find_section elems sid).
Proof.
  induction elems as [| x r IH]; cbn [Routes.find_section]; [frame |].
  apply preserves_bind; [apply py_getitem_frame | intros i].
  destruct (eq_str i sid); [frame | exact IH].
Qed.

Lemma assign_section_data_frame {X : Type} (f : St -> X)
  (elems : list Json) (sid : string) (rhs : M Json) :
  preserves f rhs -> preserves f (Routes.assign_section_data elems sid rhs).
Proof.
  intros Hr. induction elems as [| x r IH]; cbn [Routes.assign_section_data]; [frame |].
  apply preserves_bind; [apply py_getitem_frame | intros i].
  destruct (eq_str i sid).
  - apply preserves_bind; [exact Hr | intros v].
    apply preserves_bind; [apply py_setitem_frame | intros x'; frame].
  - apply preserves_bind; [exact IH | intros res; frame].
Qed.

(** The loop that assigns [data] changes nothing else. *)
Lemma assign_section_data_spec (elems : list Json) (sid : string) (rhs : M Json)
  (w : World) (s s1 : St) (res : list Json * bool) :
  Routes.assign_section_data elems sid rhs w s = (Ok res, s1) ->
  Forall2 (same_but_data sid) elems (fst res).
Proof.
  revert s s1 res. induction elems as [| x r IH]; intros s s1 res.
  - cbn [Routes.assign_section_data]. unfold ret. intros H. injection H as <- _.
    constructor.
  - cbn [Routes.assign_section_data]. rewrite bind_run.
    destruct (py_getitem x "id" w s) as [[i | e] s2] eqn:Hi; [| discriminate].
    destruct (eq_str i sid) eqn:Heq.
    + rewrite bind_run. destruct (rhs w s2) as [[v | e] s3]; [| discriminate].
      rewrite bind_run. unfold py_getitem in Hi. unfold py_setitem.
      destruct x as [| b | n | t | l | d]; try discriminate.
      unfold ret at 1. unfold ret. intros H. injection H as <- _. cbn [fst].
      constructor.
      * right. split.
        -- cbn [field]. destruct (dict_get d "id") as [i' |]; [| discriminate].
           unfold ret in Hi. injection Hi as -> _.
           unfold eq_str in Heq. destruct i; try discriminate.
           apply String.eqb_eq in Heq. subst. reflexivity.
        -- exists d, v. split; reflexivity.
      * clear. induction r as [| y r IHr]; constructor; [left; reflexivity | exact IHr].
    + rewrite bind_run.
      destruct (Routes.assign_section_data r sid rhs w s2) as [[res' | e] s3] eqn:Hr;
        [| discriminate].
      unfold ret. intros H. injection H as <- _. cbn [fst].
      constructor; [left; reflexivity | exact (IH _ _ _ Hr)].
Qed.

Lemma mutated_same_but_data (sid : string) (secs : Json) (elems elems' : list Json)
  (w : World) (s s1 : St) :
  py_iter secs w s = (Ok elems, s1) ->
  Forall2 (same_but_data sid) elems elems' ->
  sections_same_but_data sid secs (Routes.mutated secs elems').
Proof.
  intros Hi HF. unfold Routes.mutated. destruct secs; try (left; reflexivity).
  right. unfold py_iter, ret in Hi. injection Hi as <- _.
  eexists. eexists. split; [reflexivity |]. split; [reflexivity | exact HF].
Qed.

Lemma outcome_failed (R : Json -> Json -> Prop) (pid : string) (w : World)
  (s s1 : St) (e : exn) :
  store s1 = store s -> mutation_outcome R pid w s (Raise e, s1).
Proof. intros H. left. split; [exact H | exists e; reflexivity]. Qed.

Lemma outcome_try (R : Json -> Json -> Prop) (pid prefix : string) (w : World)
  (s : St) (m : M Json) :
  mutation_outcome R pid w s (m w s) ->
  mutation_outcome R pid w s (try_except m (Routes.reraise_as_500 prefix) w s).
Proof.
  intros H. rewrite try_except_run. destruct (m w s) as [[a | e] s1]; [exact H |].
  destruct H as [[Hs _] | (p & n & secs & body & _ & _ & _ & _ & Hr)];
    [| cbn [fst] in Hr; discriminate].
  unfold Routes.reraise_as_500. destruct (is_HTTPException e); apply outcome_failed; exact Hs.
Qed.

(** The end of the three routes: [update_page], then the reply with the
    new version. *)
Lemma outcome_update (R : Json -> Json -> Prop) (pid : string) (secs : Json)
  (mk : Json -> Json) (w : World) (s s1 : St) (p : Document) :
  store s1 = store s -> clock_k s1 = clock_k s ->
  stored pid s = Some p -> R (sections p) secs ->
  mutation_outcome R pid w s
    (bind (Db.update_page pid secs)
          (fun updated_page => bind (Routes.version_of updated_page)
                                    (fun v => ret (mk v))) w s1).
Proof.
  intros Hs Hc Hp HR. rewrite bind_run, update_page_run.
  unfold stored in *. rewrite Hs, Hp.
  destruct (int_value (version p)) as [n |] eqn:Hn.
  - cbv zeta. rewrite bind_run. unfold Routes.version_of, ret.
    right. exists p, n, secs. eexists.
    split; [exact Hp |]. split; [exact Hn |]. split; [exact HR |].
    cbn [fst snd store]. rewrite Hc. split; reflexivity.
  - apply outcome_failed. exact Hs.
Qed.

Section RouteFacts.
Context {P : Platform}.

Lemma regenerate_outcome (pid : string) (request : Routes.EditSectionRequest)
  (w : World) (s : St) :
  mutation_outcome (sections_same_but_data (Routes.section_id request)) pid w s
    (Routes.regenerate_section_endpoint pid request w s).
Proof.
  unfold Routes.regenerate_section_endpoint. apply outcome_try.
  rewrite bind_run, get_page_run.
  destruct (stored pid s) as [p |] eqn:Hp; [| apply outcome_failed; reflexivity].
  apply bind_cases; [intros elems s1 H1 | intros e s1 H1].
  2: { apply outcome_failed. exact (preserved store _ _ _ _ _ (py_iter_frame _ _) H1). }
  pose proof (preserved store _ _ _ _ _ (py_iter_frame _ _) H1) as Hs1.
  pose proof (preserved clock_k _ _ _ _ _ (py_iter_frame _ _) H1) as Hc1.
  apply bind_cases; [intros found s2 H2 | intros e s2 H2].
  2: { apply outcome_failed.
       rewrite (preserved store _ _ _ _ _ (find_section_frame _ _ _) H2). exact Hs1. }
  pose proof (preserved store _ _ _ _ _ (find_section_frame _ _ _) H2) as Hs2.
  pose proof (preserved clock_k _ _ _ _ _ (find_section_frame _ _ _) H2) as Hc2.
  assert (Hfail : forall e, mutation_outcome
            (sections_same_but_data (Routes.section_id request)) pid w s (Raise e, s2)).
  { intros e. apply outcome_failed. congruence. }
  destruct found as [[| b | n | t | l | section] |]; try apply Hfail.
  destruct (regenerate_section_frame section
              (dict_get_default (Routes.data request) "context" (JDict []))) as [Fs Fc].
  apply bind_cases; [intros regenerated s3 H3 | intros e s3 H3].
  2: { apply outcome_failed. rewrite (preserved store _ _ _ _ _ Fs H3). congruence. }
  pose proof (preserved store _ _ _ _ _ Fs H3) as Hs3.
  pose proof (preserved clock_k _ _ _ _ _ Fc H3) as Hc3.
  apply bind_cases; [intros res s4 H4 | intros e s4 H4].
  2: { apply outcome_failed.
       rewrite (preserved store _ _ _ _ _
                  (assign_section_data_frame _ _ _ _ (py_getitem_frame _ _ _)) H4).
       congruence. }
  pose proof (preserved store _ _ _ _ _
                (assign_section_data_frame _ _ _ _ (py_getitem_frame _ _ _)) H4) as Hs4.
  pose proof (preserved clock_k _ _ _ _ _
                (assign_section_data_frame _ _ _ _ (py_getitem_frame _ _ _)) H4) as Hc4.
  apply (outcome_update _ pid _
           (fun v => JDict [("message", JStr "Section regenerated successfully");
                            ("page_id", JStr pid); ("version", v)]) w s s4 p).
  - congruence.
  - congruence.
  - exact Hp.
  - exact (mutated_same_but_data _ _ _ _ _ _ _ H1 (assign_section_data_spec _ _ _ _ _ _ _ H4)).
Qed.

Lemma edit_outcome (pid : string) (request : Routes.EditSectionRequest)
  (w : World) (s : St) :
  mutation_outcome (sections_same_but_data (Routes.section_id request)) pid w s
    (Routes.edit_section pid request w s).
Proof.
  unfold Routes.edit_section. apply outcome_try.
  rewrite bind_run, get_page_run.
  destruct (stored pid s) as [p |] eqn:Hp; [| apply outcome_failed; reflexivity].
  apply bind_cases; [intros elems s1 H1 | intros e s1 H1].
  2: { apply outcome_failed. exact (preserved store _ _ _ _ _ (py_iter_frame _ _) H1). }
  pose proof (preserved store _ _ _ _ _ (py_iter_frame _ _) H1) as Hs1.
  pose proof (preserved clock_k _ _ _ _ _ (py_iter_frame _ _) H1) as Hc1.
  assert (Fr : forall X (f : St -> X), preserves f (ret (JDict (Routes.data request)))).
  { intros X f. apply preserves_ret. }
  apply bind_cases; [intros res s2 H2 | intros e s2 H2].
  2: { apply outcome_failed.
       rewrite (preserved store _ _ _ _ _
                  (assign_section_data_frame _ _ _ _ (Fr _ _)) H2).
       exact Hs1. }
  pose proof (preserved store _ _ _ _ _
                (assign_section_data_frame _ _ _ _ (Fr _ _)) H2) as Hs2.
  pose proof (preserved clock_k _ _ _ _ _
                (assign_section_data_frame _ _ _ _ (Fr _ _)) H2) as Hc2.
  destruct (negb (snd res)); [apply outcome_failed; congruence |].
  apply (outcome_update _ pid _
           (fun v => JDict [("message", JStr "Section updated successfully");
                            ("page_id", JStr pid); ("version", v)]) w s s2 p).
  - congruence.
  - congruence.
  - exact Hp.
  - exact (mutated_same_but_data _ _ _ _ _ _ _ H1 (assign_section_data_spec _ _ _ _ _ _ _ H2)).
Qed.

Lemma reorder_outcome (pid : string) (request : Routes.ReorderSectionsRequest)
  (w : World) (s : St) :
  mutation_outcome (fun _ secs => secs = JList (map JDict (Routes.new_sections request)))
    pid w s (Routes.reorder_sections pid request w s).
Proof.
  unfold Routes.reorder_sections. apply outcome_try.
  rewrite bind_run, get_page_run.
  destruct (stored pid s) as [p |] eqn:Hp; [| apply outcome_failed; reflexivity].
  apply (outcome_update _ pid _
           (fun v => JDict [("message", JStr "Sections reordered successfully");
                            ("page_id", JStr pid); ("version", v)]) w s s p);
    [reflexivity | reflexivity | exact Hp | reflexivity].
Qed.

(** The store after [publish_landing_page], whatever it answers. *)
Lemma publish_store (pid : string) (w : World) (s : St) :
  store (snd (Routes.publish_landing_page pid w s))
  = match stored pid s with
    | Some _ => Db.update_first pid (Db.set_published (utcnow w (clock_k s))) (store s)
    | None => store s
    end.
Proof.
  unfold Routes.publish_landing_page.
  rewrite try_except_run, bind_run, get_page_run.
  destruct (stored pid s) as [p |] eqn:Hp.
  - rewrite bind_run, publish_page_run, Hp. rewrite bind_run.
    unfold Routes.version_of, ret at 1.
    destruct (PublishResponse _ _ _ _); [| reflexivity].
    unfold raise, Routes.reraise_as_500. cbn [is_HTTPException]. reflexivity.
  - unfold raise, Routes.reraise_as_500, Routes.not_found_page.
    cbn [is_HTTPException]. reflexivity.
Qed.

Lemma route_crawl_run (request : Routes.GeneratePageRequest) (w : World) (s : St) :
  exists c s1,
    route_crawl request w s = (Ok c, s1)
    /\ store s1 = store s /\ sent s1 = sent s
    /\ uuid_k s1 = uuid_k s /\ clock_k s1 = clock_k s
    /\ c = match Routes.website_url request with
           | Some u => if str_truthy u then crawl_result w u 2 else None
           | None => None
           end.
Proof.
  unfold route_crawl, Crawler.crawl_website_default.
  destruct (Routes.website_url request) as [u |].
  - destruct (str_truthy u).
    + rewrite crawl_website_run. eexists. eexists. repeat split.
    + exists None, s. repeat split.
  - exists None, s. repeat split.
Qed.

Lemma user_input_has_no_url (request : Routes.GeneratePageRequest) :
  dict_get (Routes.user_input_of request) "url" = None.
Proof. reflexivity. Qed.

Lemma generation_request_eq (w : World) (s s1 : St) (user_input : dict) :
  uuid_k s1 = uuid_k s ->
  generation_request w s1 user_input = generation_request w s user_input.
Proof. intros H. unfold generation_request, drawn_page_id. rewrite H. reflexivity. Qed.

(** [generate_landing_page]: the one request it sends, and what it answers
    when the reply cannot be used. *)
Lemma generate_landing_page_summary
  (request : Routes.GeneratePageRequest) (w : World) (s : St) :
  let q := generation_request w s (Routes.user_input_of request) in
  let r := Routes.generate_landing_page request w s in
  sent (snd r) = sent s ++ [q]
  /\ match chat_completions_create w q with
     | inl msg =>
         fst r = Raise (HTTPException 500
                   ("Failed to generate landing page: Error generating page spec: " ++ msg))
         /\ store (snd r) = store s
     | inr None =>
         (exists d, fst r = Raise (HTTPException 500 d)) /\ store (snd r) = store s
     | inr (Some t) =>
         match json_loads t with
         | inl msg =>
             fst r = Raise (HTTPException 400
                       ("Invalid request: Failed to parse LLM response as JSON: " ++ msg))
             /\ store (snd r) = store s
         | inr _ => True
         end
     end.
Proof.
  cbv zeta. unfold Routes.generate_landing_page.
  change (match Routes.website_url request with
          | Some u => if str_truthy u then Crawler.crawl_website_default u else ret None
          | None => ret None
          end) with (route_crawl request).
  destruct (route_crawl_run request w s) as (c & s1 & Hc & Hs & Hq & Hu & Hk & _).
  rewrite try_except_run, bind_run, Hc, bind_run.
  rewrite (generate_page_spec_run _ c w s1 (user_input_has_no_url request)).
  rewrite (generation_request_eq w s s1 _ Hu), Hs, Hq.
  destruct (chat_completions_create w (generation_request w s (Routes.user_input_of request)))
    as [msg | [t |]].
  - cbn [is_ValueError exn_str raise fst snd sent store]. repeat split.
  - destruct (json_loads t) as [msg | j].
    + cbn [is_ValueError exn_str raise fst snd sent store]. repeat split.
    + split; [| exact I].
      match goal with
      | |- sent (snd (match ?K w ?s2 with _ => _ end)) = _ =>
          assert (HK : preserves sent K) by frame;
          pose proof (HK w s2) as Hsent; destruct (K w s2) as [[a | e] s3]
      end.
      * exact Hsent.
      * destruct (is_ValueError e); exact Hsent.
  - cbn [is_ValueError exn_str raise fst snd sent store]. repeat split.
    eexists. reflexivity.
Qed.

Lemma as_dict_frame {X : Type} (f : St -> X) (j : Json) : preserves f (Generator.as_dict j).
Proof. unfold Generator.as_dict. destruct j; frame. Qed.

Lemma crawl_if_url_run (d : dict) (w : World) (s : St) :
  exists c s1,
    Generator.crawl_if_url d w s = (Ok c, s1)
    /\ store s1 = store s /\ sent s1 = sent s /\ clock_k s1 = clock_k s
    /\ (dict_get d "url" = None -> c = None).
Proof.
  destruct (Generator.crawl_if_url d w s) as [r s1] eqn:E.
  destruct (crawl_if_url_frame d) as (Fs & Fc & _ & Fq).
  pose proof (preserved store _ _ _ _ _ Fs E) as Hs.
  pose proof (preserved clock_k _ _ _ _ _ Fc E) as Hc.
  pose proof (preserved sent _ _ _ _ _ Fq E) as Hq.
  unfold Generator.crawl_if_url, Generator.crawl_value, Crawler.crawl_website_default in E.
  destruct (dict_get d "url") as [u |].
  - destruct (truthy u).
    + destruct u; try rewrite crawl_website_run in E;
        (injection E as <- <-; eexists; eexists; split; [reflexivity |];
         repeat split; try assumption; discriminate).
    + injection E as <- <-. exists None, s. repeat split.
  - injection E as <- <-. exists None, s. repeat split.
Qed.


Lemma regenerate_section_ok (section : dict) (prompt : Json) (w : World) (s s' : St)
  (j : Json) :
  Generator.regenerate_section section prompt w s = (Ok j, s') ->
  exists q t,
    sent s' = sent s ++ [q]
    /\ chat_completions_create w q = inr (Some t)
    /\ json_loads t = inr j.
Proof.
  unfold Generator.regenerate_section. rewrite try_except_run.
  match goal with |- context [match ?m w s with _ => _ end] =>
    destruct (m w s) as [[a | e] s0] eqn:E end.
  2: { destruct (is_JSONDecodeError e); discriminate. }
  intros H. injection H as -> ->.
  apply bind_ok_inv in E. destruct E as (d & s1 & H1 & E).
  apply bind_ok_inv in E. destruct E as (c & s2 & H2 & E).
  apply bind_ok_inv in E. destruct E as (p & s3 & H3 & E).
  apply bind_ok_inv in E. destruct E as (t & s4 & H4 & E).
  apply bind_ok_inv in E. destruct E as (j' & s5 & H5 & E).
  pose proof (preserved sent _ _ _ _ _ (as_dict_frame _ _) H1) as E1.
  pose proof (preserved sent _ _ _ _ _
                (proj2 (proj2 (proj2 (crawl_if_url_frame d)))) H2) as E2.
  pose proof (preserved sent _ _ _ _ _
                (build_section_regenerate_prompt_frame _ _ _ _) H3) as E3.
  unfold ret in E. injection E as -> ->.
  unfold Generator.chat_create in H4.
  destruct (chat_completions_create w (mkChatRequest "gpt-4o" Generator.system_prompt p
                                         (7 # 10) 2000)) as [msg | content] eqn:Hr;
    [discriminate |].
  injection H4 as <- <-.
  unfold Generator.loads in H5. destruct content as [txt |]; [| discriminate].
  destruct (json_loads txt) as [msg | v] eqn:Hj; [discriminate |].
  unfold ret in H5. injection H5 as -> <-.
  exists (mkChatRequest "gpt-4o" Generator.system_prompt p (7 # 10) 2000), txt.
  cbn [sent]. rewrite E3, E2, E1. repeat split; assumption.
Qed.





(** A regeneration that succeeds has sent one request and parsed its reply. *)
Lemma regenerate_endpoint_ok (pid : string) (request : Routes.EditSectionRequest)
  (w : World) (s s' : St) (body : Json) :
  Routes.regenerate_section_endpoint pid request w s = (Ok body, s') ->
  exists q t j,
    sent s' = sent s ++ [q]
    /\ chat_completions_create w q = inr (Some t)
    /\ json_loads t = inr j.
Proof.
  unfold Routes.regenerate_section_endpoint. rewrite try_except_run.
  match goal with |- context [match ?m w s with _ => _ end] =>
    destruct (m w s) as [[a | e] s0] eqn:E end.
  2: { unfold Routes.reraise_as_500. destruct (is_HTTPException e); discriminate. }
  intros H. injection H as -> ->.
  apply bind_ok_inv in E. destruct E as (page & s1 & H1 & E).
  rewrite get_page_run in H1. injection H1 as <- <-.
  destruct (stored pid s) as [p |]; [| discriminate].
  apply bind_ok_inv in E. destruct E as (elems & s2 & H2 & E).
  apply bind_ok_inv in E. destruct E as (found & s3 & H3 & E).
  destruct found as [[| b | n | t | l | section] |]; try discriminate.
  apply bind_ok_inv in E. destruct E as (regenerated & s4 & H4 & E).
  apply bind_ok_inv in E. destruct E as (res & s5 & H5 & E).
  apply bind_ok_inv in E. destruct E as (updated & s6 & H6 & E).
  apply bind_ok_inv in E. destruct E as (v & s7 & H7 & E).
  pose proof (preserved sent _ _ _ _ _ (py_iter_frame _ _) H2) as E2.
  pose proof (preserved sent _ _ _ _ _ (find_section_frame _ _ _) H3) as E3.
  destruct (regenerate_section_ok _ _ _ _ _ _ H4) as (q & t & Hq & Hr & Hj).
  pose proof (preserved sent _ _ _ _ _
                (assign_section_data_frame _ _ _ _ (py_getitem_frame _ _ _)) H5) as E5.
  assert (E6 : sent s6 = sent s5).
  { rewrite update_page_run in H6. destruct (stored pid s5) as [p' |].
    - destruct (int_value (version p')); [| discriminate].
      cbv zeta in H6. injection H6 as _ <-. reflexivity.
    - injection H6 as _ <-. reflexivity. }
  assert (E7 : sent s7 = sent s6).
  { unfold Routes.version_of in H7. destruct updated; [| discriminate].
    unfold ret in H7. injection H7 as _ <-. reflexivity. }
  unfold ret in E. injection E as _ <-.
  exists q, t, regenerated. rewrite E7, E6, E5, Hq, E3, E2. repeat split; assumption.
Qed.


End RouteFacts.

(** ** The page lifecycle *)

Lemma respond_snd (m : M Json) (w : World) (s : St) :
  snd (Api.respond m w s) = snd (m w s).
Proof. unfold Api.respond. destruct (m w s) as [[b | []] s1]; reflexivity. Qed.


Lemma respond_raise (m : M Json) (w : World) (s : St) (e : exn) :
  fst (m w s) = Raise e -> exists c d, fst (Api.respond m w s) = Api.HttpError c d.
Proof.
  unfold Api.respond. destruct (m w s) as [[b | e'] s1]; cbn [fst]; intros H;
    [discriminate |]. destruct e'; eexists; eexists; reflexivity.
Qed.

Lemma dict_set_set (d : dict) (k : string) (v v' : Json) :
  dict_set (dict_set d k v) k v' = dict_set d k v'.
Proof.
  induction d as [| [k0 v0] r IH]; cbn [dict_set].
  - rewrite String.eqb_refl. reflexivity.
  - destruct (String.eqb k0 k) eqn:E; cbn [dict_set]; rewrite E; [reflexivity |].
    rewrite IH. reflexivity.
Qed.

Lemma same_but_data_fields (sid : string) (x y : Json) (k : string) :
  same_but_data sid x y -> k <> "data"%string -> field y k = field x k.
Proof.
  intros [<- | (_ & d & v & -> & ->)] Hk; [reflexivity |].
  cbn [field]. rewrite dict_get_set.
  destruct (String.eqb_spec "data" k) as [E | _]; [| reflexivity].
  exfalso. apply Hk. symmetry. exact E.
Qed.

Lemma same_but_data_other (sid : string) (x y : Json) :
  same_but_data sid x y -> field x "id" <> Some (JStr sid) -> y = x.
Proof. intros [<- | (H & _)] Hne; [reflexivity | contradiction]. Qed.

Lemma same_but_data_trans (sid : string) (x y z : Json) :
  same_but_data sid x y -> same_but_data sid y z -> same_but_data sid x z.
Proof.
  intros [<- | (Hx & d & v & -> & ->)] Hyz; [exact Hyz |].
  destruct Hyz as [<- | (_ & d' & v' & E & ->)].
  - right. split; [exact Hx |]. exists d, v. split; reflexivity.
  - injection E as <-. right. split; [exact Hx |]. exists d, v'.
    split; [reflexivity |]. rewrite dict_set_set. reflexivity.
Qed.

Lemma Forall2_same_but_data_trans (sid : string) (l1 l2 l3 : list Json) :
  Forall2 (same_but_data sid) l1 l2 -> Forall2 (same_but_data sid) l2 l3 ->
  Forall2 (same_but_data sid) l1 l3.
Proof.
  intros H12. revert l3. induction H12 as [| x y r1 r2 Hxy _ IH]; intros l3 H23.
  - inversion H23. constructor.
  - inversion H23 as [| y' z r2' r3 Hyz Hr]; subst.
    constructor; [exact (same_but_data_trans _ _ _ _ Hxy Hyz) | exact (IH _ Hr)].
Qed.

Lemma Forall2_same_but_data_refl (sid : string) (l : list Json) :
  Forall2 (same_but_data sid) l l.
Proof. induction l; constructor; [left; reflexivity | assumption]. Qed.

Lemma sections_same_but_data_trans (sid : string) (a b c : Json) :
  sections_same_but_data sid a b -> sections_same_but_data sid b c ->
  sections_same_but_data sid a c.
Proof.
  intros [<- | (l1 & l2 & -> & -> & H12)] Hbc; [exact Hbc |].
  destruct Hbc as [<- | (l2' & l3 & E & -> & H23)].
  - right. exists l1, l2. repeat split. exact H12.
  - injection E as <-. right. exists l1, l3. repeat split.
    exact (Forall2_same_but_data_trans _ _ _ _ H12 H23).
Qed.

Lemma Forall2_nth_error_l {A B : Type} (R : A -> B -> Prop) (l : list A) (l' : list B)
  (i : nat) (x : A) :
  Forall2 R l l' -> nth_error l i = Some x ->
  exists y, nth_error l' i = Some y /\ R x y.
Proof.
  intros H. revert i. induction H as [| a b r r' Hab _ IH]; intros i Hi.
  - destruct i; discriminate.
  - destruct i as [| i]; cbn [nth_error] in *.
    + injection Hi as <-. exists b. split; [reflexivity | exact Hab].
    + exact (IH i Hi).
Qed.

Lemma stored_after_update (pid : string) (f : Document -> Document) (s s' : St)
  (doc : Document) :
  (forall d, page_id (f d) = page_id d) ->
  stored pid s = Some doc -> store s' = Db.update_first pid f (store s) ->
  stored pid s' = Some (f doc).
Proof.
  intros Hf Hd Hs. unfold stored in *. rewrite Hs, (find_update_first pid f _ Hf), Hd.
  reflexivity.
Qed.

Section LifecycleClaims.
Context {P : Platform}.

(** One regeneration keeps the page and the identity of its sections. *)
Lemma regenerate_once (pid : string) (request : Routes.EditSectionRequest)
  (w : World) (s : St) (doc : Document) :
  stored pid s = Some doc ->
  exists doc',
    stored pid (snd (Api.post_regenerate_section pid request w s)) = Some doc'
    /\ sections_same_but_data (Routes.section_id request) (sections doc) (sections doc').
Proof.
  intros Hd. unfold Api.post_regenerate_section. rewrite respond_snd.
  destruct (regenerate_outcome pid request w s)
    as [[Hs _] | (p & n & secs & body & Hp & _ & HR & Hs & _)].
  - exists doc. split; [| left; reflexivity]. unfold stored in *. rewrite Hs. exact Hd.
  - rewrite Hd in Hp. injection Hp as <-.
    pose proof (fun Hf => stored_after_update pid _ s _ doc Hf Hd Hs) as Hst.
    specialize (Hst (fun d => eq_refl)).
    eexists. split; [exact Hst | exact HR].
Qed.

(** C3. Regenerating a section of a stored page any number of times,
    whatever the provider returns each time, leaves the page's sections in
    place with their [id], [type] and [order] (and every field other than
    [data]); the sections other than the one regenerated are untouched. *)
Theorem regenerate_preserves_identity
  (pid : string) (request : Routes.EditSectionRequest) (worlds : list World) (s : St)
  (doc : Document) :
  stored pid s = Some doc ->
  exists doc',
    stored pid (Api.regenerate_many pid request worlds s) = Some doc'
    /\ sections_same_but_data (Routes.section_id request) (sections doc) (sections doc')
    /\ forall l, sections doc = JList l ->
       exists l',
         sections doc' = JList l'
         /\ length l' = length l
         /\ forall i x, nth_error l i = Some x ->
            exists y,
              nth_error l' i = Some y
              /\ field y "id" = field x "id"
              /\ field y "type" = field x "type"
              /\ field y "order" = field x "order"
              /\ (field x "id" <> Some (JStr (Routes.section_id request)) -> y = x).
Proof.
  intros Hd.
  assert (H : exists doc',
             stored pid (Api.regenerate_many pid request worlds s) = Some doc'
             /\ sections_same_but_data (Routes.section_id request)
                  (sections doc) (sections doc')).
  { revert s doc Hd. induction worlds as [| w r IH]; intros s doc Hd.
    - exists doc. split; [exact Hd | left; reflexivity].
    - cbn [Api.regenerate_many].
      destruct (regenerate_once pid request w s doc Hd) as (doc1 & H1 & R1).
      destruct (IH _ doc1 H1) as (doc2 & H2 & R2).
      exists doc2. split; [exact H2 |].
      exact (sections_same_but_data_trans _ _ _ _ R1 R2). }
  destruct H as (doc' & Hs & HR). exists doc'. split; [exact Hs |]. split; [exact HR |].
  intros l Hl.
  assert (HF : exists l', sections doc' = JList l'
                          /\ Forall2 (same_but_data (Routes.section_id request)) l l').
  { destruct HR as [E | (l1 & l2 & E1 & E2 & HF)].
    - exists l. split; [congruence | apply Forall2_same_but_data_refl].
    - exists l2. split; [exact E2 |]. rewrite Hl in E1. injection E1 as ->. exact HF. }
  destruct HF as (l' & El' & HF). exists l'. split; [exact El' |].
  split; [symmetry; exact (Forall2_length HF) |].
  intros i x Hi. destruct (Forall2_nth_error_l _ _ _ _ _ HF Hi) as (y & Hy & Rxy).
  exists y. split; [exact Hy |].
  repeat split; try (apply (same_but_data_fields _ _ _ _ Rxy); discriminate).
  exact (same_but_data_other _ _ _ Rxy).
Qed.



(** What holds of the store when a reply cannot be used.  A generation
    whose reply is an error or not JSON answers with an error and
    persists nothing, and a regeneration either leaves the store as it
    was or has answered with a success after parsing the reply to the
    request it sent.  A generation whose reply parses is another
    matter: the route saves the page before it builds its response. *)
Theorem store_written_only_after_parse (w : World) (s : St) :
  (forall request,
     let q := generation_request w s (Routes.user_input_of request) in
     let r := Api.respond (Routes.generate_landing_page request) w s in
     sent (snd r) = sent s ++ [q]
     /\ (unusable_reply w q ->
         store (snd r) = store s /\ exists c d, fst r = Api.HttpError c d)
     /\ (store (snd r) = store s
         \/ exists t j, chat_completions_create w q = inr (Some t) /\ json_loads t = inr j))
  /\ (forall pid request,
        let r := Api.post_regenerate_section pid request w s in
        store (snd r) = store s
        \/ ((exists body, fst r = Api.Http200 body)
            /\ exists q t j,
                 sent (snd r) = sent s ++ [q]
                 /\ chat_completions_create w q = inr (Some t)
                 /\ json_loads t = inr j)).
Proof.
  split.
  - intros request. cbv zeta. rewrite respond_snd.
    destruct (generate_landing_page_summary request w s) as [Hsent Hcase].
    cbv zeta in Hsent, Hcase. split; [exact Hsent |].
    unfold unusable_reply.
    destruct (chat_completions_create w
                (generation_request w s (Routes.user_input_of request))) as [msg | [t |]].
    + destruct Hcase as [Hr Hs]. split; [| left; exact Hs].
      intros _. split; [exact Hs | exact (respond_raise _ _ _ _ Hr)].
    + destruct (json_loads t) as [msg | j] eqn:Hj.
      * destruct Hcase as [Hr Hs]. split; [| left; exact Hs].
        intros _. split; [exact Hs | exact (respond_raise _ _ _ _ Hr)].
      * split; [intros [msg Hm]; discriminate |].
        right. exists t, j. split; [reflexivity | exact Hj].
    + destruct Hcase as [[d Hr] Hs]. split; [| left; exact Hs].
      intros _. split; [exact Hs | exact (respond_raise _ _ _ _ Hr)].
  - intros pid request. cbv zeta. unfold Api.post_regenerate_section.
    rewrite respond_snd.
    destruct (regenerate_outcome pid request w s)
      as [[Hs _] | (p & n & secs & body & _ & _ & _ & _ & Hr)]; [left; exact Hs |].
    right.
    destruct (Routes.regenerate_section_endpoint pid request w s) as [res s'] eqn:E.
    cbn [fst snd] in *. subst res. split.
    + exists body. unfold Api.respond. rewrite E. reflexivity.
    + exact (regenerate_endpoint_ok _ _ _ _ _ _ E).
Qed.


(** The prompt [generate_landing_page] sends is the prompt without brand
    context, whatever the route's crawl returned. *)
Lemma generation_prompt_has_no_brand_context
  (request : Routes.GeneratePageRequest) (w : World) (s : St) :
  exists q,
    sent (snd (Routes.generate_landing_page request w s)) = sent s ++ [q]
    /\ user_content q
       = Prompts.landing_page_prompt (drawn_page_id w s) (Routes.user_input_of request) None.
Proof.
  exists (generation_request w s (Routes.user_input_of request)).
  split; [exact (proj1 (generate_landing_page_summary request w s)) | reflexivity].
Qed.

(** The composer, for its part, embeds a brand context it is given, in
    full and followed by the instruction block. *)
Lemma landing_page_prompt_embeds_context (uid : string) (user_input : dict) (c : string) :
  str_truthy c = true ->
  occurs_in (Prompts.brand_context_block c ++ Prompts.tone_instruction_with_context)
            (Prompts.landing_page_prompt uid user_input (Some c))
  /\ occurs_in c (Prompts.brand_context_block c).
Proof.
  intros Hc. split.
  - unfold Prompts.landing_page_prompt, opt_str_truthy. rewrite Hc.
    unfold Prompts.landing_page_template.
    do 14 apply occurs_in_app_r. rewrite <- append_assoc. apply occurs_in_here.
  - unfold Prompts.brand_context_block. apply occurs_in_app_r. apply occurs_in_here.
Qed.

End LifecycleClaims.

(** * Further properties of the code *)

(** ** Internal links *)

Lemma set_add_in (x y : string) (s : list string) :
  In y (set_add x s) -> y = x \/ In y s.
Proof.
  unfold set_add. destruct (existsb (String.eqb x) s); [right; assumption |].
  intros H. apply in_app_or in H. destruct H as [H | [H | []]]; [right | left]; auto.
Qed.

Lemma set_add_NoDup (x : string) (s : list string) : NoDup s -> NoDup (set_add x s).
Proof.
  intros H. unfold set_add. destruct (existsb (String.eqb x) s) eqn:E; [exact H |].
  apply (Permutation_NoDup (Permutation_cons_append s x)). constructor; [| exact H].
  intros Hin. assert (Ht : existsb (String.eqb x) s = true).
  { apply existsb_exists. exists x. split; [exact Hin | apply String.eqb_refl]. }
  congruence.
Qed.

Lemma insert_by_hash_perm (h : string -> nat) (x : string) (l : list string) :
  Permutation (insert_by_hash h x l) (x :: l).
Proof.
  induction l as [| y r IH]; cbn [insert_by_hash]; [apply Permutation_refl |].
  destruct (h x <=? h y)%nat; [apply Permutation_refl |].
  apply (Permutation_trans (perm_skip y IH)). apply perm_swap.
Qed.

(** [list(s)] holds the elements of the set, each once. *)
Lemma set_to_list_perm (h : string -> nat) (s : list string) :
  Permutation (set_to_list h s) s.
Proof.
  unfold set_to_list. induction s as [| x r IH]; cbn [fold_right]; [constructor |].
  apply (Permutation_trans (insert_by_hash_perm h x _)). apply perm_skip. exact IH.
Qed.

(** What holds of an accumulator at the start and is kept by every turn
    of a loop holds of the loop's result. *)
Lemma for_each_invariant {A B : Type} (Inv : B -> Prop) (l : list A) (body : B -> A -> M B)
  (w : World) :
  (forall acc x s acc' s', In x l -> Inv acc -> body acc x w s = (Ok acc', s') -> Inv acc') ->
  forall acc s r s', Inv acc -> for_each l acc body w s = (Ok r, s') -> Inv r.
Proof.
  induction l as [| x t IH]; intros Hb acc s r s' Hacc; cbn [for_each].
  - unfold ret. intros H. injection H as <- _. exact Hacc.
  - rewrite bind_run. destruct (body acc x w s) as [[acc1 | e] s1] eqn:E; [| discriminate].
    apply IH.
    + intros a y s0 a' s0' Hy. apply Hb. right. exact Hy.
    + apply (Hb acc x s acc1 s1); [left; reflexivity | exact Hacc | exact E].
Qed.

Lemma firstn_incl {A : Type} (n : nat) (l : list A) (x : A) : In x (firstn n l) -> In x l.
Proof.
  revert n. induction l as [| y r IH]; intros n; destruct n; cbn [firstn];
    try contradiction.
  intros [H | H]; [left; exact H | right; exact (IH n H)].
Qed.

Lemma firstn_NoDup {A : Type} (n : nat) (l : list A) : NoDup l -> NoDup (firstn n l).
Proof.
  revert n. induction l as [| x r IH]; intros n H; destruct n; cbn [firstn];
    try apply NoDup_nil.
  inversion H as [| ? ? Hx Hr]; subst. apply NoDup_cons; [| apply IH; assumption].
  intros Hin. apply Hx. exact (firstn_incl _ _ _ Hin).
Qed.

Section LinkFacts.
Context {P : Platform}.

(** X1. The internal links of a page are at most five and all different;
    none is the root URL (up to trailing slashes); each is the scheme,
    host and path of the target of an anchor of the page that is no
    fragment, mail, phone or script link and whose host is the root's. *)
Theorem internal_links_are_few_distinct_and_internal
  (w : World) (base_url html_text : string) (links : list string) :
  links_of w base_url html_text = Ok links ->
  (length links <= 5)%nat
  /\ NoDup links
  /\ forall l, In l links ->
       rstrip_char "/" l <> rstrip_char "/" base_url
       /\ exists href full parsed base,
            In href (soup_a_hrefs (BeautifulSoup html_text))
            /\ startswith_any href ["#"; "mailto:"; "tel:"; "javascript:"]%string = false
            /\ urljoin base_url href = inr full
            /\ urlparse full = inr parsed
            /\ urlparse base_url = inr base
            /\ netloc parsed = netloc base
            /\ l = (scheme parsed ++ "://" ++ netloc parsed ++ path parsed)%string.
Proof.
  unfold links_of, Crawler._extract_internal_links. rewrite bind_run.
  destruct (urlparse base_url) as [e | base] eqn:Hbase; [discriminate |].
  unfold lift at 1, ret at 1. rewrite bind_run.
  pose (Inv := fun acc : list string => NoDup acc /\ forall l, In l acc ->
            rstrip_char "/" l <> rstrip_char "/" base_url
            /\ exists href full parsed base0,
                 In href (soup_a_hrefs (BeautifulSoup html_text))
                 /\ startswith_any href ["#"; "mailto:"; "tel:"; "javascript:"]%string = false
                 /\ urljoin base_url href = inr full
                 /\ urlparse full = inr parsed
                 /\ inr base = inr (A := exn) base0
                 /\ netloc parsed = netloc base0
                 /\ l = (scheme parsed ++ "://" ++ netloc parsed ++ path parsed)%string).
  match goal with |- context [for_each ?ls ?a ?b w ?s0] =>
    destruct (for_each ls a b w s0) as [[set | e] s1] eqn:Hloop;
      [pose proof (for_each_invariant Inv ls b w) as Hinv | discriminate]
  end.
  assert (Hset : Inv set).
  { apply (Hinv) with (acc := []) (s := mkSt [] [] [] [] 0 0) (s' := s1);
      [| split; [constructor | intros l []] | exact Hloop].
    clear Hinv Hloop. intros acc href s acc' s' Hhref [Hnd Hall].
    destruct (startswith_any href _) eqn:Hskip.
    { unfold ret. intros H. injection H as <- _. split; assumption. }
    rewrite bind_run. destruct (urljoin base_url href) as [e | full] eqn:Hjoin;
      [discriminate |].
    unfold lift at 1, ret at 1. rewrite bind_run.
    destruct (urlparse full) as [e | parsed] eqn:Hparse; [discriminate |].
    unfold lift at 1, ret at 1.
    destruct (String.eqb (netloc parsed) (netloc base)) eqn:Hnet.
    2: { unfold ret. intros H. injection H as <- _. split; assumption. }
    destruct (negb (String.eqb _ _)) eqn:Hne.
    2: { unfold ret. intros H. injection H as <- _. split; assumption. }
    unfold ret. intros H. injection H as <- _. split; [apply set_add_NoDup; exact Hnd |].
    intros l Hl. apply set_add_in in Hl. destruct Hl as [-> | Hl]; [| exact (Hall l Hl)].
    split.
    - apply negb_true_iff in Hne. apply String.eqb_neq in Hne. exact Hne.
    - exists href, full, parsed, base. apply String.eqb_eq in Hnet.
      repeat split; assumption. }
  destruct Hset as [Hnd Hall].
  rewrite bind_run. unfold list_of_set, ret. cbn [str_hash].
  intros H. injection H as H.
  change (firstn 5 (set_to_list (str_hash w) set) = links) in H. subst links.
  pose proof (set_to_list_perm (str_hash w) set) as Hperm.
  split; [apply firstn_le_length |]. split.
  - apply firstn_NoDup. apply (Permutation_NoDup (Permutation_sym Hperm)). exact Hnd.
  - intros l Hl. apply firstn_incl in Hl. apply (Permutation_in _ Hperm) in Hl.
    destruct (Hall l Hl) as (Hne & href & full & parsed & base0 & H1 & H2 & H3 & H4 & H5 & H6 & H7).
    split; [exact Hne |]. exists href, full, parsed, base0.
    injection H5 as <-. repeat split; assumption.
Qed.

End LinkFacts.

(** ** The crawl when the links cannot be read *)

Section CrawlEdgeFacts.
Context {P : Platform}.

(** X2. When reading the links of the home page raises (a base URL or a
    link target that cannot be parsed), the crawl still answers: it
    returns the block of the home page alone, requests no other page,
    and logs the failure as a warning; links read before the failure are
    dropped. *)
Theorem crawl_website_keeps_home_when_links_fail
  (base_url : string) (max_inner_pages : Z) (w : World) (s : St)
  (home : Crawler.PageData) (e : exn) :
  page_of w base_url = Some home ->
  links_of w base_url (Crawler.html home) = Raise e ->
  Crawler.crawl_website base_url max_inner_pages w s =
  (Ok (Some (block 0 home)),
   mkSt (store s)
        (log s ++ [ (INFO, ("Crawling: " ++ base_url)%string);
                    (WARNING, ("Failed to extract inner links: " ++ exn_str e)%string);
                    (INFO, "✓ Crawled 1 pages successfully") ])
        (fetched s ++ [base_url]) (sent s) (uuid_k s) (clock_k s)).
Proof.
  intros Hhome Hlinks. rewrite crawl_website_run.
  unfold crawl_result, crawl_log, crawl_fetches, crawled_pages, candidates, fetch_log.
  rewrite Hhome, Hlinks.
  unfold page_of in Hhome. destruct (requests_get w base_url); [discriminate |].
  unfold fetched_pages. cbn [flat_map Datatypes.length app].
  rewrite build_brand_context_blocks. reflexivity.
Qed.

Lemma substring_length_le (n m : nat) (s : string) :
  (String.length (substring n m s) <= m)%nat.
Proof.
  revert n m. induction s as [| c r IH]; intros n m.
  - destruct n, m; cbn; lia.
  - destruct n as [| n].
    + destruct m as [| m]; cbn [substring String.length]; [lia |].
      specialize (IH 0%nat m). lia.
    + cbn [substring]. apply IH.
Qed.

Lemma filter_truthy_nonempty (l : list string) :
  Forall (fun x => x <> ""%string) (filter str_truthy l).
Proof.
  apply Forall_forall. intros x Hx. apply filter_In in Hx. destruct Hx as [_ Hx].
  unfold str_truthy in Hx. apply negb_true_iff in Hx. apply String.eqb_neq in Hx. exact Hx.
Qed.

(** X3. A page that was fetched is recorded under the URL that was
    requested, with at most 3000 characters of text and no empty heading
    at any of the three levels. *)
Theorem fetched_page_data_is_bounded (u : string) (w : World) (s : St) (p : Crawler.PageData) :
  fst (Crawler._fetch_page_data u w s) = Ok (Some p) ->
  Crawler.url p = u
  /\ (String.length (Crawler.text_content p) <= 3000)%nat
  /\ Forall (fun h => h <> ""%string) (Crawler.h1 (Crawler.headings p))
  /\ Forall (fun h => h <> ""%string) (Crawler.h2 (Crawler.headings p))
  /\ Forall (fun h => h <> ""%string) (Crawler.h3 (Crawler.headings p)).
Proof.
  rewrite fetch_page_data_run. cbn [fst]. unfold page_of.
  destruct (requests_get w u) as [e | content]; [discriminate |].
  intros H. injection H as <-.
  unfold Crawler.page_data_of, Crawler._get_clean_text, Crawler._get_headings.
  cbn [Crawler.url Crawler.text_content Crawler.headings Crawler.h1 Crawler.h2 Crawler.h3].
  repeat split; try apply filter_truthy_nonempty.
  unfold str_take. apply substring_length_le.
Qed.

End CrawlEdgeFacts.

(** ** The prompt of a regeneration *)

Section RegeneratePromptFacts.
Context {P : Platform}.

Lemma instructions_for_default (ty : string) :
  ~ In ty ["hero"; "features"; "testimonials"; "faq"; "contact"; "footer"]%string ->
  Prompts.instructions_for Prompts.section_instructions ty = Prompts.default_instructions.
Proof.
  intros H. unfold Prompts.section_instructions. cbn [Prompts.instructions_for].
  repeat match goal with
  | |- context [String.eqb ?k ty] =>
      destruct (String.eqb_spec k ty) as [E | _];
        [exfalso; apply H; rewrite <- E; cbn; tauto |]
  end.
  reflexivity.
Qed.

(** X4. For a section whose type is a string, the regeneration prompt is
    built without touching the state; it shows the section's current
    data ([{}] when it has none) under a heading with the type in upper
    case, the instructions of that type (the generic instruction when
    the type is none of the six known ones), and a skeleton of the
    answer that repeats the section's id, type and order ([None] and [0]
    when missing).  Below, [qq] writes the double-quote character as a
    tilde. *)
Theorem regenerate_prompt_shows_section
  (section user_context : dict) (crawled_context : option string) (ty : string)
  (w : World) (s : St) :
  dict_get section "type" = Some (JStr ty) ->
  exists prompt,
    Prompts.build_section_regenerate_prompt section user_context crawled_context w s
    = (Ok prompt, s)
    /\ occurs_in ("CURRENT " ++ str_upper ty ++ " SECTION TO REPLACE:" ++ nl
                  ++ py_str (dict_get_default section "data" (JDict [])) ++ nl)%string prompt
    /\ occurs_in ("REGENERATION INSTRUCTIONS:" ++ nl
                  ++ Prompts.instructions_for Prompts.section_instructions ty ++ nl)%string
                 prompt
    /\ (~ In ty ["hero"; "features"; "testimonials"; "faq"; "contact"; "footer"]%string ->
        Prompts.instructions_for Prompts.section_instructions ty
        = Prompts.default_instructions)
    /\ occurs_in (qq "~id~: ~" ++ py_str_opt (dict_get section "id") ++ qq "~,")%string prompt
    /\ occurs_in (qq "~type~: ~" ++ ty ++ qq "~,")%string prompt
    /\ occurs_in (qq "~order~: " ++ py_str (dict_get_default section "order" (JInt 0))
                  ++ ",")%string prompt.
Proof.
  intros Hty. unfold Prompts.build_section_regenerate_prompt. rewrite Hty.
  eexists. split; [reflexivity |].
  unfold Prompts.section_regenerate_prompt, Prompts.section_regenerate_template.
  repeat split.
  - do 9 apply occurs_in_app_r. skip_to_last 8%nat.
    eapply occurs_in_front. rewrite !append_assoc. reflexivity.
  - do 13 apply occurs_in_app_r. skip_to_last 27%nat.
    eapply occurs_in_front. rewrite !append_assoc. reflexivity.
  - apply instructions_for_default.
  - do 15 apply occurs_in_app_r. skip_to_last 7%nat.
    eapply occurs_in_front. rewrite !append_assoc. reflexivity.
  - do 17 apply occurs_in_app_r. skip_to_last 9%nat.
    eapply occurs_in_front. rewrite !append_assoc. reflexivity.
  - do 19 apply occurs_in_app_r. skip_to_last 9%nat.
    eapply occurs_in_front. rewrite !append_assoc. reflexivity.
Qed.

End RegeneratePromptFacts.

(** ** The client of the provider *)

Section ClientFacts.
Context {P : Platform}.

(** X5. A section whose [type] is not a string cannot be regenerated:
    the client raises a plain exception whose message starts with
    [Error regenerating section: ], before anything is sent to the
    provider, and the store is as it was. *)
Theorem regenerate_section_needs_string_type
  (section : dict) (prompt : Json) (w : World) (s : St) :
  (forall ty, dict_get section "type" <> Some (JStr ty)) ->
  let r := Generator.regenerate_section section prompt w s in
  (exists msg, fst r = Raise (PyException ("Error regenerating section: " ++ msg)))
  /\ sent (snd r) = sent s
  /\ store (snd r) = store s.
Proof.
  intros Hty r. subst r. unfold Generator.regenerate_section.
  rewrite try_except_run, bind_run.
  destruct prompt as [| b | n | t | l | d];
    try (cbn; split; [eexists; reflexivity | split; reflexivity]).
  change (Generator.as_dict (JDict d) w s) with (Ok d, s). cbv beta iota.
  rewrite bind_run.
  destruct (crawl_if_url_run d w s) as (c & s1 & E & Hs & Hq & _). rewrite E.
  rewrite bind_run. unfold Prompts.build_section_regenerate_prompt.
  destruct (dict_get section "type") as [[| b | n | t | l | d'] |] eqn:Hsec;
    try (exfalso; exact (Hty t eq_refl));
    (unfold raise at 1; cbn [fst snd is_JSONDecodeError];
     split; [eexists; reflexivity | split; assumption]).
Qed.

Lemma crawl_result_truthy (w : World) (u : string) (n : Z) (ctx : string) :
  crawl_result w u n = Some ctx -> str_truthy ctx = true.
Proof.
  unfold crawl_result. destruct (page_of w u) as [home |]; [| discriminate].
  intros H. injection H as <-. unfold crawled_pages.
  pose proof (brand_context_home_prefix home
                (fetched_pages w (candidates w u home n))) as Hp.
  destruct (Crawler._build_brand_context _) as [| c r]; [discriminate Hp | reflexivity].
Qed.

(** X6. When the brief itself has a non-empty string under [url], the
    client crawls that URL (two inner pages at most) and, when the crawl
    succeeds, sends one request whose prompt embeds the brand context in
    full, followed by the instruction to follow it; the context passed
    as argument plays no part. *)
Theorem generate_page_spec_crawls_url_of_brief
  (user_input : dict) (u : string) (crawled_context : option string) (ctx : string)
  (w : World) (s : St) :
  dict_get user_input "url" = Some (JStr u) ->
  str_truthy u = true ->
  crawl_result w u 2 = Some ctx ->
  let r := Generator.generate_page_spec user_input crawled_context w s in
  fetched (snd r) = fetched s ++ crawl_fetches w u 2
  /\ exists q,
       sent (snd r) = sent s ++ [q]
       /\ user_content q = Prompts.landing_page_prompt (drawn_page_id w s) user_input (Some ctx)
       /\ occurs_in (Prompts.brand_context_block ctx ++ Prompts.tone_instruction_with_context)
                    (user_content q)
       /\ occurs_in ctx (Prompts.brand_context_block ctx).
Proof.
  intros Hurl Hu Hctx r. subst r.
  pose proof (crawl_result_truthy _ _ _ _ Hctx) as Ht.
  destruct (landing_page_prompt_embeds_context (drawn_page_id w s) user_input ctx Ht)
    as [Hemb Hin].
  set (s1 := mkSt (store s) (log s ++ crawl_log w u 2) (fetched s ++ crawl_fetches w u 2)
                  (sent s) (uuid_k s) (clock_k s)).
  assert (Hc : Generator.crawl_if_url user_input w s = (Ok (Some ctx), s1)).
  { unfold Generator.crawl_if_url. rewrite Hurl.
    change (truthy (JStr u)) with (str_truthy u). rewrite Hu.
    unfold Generator.crawl_value, Crawler.crawl_website_default.
    rewrite crawl_website_run, Hctx. reflexivity. }
  set (prompt := Prompts.landing_page_prompt (drawn_page_id w s) user_input (Some ctx)).
  set (s2 := mkSt (store s1) (log s1) (fetched s1) (sent s1) (S (uuid_k s1)) (clock_k s1)).
  assert (Hp : Prompts.build_landing_page_prompt user_input (Some ctx) w s1
               = (Ok prompt, s2)) by reflexivity.
  set (q := mkChatRequest "gpt-4o" Generator.system_prompt prompt (7 # 10) 2500).
  set (s3 := mkSt (store s2) (log s2) (fetched s2) (sent s2 ++ [q]) (uuid_k s2) (clock_k s2)).
  assert (Hq : Generator.chat_create prompt 2500 w s2
               = (match chat_completions_create w q with
                  | inl msg => Raise (ProviderError msg)
                  | inr content => Ok content
                  end, s3)).
  { unfold Generator.chat_create. fold q. fold s3.
    destruct (chat_completions_create w q); reflexivity. }
  assert (Hl : forall t, snd (Generator.loads t w s3) = s3).
  { intros [t |]; unfold Generator.loads; [destruct (json_loads t) |]; reflexivity. }
  assert (Hs : snd (Generator.generate_page_spec user_input crawled_context w s) = s3).
  { unfold Generator.generate_page_spec. rewrite try_except_run, bind_run, Hc.
    cbv beta iota. rewrite bind_run, Hp. cbv beta iota. rewrite bind_run, Hq.
    destruct (chat_completions_create w q) as [msg | content]; cbv beta iota.
    - reflexivity.
    - rewrite bind_run. specialize (Hl content).
      destruct (Generator.loads content w s3) as [[j | e] s4]; cbn [snd] in Hl; subst s4.
      + reflexivity.
      + destruct (is_JSONDecodeError e); reflexivity. }
  rewrite Hs. split; [reflexivity |]. exists q. repeat split; assumption.
Qed.

(** X20. A regeneration whose context has a non-empty string under
    [url] crawls that URL (two inner pages at most) before it asks the
    provider: one request is sent, built from the section, the context
    and what the crawl returned, and when the crawl succeeded its prompt
    shows the brand context in full under its heading. *)
Theorem regenerate_section_crawls_url_of_context
  (section d : dict) (ty u : string) (w : World) (s : St) :
  dict_get section "type" = Some (JStr ty) ->
  dict_get d "url" = Some (JStr u) ->
  str_truthy u = true ->
  let r := Generator.regenerate_section section (JDict d) w s in
  let q := regeneration_request section ty d (crawl_result w u 2) in
  fetched (snd r) = fetched s ++ crawl_fetches w u 2
  /\ sent (snd r) = sent s ++ [q]
  /\ forall ctx, crawl_result w u 2 = Some ctx ->
       occurs_in ("BRAND CONTEXT FROM WEBSITE:" ++ nl ++ ctx ++ nl)%string (user_content q).
Proof.
  intros Hty Hurl Hu. cbv zeta.
  set (c := crawl_result w u 2).
  set (s1 := mkSt (store s) (log s ++ crawl_log w u 2) (fetched s ++ crawl_fetches w u 2)
                  (sent s) (uuid_k s) (clock_k s)).
  assert (Hc : Generator.crawl_if_url d w s = (Ok c, s1)).
  { unfold Generator.crawl_if_url. rewrite Hurl.
    change (truthy (JStr u)) with (str_truthy u). rewrite Hu.
    unfold Generator.crawl_value, Crawler.crawl_website_default.
    rewrite crawl_website_run. reflexivity. }
  set (q := regeneration_request section ty d c).
  set (s2 := mkSt (store s1) (log s1) (fetched s1) (sent s1 ++ [q]) (uuid_k s1) (clock_k s1)).
  assert (Hq : Generator.chat_create (Prompts.section_regenerate_prompt section ty d c) 2000
                 w s1
               = (match chat_completions_create w q with
                  | inl msg => Raise (ProviderError msg)
                  | inr content => Ok content
                  end, s2)).
  { unfold Generator.chat_create.
    change (mkChatRequest "gpt-4o" Generator.system_prompt
              (Prompts.section_regenerate_prompt section ty d c) (7 # 10) 2000) with q.
    fold s2. destruct (chat_completions_create w q); reflexivity. }
  assert (Hl : forall t, snd (Generator.loads t w s2) = s2).
  { intros [t |]; unfold Generator.loads; [destruct (json_loads t) |]; reflexivity. }
  assert (Hs : snd (Generator.regenerate_section section (JDict d) w s) = s2).
  { unfold Generator.regenerate_section. rewrite try_except_run, bind_run.
    change (Generator.as_dict (JDict d) w s) with (Ok d, s). cbv beta iota.
    rewrite bind_run, Hc. cbv beta iota. rewrite bind_run.
    unfold Prompts.build_section_regenerate_prompt. rewrite Hty.
    unfold ret at 1. cbv beta iota. rewrite bind_run, Hq.
    destruct (chat_completions_create w q) as [msg | content]; cbv beta iota.
    - reflexivity.
    - rewrite bind_run. specialize (Hl content).
      destruct (Generator.loads content w s2) as [[j | e] s3]; cbn [snd] in Hl; subst s3.
      + reflexivity.
      + destruct (is_JSONDecodeError e); reflexivity. }
  rewrite Hs. split; [reflexivity |]. split; [reflexivity |].
  intros ctx Hctx. subst q c. rewrite Hctx.
  pose proof (crawl_result_truthy _ _ _ _ Hctx) as Ht.
  unfold regeneration_request. cbn [user_content].
  unfold Prompts.section_regenerate_prompt, Prompts.section_regenerate_template,
    Prompts.crawl_info_of. rewrite Ht.
  do 8 apply occurs_in_app_r. apply occurs_in_app_l. do 2 apply occurs_in_app_r.
  exists ""%string, ""%string. rewrite append_nil_r. reflexivity.
Qed.

End ClientFacts.

(** ** The collection *)

Lemma json_eqb_str_refl (p : string) : Db.json_eqb (JStr p) (JStr p) = true.
Proof. cbn [Db.json_eqb]. apply String.eqb_refl. Qed.

Lemma matches_page_id (pid : string) (d : Document) :
  Db.matches pid d = true <-> page_id d = JStr pid.
Proof.
  unfold Db.matches. destruct (page_id d) as [| b | n | p | l | x];
    try (split; discriminate).
  split.
  - intros H. apply String.eqb_eq in H. subst. reflexivity.
  - intros H. injection H as ->. apply String.eqb_refl.
Qed.

Lemma find_app_some {A : Type} (f : A -> bool) (l1 l2 : list A) (x : A) :
  find f l1 = Some x -> find f (l1 ++ l2) = Some x.
Proof.
  induction l1 as [| y r IH]; cbn [find app]; [discriminate |].
  destruct (f y); [trivial | exact IH].
Qed.

Lemma find_app_none {A : Type} (f : A -> bool) (l1 l2 : list A) :
  find f l1 = None -> find f (l1 ++ l2) = find f l2.
Proof.
  induction l1 as [| y r IH]; cbn [find app]; [reflexivity |].
  destruct (f y); [discriminate | exact IH].
Qed.

(** A page that is stored stands in the way of any document with its id. *)
Lemma stored_blocks_insert (pid : string) (docs : list Document) (d : Document) :
  find (Db.matches pid) docs = Some d ->
  existsb (fun d' => Db.json_eqb (page_id d') (JStr pid)) docs = true.
Proof.
  intros H. apply find_some in H. destruct H as [Hin Hm].
  apply existsb_exists. exists d. split; [exact Hin |].
  apply matches_page_id in Hm. rewrite Hm. apply json_eqb_str_refl.
Qed.

Lemma insert_free_not_stored (pid : string) (docs : list Document) :
  existsb (fun d' => Db.json_eqb (page_id d') (JStr pid)) docs = false ->
  find (Db.matches pid) docs = None.
Proof.
  intros H. destruct (find (Db.matches pid) docs) as [d |] eqn:E; [| reflexivity].
  rewrite (stored_blocks_insert pid docs d E) in H. discriminate.
Qed.

Lemma save_page_run (spec : dict) (uc : dict) (cc uid : option string) (w : World) (s : St) :
  let doc := mkDocument (dict_get_default spec "pageId" JNull)
                        (dict_get_default spec "version" (JInt 1))
                        (dict_get_default spec "sections" (JList []))
                        (utcnow w (clock_k s)) (utcnow w (S (clock_k s))) uid false
                        (JDict uc) cc in
  Db.save_page (JDict spec) uc cc uid w s =
  if existsb (fun d' => Db.json_eqb (page_id d') (page_id doc)) (store s)
  then (Raise (DuplicateKeyError "E11000 duplicate key error"),
        mkSt (store s) (log s) (fetched s) (sent s) (uuid_k s) (S (S (clock_k s))))
  else (Ok doc,
        mkSt (store s ++ [doc]) (log s) (fetched s) (sent s) (uuid_k s) (S (S (clock_k s)))).
Proof.
  cbv zeta. unfold Db.save_page. rewrite bind_run. unfold datetime_utcnow at 1.
  cbv beta iota. rewrite bind_run. unfold datetime_utcnow at 1.
  cbv beta iota. cbn [store log fetched sent uuid_k clock_k].
  rewrite bind_run. unfold Db.insert_one. rewrite bind_run. unfold get_store at 1.
  cbv beta iota. cbn [store log fetched sent uuid_k clock_k page_id].
  destruct (existsb _ (store s)); reflexivity.
Qed.

(** X7. A page that was saved is found again under its id: [save_page]
    succeeds only when no page with that id was stored, appends one
    document that holds the specification's version and sections ([1]
    and [[]] when missing), the brief and the brand context given, is
    not published and carries two readings of the clock; [get_page]
    then returns that document. *)
Theorem save_page_then_get_page
  (spec uc : dict) (cc uid : option string) (pid : string) (w w' : World) (s s' : St)
  (doc : Document) :
  dict_get spec "pageId" = Some (JStr pid) ->
  Db.save_page (JDict spec) uc cc uid w s = (Ok doc, s') ->
  stored pid s = None
  /\ store s' = store s ++ [doc]
  /\ Db.get_page pid w' s' = (Ok (Some doc), s')
  /\ doc = mkDocument (JStr pid)
                      (dict_get_default spec "version" (JInt 1))
                      (dict_get_default spec "sections" (JList []))
                      (utcnow w (clock_k s)) (utcnow w (S (clock_k s))) uid false
                      (JDict uc) cc.
Proof.
  intros Hpid. rewrite save_page_run. cbv zeta. cbn [page_id].
  assert (Hid : dict_get_default spec "pageId" JNull = JStr pid)
    by (unfold dict_get_default; rewrite Hpid; reflexivity).
  rewrite !Hid.
  destruct (existsb _ (store s)) eqn:Hex; [discriminate |].
  intros H. injection H as <- <-.
  pose proof (insert_free_not_stored pid (store s) Hex) as Hnone.
  split; [exact Hnone |]. split; [reflexivity |]. split; [| reflexivity].
  rewrite get_page_run. unfold stored. cbn [store].
  rewrite (find_app_none _ _ _ Hnone). cbn [find].
  unfold Db.matches. cbn [page_id]. rewrite String.eqb_refl. reflexivity.
Qed.

(** X8. Saving a specification whose [pageId] is the id of a stored
    page fails with a duplicate-key error of the unique index and leaves
    the collection as it was. *)
Theorem save_page_rejects_stored_id
  (spec uc : dict) (cc uid : option string) (pid : string) (w : World) (s : St)
  (old : Document) :
  dict_get spec "pageId" = Some (JStr pid) ->
  stored pid s = Some old ->
  let r := Db.save_page (JDict spec) uc cc uid w s in
  (exists msg, fst r = Raise (DuplicateKeyError msg))
  /\ store (snd r) = store s.
Proof.
  intros Hpid Hold. rewrite save_page_run. cbv zeta. cbn [page_id].
  assert (Hid : dict_get_default spec "pageId" JNull = JStr pid)
    by (unfold dict_get_default; rewrite Hpid; reflexivity).
  rewrite !Hid.
  rewrite (stored_blocks_insert pid (store s) old Hold).
  split; [eexists; reflexivity | reflexivity].
Qed.

Lemma matches_other (pid pid' : string) (d : Document) :
  pid' <> pid -> Db.matches pid d = true -> Db.matches pid' d = false.
Proof.
  intros Hne Hm. apply matches_page_id in Hm. unfold Db.matches. rewrite Hm.
  apply String.eqb_neq. congruence.
Qed.

Lemma find_remove_first_other (pid pid' : string) (docs : list Document) :
  pid' <> pid ->
  find (Db.matches pid') (Db.remove_first pid docs) = find (Db.matches pid') docs.
Proof.
  intros Hne. induction docs as [| d r IH]; [reflexivity |].
  cbn [Db.remove_first find]. destruct (Db.matches pid d) eqn:Hm.
  - rewrite (matches_other pid pid' d Hne Hm). reflexivity.
  - cbn [find]. rewrite IH. reflexivity.
Qed.

Lemma find_update_first_other (pid pid' : string) (f : Document -> Document)
  (docs : list Document) :
  (forall d, page_id (f d) = page_id d) -> pid' <> pid ->
  find (Db.matches pid') (Db.update_first pid f docs) = find (Db.matches pid') docs.
Proof.
  intros Hf Hne. induction docs as [| d r IH]; [reflexivity |].
  cbn [Db.update_first find]. destruct (Db.matches pid d) eqn:Hm.
  - cbn [find]. rewrite (matches_other pid pid' d Hne Hm).
    assert (Hfd : Db.matches pid' (f d) = false).
    { apply (matches_other pid pid' (f d) Hne). apply matches_page_id.
      rewrite Hf. apply matches_page_id. exact Hm. }
    rewrite Hfd. reflexivity.
  - cbn [find]. rewrite IH. reflexivity.
Qed.

Lemma unique_ids_no_second (pid : string) (d : Document) (r : list Document) :
  page_id d = JStr pid ->
  Forall (fun x => Db.json_eqb (page_id d) (page_id x) = false) r ->
  find (Db.matches pid) r = None.
Proof.
  intros Hd HF. destruct (find (Db.matches pid) r) as [x |] eqn:E; [| reflexivity].
  apply find_some in E. destruct E as [Hin Hm]. apply matches_page_id in Hm.
  rewrite Forall_forall in HF. specialize (HF x Hin).
  rewrite Hd, Hm, json_eqb_str_refl in HF. discriminate.
Qed.

Lemma find_remove_first_same (pid : string) (docs : list Document) :
  unique_ids docs -> find (Db.matches pid) (Db.remove_first pid docs) = None.
Proof.
  induction docs as [| d r IH]; [reflexivity |].
  cbn [unique_ids Db.remove_first]. intros [HF Hu].
  destruct (Db.matches pid d) eqn:Hm.
  - apply (unique_ids_no_second pid d r); [apply matches_page_id; exact Hm | exact HF].
  - cbn [find]. rewrite Hm. exact (IH Hu).
Qed.

Lemma delete_page_run (pid : string) (w : World) (s : St) :
  Db.delete_page pid w s =
  match stored pid s with
  | None => (Ok false, s)
  | Some _ =>
      (Ok true, mkSt (Db.remove_first pid (store s)) (log s) (fetched s) (sent s)
                     (uuid_k s) (clock_k s))
  end.
Proof.
  unfold Db.delete_page, Db.delete_one, stored. rewrite !bind_run.
  unfold get_store at 1. cbv beta iota.
  destruct (find (Db.matches pid) (store s)); reflexivity.
Qed.

(** ** The route that reads a page *)

Section ResponseFacts.
Context {V : ResponseModel}.

Lemma get_landing_page_missing (pid : string) (w : World) (s : St) :
  stored pid s = None ->
  Routes.get_landing_page pid w s
  = (Raise (HTTPException 404 ("Page " ++ pid ++ " not found")), s).
Proof.
  intros Hp. unfold Routes.get_landing_page, Routes.get_landing_page_handler.
  rewrite bind_run, try_except_run, bind_run, get_page_run, Hp. reflexivity.
Qed.

(** On a stored page the handler returns the stored id, version and
    sections, with the stored brief when it is not empty; the answer is
    what the response model makes of that dict. *)
Lemma get_landing_page_run (pid : string) (w : World) (s : St) (p : Document) :
  stored pid s = Some p ->
  Routes.get_landing_page pid w s
  = (match validate_PageSpecResponse
             (JDict ([ ("pageId", page_id p); ("version", version p);
                       ("sections", sections p) ]
                     ++ (if truthy (user_context p)
                         then [("user_context", user_context p)] else []))) with
     | inr body => Ok body
     | inl msg => Raise (ResponseValidationError msg)
     end, s).
Proof.
  intros Hp. unfold Routes.get_landing_page, Routes.get_landing_page_handler.
  rewrite bind_run, try_except_run, bind_run, get_page_run, Hp. cbv beta iota zeta.
  destruct (truthy (user_context p)); cbn [app dict_set String.eqb Ascii.eqb Bool.eqb];
    unfold ret at 1; cbv beta iota;
    destruct (validate_PageSpecResponse _); reflexivity.
Qed.

End ResponseFacts.

(** ** The routes on pages and sections that are not there *)

Section RouteEdgeFacts.
Context {P : Platform} {V : ResponseModel}.

(** X9. Every route that takes a page id answers an unknown id with
    HTTP 404 and the detail [Page <id> not found], and leaves the whole
    state as it was: nothing is stored, sent, fetched or logged and the
    clock is not read. *)
Theorem unknown_page_is_404
  (pid : string) (edit : Routes.EditSectionRequest) (reorder : Routes.ReorderSectionsRequest)
  (w : World) (s : St) :
  stored pid s = None ->
  let not_found := Raise (HTTPException 404 ("Page " ++ pid ++ " not found")) in
  Routes.get_landing_page pid w s = (not_found, s)
  /\ Routes.edit_section pid edit w s = (not_found, s)
  /\ Routes.regenerate_section_endpoint pid edit w s = (not_found, s)
  /\ Routes.reorder_sections pid reorder w s = (not_found, s)
  /\ Routes.publish_landing_page pid w s = (not_found, s)
  /\ Routes.delete_landing_page pid w s = (not_found, s).
Proof.
  intros Hp. cbv zeta. split; [exact (get_landing_page_missing pid w s Hp) |].
  unfold Routes.edit_section, Routes.regenerate_section_endpoint,
    Routes.reorder_sections, Routes.publish_landing_page, Routes.delete_landing_page.
  rewrite !try_except_run, !bind_run, !get_page_run, delete_page_run, Hp.
  repeat split.
Qed.

Lemma assign_no_section (sid : string) (rhs : M Json) (l : list Json) (w : World) (s : St) :
  Forall (other_section sid) l ->
  Routes.assign_section_data l sid rhs w s = (Ok (l, false), s).
Proof.
  induction 1 as [| x r (d & i & -> & Hi & Hne) _ IH]; [reflexivity |].
  cbn [Routes.assign_section_data]. rewrite bind_run. unfold py_getitem. rewrite Hi.
  unfold ret at 1. cbv beta iota. rewrite Hne, bind_run, IH. reflexivity.
Qed.

Lemma find_no_section (sid : string) (l : list Json) (w : World) (s : St) :
  Forall (other_section sid) l ->
  Routes.find_section l sid w s = (Ok None, s).
Proof.
  induction 1 as [| x r (d & i & -> & Hi & Hne) _ IH]; [reflexivity |].
  cbn [Routes.find_section]. rewrite bind_run. unfold py_getitem. rewrite Hi.
  unfold ret at 1. cbv beta iota. rewrite Hne. exact IH.
Qed.

Lemma assign_first_section (sid : string) (rhs : M Json) (pre post : list Json)
  (sec : dict) (v : Json) (w : World) (s s' : St) :
  Forall (other_section sid) pre ->
  dict_get sec "id" = Some (JStr sid) ->
  rhs w s = (Ok v, s') ->
  Routes.assign_section_data (pre ++ JDict sec :: post) sid rhs w s
  = (Ok (pre ++ JDict (dict_set sec "data" v) :: post, true), s').
Proof.
  intros Hpre Hid Hrhs.
  induction Hpre as [| x r (d & i & -> & Hi & Hne) _ IH].
  - cbn [app Routes.assign_section_data]. rewrite bind_run. unfold py_getitem. rewrite Hid.
    unfold ret at 1. cbv beta iota. unfold eq_str. rewrite String.eqb_refl.
    rewrite bind_run, Hrhs. reflexivity.
  - cbn [app Routes.assign_section_data]. rewrite bind_run. unfold py_getitem. rewrite Hi.
    unfold ret at 1. cbv beta iota. rewrite Hne, bind_run, IH. reflexivity.
Qed.

(** X10. On a stored page whose sections are dicts none of which has the
    id asked for, editing and regenerating answer HTTP 404 with the
    detail [Section <id> not found] and leave the whole state as it was:
    the version is not bumped and nothing is sent to the provider. *)
Theorem unknown_section_is_404
  (pid : string) (request : Routes.EditSectionRequest) (w : World) (s : St)
  (p : Document) (l : list Json) :
  stored pid s = Some p ->
  sections p = JList l ->
  Forall (other_section (Routes.section_id request)) l ->
  let not_found :=
    Raise (HTTPException 404 ("Section " ++ Routes.section_id request ++ " not found")) in
  Routes.edit_section pid request w s = (not_found, s)
  /\ Routes.regenerate_section_endpoint pid request w s = (not_found, s).
Proof.
  intros Hp Hl Hall. cbv zeta.
  assert (Hi : py_iter (JList l) w s = (Ok l, s)) by reflexivity.
  split.
  - unfold Routes.edit_section.
    rewrite try_except_run, bind_run, get_page_run, Hp. cbv beta iota zeta.
    rewrite Hl, bind_run, Hi. cbv beta iota.
    rewrite bind_run, (assign_no_section _ _ l w s Hall). reflexivity.
  - unfold Routes.regenerate_section_endpoint.
    rewrite try_except_run, bind_run, get_page_run, Hp. cbv beta iota zeta.
    rewrite Hl, bind_run, Hi. cbv beta iota.
    rewrite bind_run, (find_no_section _ l w s Hall). reflexivity.
Qed.

End RouteEdgeFacts.

(** ** What the routes write and read back *)

Section RouteWriteFacts.
Context {P : Platform} {V : ResponseModel}.

(** X11. Editing a section writes the request's data as sent: on a
    stored page with an integer version [n] whose sections are a list in
    which the first section with the id asked for is a dict, the route
    answers with version [n + 1], the store holds the page with that
    section's [data] replaced by the request's (the other fields of the
    section, the other sections, even later ones with the same id, and
    their order are as they were), and a [GET] that follows is
    answered from the stored id, this version and these sections: with
    what the response model makes of them, or with an error when it
    rejects them. *)
Theorem edit_section_round_trip
  (pid sid : string) (new_data : dict) (w w' : World) (s : St) (p : Document)
  (pre post : list Json) (sec : dict) (n : Z) :
  stored pid s = Some p ->
  sections p = JList (pre ++ JDict sec :: post) ->
  Forall (other_section sid) pre ->
  dict_get sec "id" = Some (JStr sid) ->
  int_value (version p) = Some n ->
  let r := Routes.edit_section pid (Routes.mkEditSectionRequest sid new_data) w s in
  let secs := JList (pre ++ JDict (dict_set sec "data" (JDict new_data)) :: post) in
  fst r = Ok (JDict [ ("message", JStr "Section updated successfully");
                      ("page_id", JStr pid); ("version", JInt (n + 1)) ])
  /\ stored pid (snd r)
     = Some (Db.set_sections secs (JInt (n + 1)) (utcnow w (clock_k s)) p)
  /\ Routes.get_landing_page pid w' (snd r)
     = (match validate_PageSpecResponse
                (JDict ([ ("pageId", page_id p); ("version", JInt (n + 1));
                          ("sections", secs) ]
                        ++ (if truthy (user_context p)
                            then [("user_context", user_context p)] else []))) with
        | inr body => Ok body
        | inl msg => Raise (ResponseValidationError msg)
        end, snd r).
Proof.
  intros Hp Hl Hpre Hid Hn. cbv zeta.
  set (secs := JList (pre ++ JDict (dict_set sec "data" (JDict new_data)) :: post)).
  set (f := Db.set_sections secs (JInt (n + 1)) (utcnow w (clock_k s))).
  assert (Hrun : Routes.edit_section pid (Routes.mkEditSectionRequest sid new_data) w s
                 = (Ok (JDict [ ("message", JStr "Section updated successfully");
                                ("page_id", JStr pid); ("version", JInt (n + 1)) ]),
                    mkSt (Db.update_first pid f (store s)) (log s) (fetched s) (sent s)
                         (uuid_k s) (S (clock_k s)))).
  { unfold Routes.edit_section.
    rewrite try_except_run, bind_run, get_page_run, Hp. cbv beta iota zeta.
    rewrite Hl, bind_run.
    change (py_iter (JList (pre ++ JDict sec :: post)) w s)
      with (Ok (pre ++ JDict sec :: post), s).
    cbv beta iota. cbn [Routes.section_id Routes.data].
    rewrite bind_run.
    rewrite (assign_first_section sid _ pre post sec (JDict new_data) w s s Hpre Hid eq_refl).
    cbv beta iota. cbn [fst snd negb Routes.mutated].
    rewrite bind_run, update_page_run, Hp, Hn. reflexivity. }
  rewrite Hrun. cbn [fst snd].
  assert (Hst : stored pid (mkSt (Db.update_first pid f (store s)) (log s) (fetched s)
                                 (sent s) (uuid_k s) (S (clock_k s))) = Some (f p)).
  { apply (stored_after_update pid f s _ p); [intros d; reflexivity | exact Hp | reflexivity]. }
  split; [reflexivity |]. split; [exact Hst |].
  exact (get_landing_page_run pid w' _ (f p) Hst).
Qed.

(** X12. Reordering stores the list of sections of the request as sent,
    whatever the stored sections were: the route checks neither that
    the new list has the stored sections nor that it has any.  On a
    stored page with an integer version [n] it answers with version
    [n + 1] and the store holds the request's list. *)
Theorem reorder_sections_stores_request
  (pid : string) (request : Routes.ReorderSectionsRequest) (w : World) (s : St)
  (p : Document) (n : Z) :
  stored pid s = Some p ->
  int_value (version p) = Some n ->
  let r := Routes.reorder_sections pid request w s in
  fst r = Ok (JDict [ ("message", JStr "Sections reordered successfully");
                      ("page_id", JStr pid); ("version", JInt (n + 1)) ])
  /\ stored pid (snd r)
     = Some (Db.set_sections (JList (map JDict (Routes.new_sections request)))
                             (JInt (n + 1)) (utcnow w (clock_k s)) p).
Proof.
  intros Hp Hn. cbv zeta. unfold Routes.reorder_sections.
  rewrite try_except_run, bind_run, get_page_run, Hp. cbv beta iota zeta.
  rewrite bind_run, update_page_run, Hp, Hn. cbv beta iota zeta.
  split; [reflexivity |]. cbn [snd].
  apply (stored_after_update pid _ s _ p); [intros d; reflexivity | exact Hp | reflexivity].
Qed.

End RouteWriteFacts.

Section DeleteFacts.
Context {V : ResponseModel}.

(** X13. Deleting a stored page answers with success and removes the
    first document with that id; every other page is found as before;
    in a collection whose ids are unique the page is gone, and a [GET]
    that follows answers HTTP 404. *)
Theorem delete_removes_the_page (pid : string) (w : World) (s : St) (d : Document) :
  stored pid s = Some d ->
  let r := Api.delete_page_endpoint pid w s in
  fst r = Api.Http200 (JDict [ ("message", JStr "Page deleted successfully");
                               ("page_id", JStr pid) ])
  /\ store (snd r) = Db.remove_first pid (store s)
  /\ (forall pid', pid' <> pid -> stored pid' (snd r) = stored pid' s)
  /\ (unique_ids (store s) ->
      stored pid (snd r) = None
      /\ forall w', Routes.get_landing_page pid w' (snd r)
                    = (Raise (HTTPException 404 ("Page " ++ pid ++ " not found")), snd r)).
Proof.
  intros Hd. cbv zeta. unfold Api.delete_page_endpoint, Api.respond, Routes.delete_landing_page.
  rewrite try_except_run, bind_run, delete_page_run, Hd. cbv beta iota. cbn [negb fst snd].
  unfold ret. cbn [fst snd store].
  split; [reflexivity |]. split; [reflexivity |]. split.
  - intros pid' Hne. unfold stored. cbn [store]. apply find_remove_first_other. exact Hne.
  - intros Hu.
    assert (Hgone : stored pid (mkSt (Db.remove_first pid (store s)) (log s) (fetched s)
                                     (sent s) (uuid_k s) (clock_k s)) = None).
    { unfold stored. cbn [store]. apply find_remove_first_same. exact Hu. }
    split; [exact Hgone |]. intros w'.
    exact (get_landing_page_missing pid w' _ Hgone).
Qed.

End DeleteFacts.

(** ** What a generation stores *)

Lemma completed_spec_fields (spec : dict) (hex : string) :
  dict_get_default (completed_spec spec hex) "pageId" JNull
  = match dict_get spec "pageId" with
    | Some v => v
    | None => JStr ("landing-" ++ str_take 8 hex)%string
    end
  /\ dict_get_default (completed_spec spec hex) "version" (JInt 1)
     = dict_get_default spec "version" (JInt 1)
  /\ dict_get_default (completed_spec spec hex) "sections" (JList [])
     = dict_get_default spec "sections" (JList []).
Proof.
  unfold completed_spec, dict_get_default.
  destruct (dict_get spec "pageId") as [v |] eqn:Hp.
  - destruct (dict_get spec "version") as [v' |] eqn:Hv.
    + rewrite Hp, Hv. repeat split.
    + rewrite !dict_get_set, Hp, Hv. cbn. repeat split.
  - rewrite !dict_get_set. cbn [String.eqb Ascii.eqb Bool.eqb].
    destruct (dict_get spec "version") as [v' |] eqn:Hv.
    + rewrite !dict_get_set, Hv. cbn. repeat split.
    + rewrite !dict_get_set, Hv. cbn. repeat split.
Qed.

Section GenerateFacts.
Context {P : Platform} {V : ResponseModel}.

(** The route from the provider's object to the call of [save_page]. *)
Lemma complete_then (spec : dict) (K : Json -> M Json) (w : World) (s : St) :
  (has_id <- py_in "pageId" (JDict spec) ;;
   page_spec <-
     (if has_id then ret (JDict spec)
      else hex <- uuid4 ;;
           py_setitem (JDict spec) "pageId" (JStr ("landing-" ++ str_take 8 hex))) ;;
   has_version <- py_in "version" page_spec ;;
   page_spec <-
     (if has_version then ret page_spec
      else py_setitem page_spec "version" (JInt 1)) ;;
   K page_spec) w s
  = K (JDict (completed_spec spec (uuid4_hex w (uuid_k s)))) w
      (match dict_get spec "pageId" with
       | Some _ => s
       | None => mkSt (store s) (log s) (fetched s) (sent s) (S (uuid_k s)) (clock_k s)
       end).
Proof.
  unfold completed_spec. rewrite bind_run. unfold py_in at 1, ret at 1. cbv beta iota.
  destruct (dict_get spec "pageId") as [v |] eqn:Hp.
  - rewrite bind_run. unfold ret at 1. cbv beta iota.
    rewrite bind_run. unfold py_in at 1, ret at 1. cbv beta iota.
    destruct (dict_get spec "version") as [v' |] eqn:Hv.
    + rewrite bind_run. reflexivity.
    + rewrite bind_run. reflexivity.
  - rewrite bind_run, bind_run. unfold uuid4 at 1. cbv beta iota.
    unfold py_setitem at 1, ret at 1. cbv beta iota.
    rewrite bind_run. unfold py_in at 1, ret at 1. cbv beta iota.
    destruct (dict_get (dict_set spec "pageId" _) "version") as [v' |] eqn:Hv.
    + rewrite bind_run. reflexivity.
    + rewrite bind_run. reflexivity.
Qed.

(** X14. What a generation stores.  When the provider's reply parses to
    an object, the route saves one document before it validates the
    response: its id and version are the object's own when it has them
    (a missing id is drawn as [landing-] and eight hex digits, a missing
    version is [1]), its sections are the object's ([[]] when missing),
    its brief is the request's four fields and its brand context is
    what the crawl of the request's URL returned; it is not published.
    When a stored page already has that id nothing is stored and the
    answer is HTTP 500.  A [GET] of the new page is answered from the
    stored id, version and sections and the brief: with what the
    response model makes of them, or with an error when it rejects
    them. *)
Theorem generate_stores_brief_and_context
  (request : Routes.GeneratePageRequest) (w : World) (s : St) (t : string) (spec : dict) :
  chat_completions_create w (generation_request w s (Routes.user_input_of request))
  = inr (Some t) ->
  json_loads t = inr (JDict spec) ->
  let r := Routes.generate_landing_page request w s in
  let doc :=
    mkDocument
      (match dict_get spec "pageId" with
       | Some v => v
       | None => JStr ("landing-" ++ str_take 8 (uuid4_hex w (S (uuid_k s))))%string
       end)
      (dict_get_default spec "version" (JInt 1))
      (dict_get_default spec "sections" (JList []))
      (utcnow w (clock_k s)) (utcnow w (S (clock_k s))) None false
      (JDict (Routes.user_input_of request))
      (match Routes.website_url request with
       | Some u => if str_truthy u then crawl_result w u 2 else None
       | None => None
       end) in
  if existsb (fun d' => Db.json_eqb (page_id d') (page_id doc)) (store s)
  then store (snd r) = store s /\ exists detail, fst r = Raise (HTTPException 500 detail)
  else store (snd r) = store s ++ [doc]
       /\ forall pid w', page_id doc = JStr pid ->
            Routes.get_landing_page pid w' (snd r)
            = (match validate_PageSpecResponse
                       (JDict [ ("pageId", JStr pid); ("version", version doc);
                                ("sections", sections doc);
                                ("user_context", JDict (Routes.user_input_of request)) ]) with
               | inr body => Ok body
               | inl msg => Raise (ResponseValidationError msg)
               end, snd r).
Proof.
  intros Hchat Hjson. cbv zeta.
  unfold Routes.generate_landing_page.
  change (match Routes.website_url request with
          | Some u => if str_truthy u then Crawler.crawl_website_default u else ret None
          | None => ret None
          end) with (route_crawl request).
  destruct (route_crawl_run request w s) as (c & s1 & Hc & Hs & Hq & Hu & Hk & Hcv).
  rewrite <- Hcv.
  rewrite try_except_run, bind_run, Hc. cbv beta iota.
  rewrite bind_run.
  rewrite (generate_page_spec_run _ c w s1 (user_input_has_no_url request)).
  rewrite (generation_request_eq w s s1 _ Hu), Hchat, Hjson. cbv beta iota.
  rewrite complete_then. cbn [uuid_k store log fetched sent clock_k].
  set (hex := uuid4_hex w (S (uuid_k s1))).
  destruct (completed_spec_fields spec hex) as (Fid & Fver & Fsec).
  match goal with |- context [bind (Db.save_page ?j ?u ?cc ?i) ?KK w ?st] =>
    set (s3 := st); set (K := KK) end.
  assert (Hs3 : store s3 = store s /\ clock_k s3 = clock_k s).
  { subst s3. destruct (dict_get spec "pageId"); cbn [store clock_k]; split; assumption. }
  destruct Hs3 as [Hs3 Hk3].
  rewrite bind_run, save_page_run. cbv zeta. cbn [page_id].
  rewrite Fid, Fver, Fsec, Hs3, Hk3. subst hex. rewrite Hu.
  destruct (existsb _ (store s)) eqn:Hex.
  - cbn [is_ValueError raise fst snd store]. split; [reflexivity | eexists; reflexivity].
  - cbv beta iota.
    match goal with |- context [K ?d w ?st] => set (s4 := st); set (d0 := d) end.
    assert (HK : forall (X : Type) (f : St -> X) d, preserves f (K d)).
    { intros X f d. subst K. frame. }
    match goal with |- context [snd ?R] => set (R0 := R) end.
    assert (Hfin : snd R0 = s4).
    { subst R0. pose proof (HK St (fun x => x) d0 w s4) as H1. cbv beta in H1.
      destruct (K d0 w s4) as [[a | e] s5]; cbn [snd] in *; [exact H1 |].
      subst s5. destruct (is_ValueError e); reflexivity. }
    rewrite Hfin. subst s4. cbn [store]. split; [reflexivity |].
    intros pid w' Hpid.
    match goal with |- context [Routes.get_landing_page pid w' ?st] => set (s4 := st) end.
    match goal with |- context [sections ?d] => set (doc := d) in * end.
    change (page_id doc = JStr pid) in Hpid.
    assert (Hm : Db.matches pid doc = true) by (apply matches_page_id; exact Hpid).
    assert (Hst : stored pid s4 = Some doc).
    { unfold stored. subst s4 doc d0. cbn [store].
      rewrite (find_app_none _ _ _ (insert_free_not_stored pid (store s)
                 (eq_trans (f_equal (fun j => existsb (fun d' => Db.json_eqb (page_id d') j)
                                                      (store s)) (eq_sym Hpid)) Hex))).
      cbn [find]. rewrite Hm. reflexivity. }
    rewrite (get_landing_page_run pid w' s4 doc Hst), Hpid. reflexivity.
Qed.

End GenerateFacts.

(** ** Sessions *)

Lemma later_state_refl (d : Document) : later_state 0 d d.
Proof.
  unfold later_state. repeat split; try tauto. intros n H. rewrite H, Z.add_0_r. reflexivity.
Qed.

Lemma later_state_trans (k1 k2 : Z) (d d' d'' : Document) :
  later_state k1 d d' -> later_state k2 d' d'' -> later_state (k1 + k2) d d''.
Proof.
  intros (A1 & A2 & A3 & A4 & A5 & A6 & A7) (B1 & B2 & B3 & B4 & B5 & B6 & B7).
  unfold later_state. repeat split; try congruence.
  - intros H. apply B6, A6, H.
  - intros n H. rewrite (B7 _ (A7 _ H)), Z.add_assoc. reflexivity.
Qed.

Lemma appends_of_preserves {A : Type} (m : M A) : preserves store m -> appends_doc m.
Proof. intros H w s. left. apply H. Qed.

Lemma appends_bind_l {A B : Type} (m : M A) (k : A -> M B) :
  preserves store m -> (forall a, appends_doc (k a)) -> appends_doc (bind m k).
Proof.
  intros Hm Hk w s. rewrite bind_run. specialize (Hm w s).
  destruct (m w s) as [[a | e] s1]; cbn [snd] in Hm.
  - rewrite <- Hm. apply Hk.
  - left. exact Hm.
Qed.

Lemma appends_bind_r {A B : Type} (m : M A) (k : A -> M B) :
  appends_doc m -> (forall a, preserves store (k a)) -> appends_doc (bind m k).
Proof.
  intros Hm Hk w s. rewrite bind_run. specialize (Hm w s).
  destruct (m w s) as [[a | e] s1]; cbn [snd] in Hm; [| exact Hm].
  rewrite (Hk a w s1). exact Hm.
Qed.

Lemma appends_try {A : Type} (m : M A) (h : exn -> M A) :
  appends_doc m -> (forall e, preserves store (h e)) -> appends_doc (try_except m h).
Proof.
  intros Hm Hh w s. rewrite try_except_run. specialize (Hm w s).
  destruct (m w s) as [[a | e] s1]; cbn [snd] in Hm; [exact Hm |].
  rewrite (Hh e w s1). exact Hm.
Qed.

Lemma save_page_appends (j : Json) (uc : dict) (cc uid : option string) :
  appends_doc (Db.save_page j uc cc uid).
Proof.
  intros w s. destruct j as [| b | n | t | l | spec]; try (left; reflexivity).
  rewrite save_page_run. cbv zeta.
  destruct (existsb _ (store s)) eqn:Hex; [left; reflexivity |].
  right. eexists. split; [reflexivity | exact Hex].
Qed.

Lemma unique_ids_app (docs : list Document) (d : Document) :
  unique_ids docs ->
  existsb (fun d' => Db.json_eqb (page_id d') (page_id d)) docs = false ->
  unique_ids (docs ++ [d]).
Proof.
  induction docs as [| d0 r IH]; cbn [unique_ids existsb app].
  - intros _ _. split; [constructor | exact I].
  - intros [HF Hu] Hex. apply orb_false_iff in Hex. destruct Hex as [H0 Hr].
    split; [| exact (IH Hu Hr)].
    apply Forall_app. split; [exact HF |]. constructor; [exact H0 | constructor].
Qed.

Lemma Forall_update_first (pid : string) (f : Document -> Document) (j : Json)
  (docs : list Document) :
  (forall d, page_id (f d) = page_id d) ->
  Forall (fun x => Db.json_eqb j (page_id x) = false) docs ->
  Forall (fun x => Db.json_eqb j (page_id x) = false) (Db.update_first pid f docs).
Proof.
  intros Hf. induction 1 as [| d r Hd Hr IH]; cbn [Db.update_first]; [constructor |].
  destruct (Db.matches pid d).
  - constructor; [rewrite Hf; exact Hd | exact Hr].
  - constructor; [exact Hd | exact IH].
Qed.

Lemma unique_ids_update_first (pid : string) (f : Document -> Document)
  (docs : list Document) :
  (forall d, page_id (f d) = page_id d) ->
  unique_ids docs -> unique_ids (Db.update_first pid f docs).
Proof.
  intros Hf. induction docs as [| d r IH]; cbn [unique_ids Db.update_first]; [trivial |].
  intros [HF Hu]. destruct (Db.matches pid d); cbn [unique_ids].
  - rewrite Hf. split; assumption.
  - split; [apply Forall_update_first; assumption | exact (IH Hu)].
Qed.

Lemma Forall_remove_first (pid : string) (j : Json) (docs : list Document) :
  Forall (fun x => Db.json_eqb j (page_id x) = false) docs ->
  Forall (fun x => Db.json_eqb j (page_id x) = false) (Db.remove_first pid docs).
Proof.
  induction 1 as [| d r Hd Hr IH]; cbn [Db.remove_first]; [constructor |].
  destruct (Db.matches pid d); [exact Hr | constructor; assumption].
Qed.

Lemma unique_ids_remove_first (pid : string) (docs : list Document) :
  unique_ids docs -> unique_ids (Db.remove_first pid docs).
Proof.
  induction docs as [| d r IH]; cbn [unique_ids Db.remove_first]; [trivial |].
  intros [HF Hu]. destruct (Db.matches pid d); [exact Hu |].
  cbn [unique_ids]. split; [apply Forall_remove_first; exact HF | exact (IH Hu)].
Qed.

Lemma delete_store (pid : string) (w : World) (s : St) :
  store (snd (Api.delete_page_endpoint pid w s))
  = match stored pid s with
    | Some _ => Db.remove_first pid (store s)
    | None => store s
    end.
Proof.
  unfold Api.delete_page_endpoint. rewrite respond_snd.
  unfold Routes.delete_landing_page.
  rewrite try_except_run, bind_run, delete_page_run.
  destruct (stored pid s); reflexivity.
Qed.

Section SessionFacts.
Context {P : Platform}.

Lemma generate_page_spec_store (user_input : dict) (c : option string) :
  dict_get user_input "url" = None ->
  preserves store (Generator.generate_page_spec user_input c).
Proof. intros H w s. rewrite (generate_page_spec_run _ c w s H). reflexivity. Qed.

Lemma generate_appends (request : Routes.GeneratePageRequest) :
  appends_doc (Routes.generate_landing_page request).
Proof.
  unfold Routes.generate_landing_page.
  apply appends_try.
  2: { intros e. destruct (is_ValueError e); intros w s; reflexivity. }
  apply appends_bind_l.
  { destruct (Routes.website_url request) as [u |]; [destruct (str_truthy u) |];
      try (intros w s; reflexivity).
    apply crawl_website_frame. }
  intros c. apply appends_bind_l.
  { apply generate_page_spec_store. reflexivity. }
  intros j. apply appends_bind_l; [apply py_in_frame |].
  intros has_id. apply appends_bind_l.
  { destruct has_id; frame. }
  intros j1. apply appends_bind_l; [apply py_in_frame |].
  intros has_version. apply appends_bind_l.
  { destruct has_version; frame. }
  intros j2. apply appends_bind_r; [apply save_page_appends |].
  intros saved. frame.
Qed.

Lemma is_ok_respond (m : M Json) (w : World) (s : St) :
  is_ok (fst (Api.respond m w s)) = match fst (m w s) with Ok _ => true | Raise _ => false end.
Proof. unfold Api.respond. destruct (m w s) as [[b | []] s1]; reflexivity. Qed.

(** One rewrite of the sections of page [p], seen from page [pid]. *)
Lemma outcome_step (R : Json -> Json -> Prop) (p pid : string) (w : World) (s : St)
  (m : M Json) (doc : Document) :
  stored pid s = Some doc ->
  mutation_outcome R p w s (m w s) ->
  exists doc',
    stored pid (snd (Api.respond m w s)) = Some doc'
    /\ later_state (if String.eqb p pid && is_ok (fst (Api.respond m w s)) then 1 else 0)
                   doc doc'.
Proof.
  intros Hd Ho. rewrite respond_snd, is_ok_respond.
  destruct Ho as [[Hs (e & He)] | (p0 & n & secs & body & Hp & Hn & _ & Hs & Hb)].
  - exists doc. rewrite He, andb_false_r. split; [| apply later_state_refl].
    unfold stored in *. rewrite Hs. exact Hd.
  - rewrite Hb, andb_true_r. destruct (String.eqb_spec p pid) as [-> | Hne].
    + rewrite Hd in Hp. injection Hp as <-.
      pose proof (fun Hf => stored_after_update pid _ s _ doc Hf Hd Hs) as Hst.
      specialize (Hst (fun d => eq_refl)).
      eexists. split; [exact Hst |].
      unfold later_state. cbn [Db.set_sections page_id created_at user_id user_context
                                crawled_context published version int_value].
      repeat split; try tauto. intros n' Hn'. congruence.
    + exists doc. split; [| apply later_state_refl].
      unfold stored in *. rewrite Hs.
      rewrite find_update_first_other; [exact Hd | intros d; reflexivity | congruence].
Qed.

Lemma serve_step (pid : string) (c : Api.Call) (w : World) (s : St) (doc : Document) :
  stored pid s = Some doc ->
  deletes pid c = false ->
  exists doc',
    stored pid (snd (Api.serve c w s)) = Some doc'
    /\ later_state (if rewrites pid c && is_ok (fst (Api.serve c w s)) then 1 else 0)
                   doc doc'.
Proof.
  intros Hd Hdel. destruct c as [request | p request | p request | p request | p | p];
    cbn [Api.serve rewrites].
  - exists doc. split; [| apply later_state_refl].
    rewrite respond_snd. unfold stored in *.
    destruct (generate_appends request w s) as [Hs | (d & Hs & _)]; rewrite Hs;
      [exact Hd | apply find_app_some; exact Hd].
  - apply (outcome_step _ p pid w s _ doc Hd (edit_outcome p request w s)).
  - apply (outcome_step _ p pid w s _ doc Hd (regenerate_outcome p request w s)).
  - apply (outcome_step _ p pid w s _ doc Hd (reorder_outcome p request w s)).
  - unfold Api.post_publish. rewrite respond_snd. unfold stored at 1.
    rewrite publish_store. destruct (String.eqb_spec p pid) as [-> | Hne].
    + rewrite Hd.
      rewrite (find_update_first pid (Db.set_published (utcnow w (clock_k s))) (store s)
                 (fun d => eq_refl)).
      unfold stored in Hd. rewrite Hd. cbn [option_map].
      eexists. split; [reflexivity |].
      unfold later_state. cbn [Db.set_published page_id created_at user_id user_context
                                crawled_context published version].
      repeat split. intros n Hn. rewrite Hn, Z.add_0_r. reflexivity.
    + exists doc. split; [| apply later_state_refl].
      destruct (stored p s); [| exact Hd].
      rewrite find_update_first_other; [exact Hd | intros x; reflexivity | congruence].
  - cbn [deletes] in Hdel. apply String.eqb_neq in Hdel.
    exists doc. split; [| apply later_state_refl].
    unfold stored at 1. rewrite delete_store.
    destruct (stored p s); [| exact Hd].
    rewrite find_remove_first_other; [exact Hd | congruence].
Qed.

(** X15. Through any session of calls that does not delete it, a stored
    page stays stored and keeps its id, creation time, owner, brief and
    brand context; once published it stays published; and its version
    has grown by exactly the number of edits, regenerations and
    reorderings of that page that were answered with success: calls that
    fail, publications, generations and calls on other pages do not
    count. *)
Theorem session_keeps_page_and_counts_rewrites
  (pid : string) (calls : list (Api.Call * World)) (s : St) (doc : Document) :
  stored pid s = Some doc ->
  forallb (fun cw => negb (deletes pid (fst cw))) calls = true ->
  let r := Api.serve_all calls s in
  exists doc',
    stored pid (snd r) = Some doc'
    /\ later_state (rewrites_done pid calls (fst r)) doc doc'.
Proof.
  revert s doc. induction calls as [| [c w] rest IH]; intros s doc Hd Hall; cbv zeta.
  - exists doc. split; [exact Hd | apply later_state_refl].
  - cbn [forallb fst] in Hall. apply andb_true_iff in Hall. destruct Hall as [Hc Hrest].
    apply negb_true_iff in Hc.
    destruct (serve_step pid c w s doc Hd Hc) as (doc1 & Hd1 & L1).
    cbn [Api.serve_all]. destruct (Api.serve c w s) as [answer s1]. cbn [fst snd] in *.
    destruct (IH s1 doc1 Hd1 Hrest) as (doc2 & Hd2 & L2). cbv zeta in Hd2, L2.
    destruct (Api.serve_all rest s1) as [answers s2]. cbn [fst snd] in *.
    exists doc2. split; [exact Hd2 |]. cbn [rewrites_done].
    exact (later_state_trans _ _ _ _ _ L1 L2).
Qed.

Lemma serve_unique (c : Api.Call) (w : World) (s : St) :
  unique_ids (store s) -> unique_ids (store (snd (Api.serve c w s))).
Proof.
  intros Hu.
  assert (Hout : forall R p (m : M Json),
             mutation_outcome R p w s (m w s) ->
             unique_ids (store (snd (Api.respond m w s)))).
  { intros R p m Ho. rewrite respond_snd.
    destruct Ho as [[Hs _] | (p0 & n & secs & body & _ & _ & _ & Hs & _)]; rewrite Hs;
      [exact Hu | apply unique_ids_update_first; [intros d; reflexivity | exact Hu]]. }
  destruct c as [request | p request | p request | p request | p | p]; cbn [Api.serve].
  - rewrite respond_snd.
    destruct (generate_appends request w s) as [Hs | (d & Hs & Hex)]; rewrite Hs;
      [exact Hu | apply unique_ids_app; assumption].
  - exact (Hout _ p _ (edit_outcome p request w s)).
  - exact (Hout _ p _ (regenerate_outcome p request w s)).
  - exact (Hout _ p _ (reorder_outcome p request w s)).
  - unfold Api.post_publish. rewrite respond_snd, publish_store.
    destruct (stored p s); [| exact Hu].
    apply unique_ids_update_first; [intros x; reflexivity | exact Hu].
  - rewrite delete_store. destruct (stored p s); [| exact Hu].
    apply unique_ids_remove_first. exact Hu.
Qed.

(** X16. No session of calls gives two stored pages the same id: when
    the ids of the collection are all different before, they are all
    different after, whatever the provider, the network and the clock
    do; a generation whose id is taken stores nothing. *)
Theorem session_keeps_ids_unique (calls : list (Api.Call * World)) (s : St) :
  unique_ids (store s) -> unique_ids (store (snd (Api.serve_all calls s))).
Proof.
  revert s. induction calls as [| [c w] rest IH]; intros s Hu; [exact Hu |].
  cbn [Api.serve_all]. pose proof (serve_unique c w s Hu) as H1.
  destruct (Api.serve c w s) as [answer s1]. cbn [snd] in H1.
  specialize (IH s1 H1). destruct (Api.serve_all rest s1) as [answers s2]. exact IH.
Qed.

End SessionFacts.

(** ** Publication, the generation prompt, a regeneration that succeeds *)

Section MoreRouteFacts.
Context {P : Platform}.

(** X17. Publishing a stored page marks it published and moves its
    [updated_at] to the time read from the clock, and touches neither its
    version nor its sections; the mark is written before the response is
    built, so it stays when the response model rejects the stored
    version and the answer is HTTP 500. *)
Theorem publish_marks_before_answering (pid : string) (w : World) (s : St) (p : Document) :
  stored pid s = Some p ->
  let r := Routes.publish_landing_page pid w s in
  stored pid (snd r) = Some (Db.set_published (utcnow w (clock_k s)) p)
  /\ fst r = match PublishResponse pid (version p) ("/preview/" ++ pid)
                                   "Page published successfully" with
             | inr body => Ok body
             | inl msg => Raise (HTTPException 500 ("Failed to publish page: " ++ msg))
             end.
Proof.
  intros Hp. cbv zeta. split.
  - apply (stored_after_update pid _ s _ p); [intros d; reflexivity | exact Hp |].
    rewrite publish_store, Hp. reflexivity.
  - unfold Routes.publish_landing_page.
    rewrite try_except_run, bind_run, get_page_run, Hp. cbv beta iota.
    rewrite bind_run, publish_page_run, Hp. cbv beta iota.
    rewrite bind_run. unfold Routes.version_of, ret at 1. cbv beta iota.
    cbn [Db.set_published version].
    destruct (PublishResponse _ _ _ _); reflexivity.
Qed.

(** X18. The generation prompt is built with one draw of [uuid4] and
    nothing else: its skeleton proposes the page id [landing-] followed
    by the first eight hex digits drawn, and its copyright line names
    the offer of the brief, or [Company] when the offer is missing or
    empty.  Below, [qq] writes the double-quote character as a tilde. *)
Theorem landing_prompt_proposes_drawn_id (user_input : dict) (c : option string)
  (w : World) (s : St) :
  let offer := dict_get_default user_input "offer" (JStr "") in
  exists prompt,
    Prompts.build_landing_page_prompt user_input c w s
    = (Ok prompt,
       mkSt (store s) (log s) (fetched s) (sent s) (S (uuid_k s)) (clock_k s))
    /\ occurs_in (qq "~pageId~: ~" ++ "landing-" ++ str_take 8 (uuid4_hex w (uuid_k s))
                  ++ qq "~,")%string prompt
    /\ occurs_in ("2025 " ++ (if truthy offer then py_str offer else "Company")
                  ++ ". All rights reserved.")%string prompt.
Proof.
  cbv zeta.
  exists (Prompts.landing_page_prompt ("landing-" ++ str_take 8 (uuid4_hex w (uuid_k s)))
                                      user_input c).
  split; [reflexivity |].
  unfold Prompts.landing_page_prompt, Prompts.landing_page_template. split.
  - do 16 apply occurs_in_app_r. skip_to_last 11%nat.
    eapply occurs_in_front. rewrite !append_assoc. reflexivity.
  - do 18 apply occurs_in_app_r. skip_to_last 5%nat.
    eapply occurs_in_front. rewrite !append_assoc. reflexivity.
Qed.

Lemma find_first_section (sid : string) (pre post : list Json) (sec : dict)
  (w : World) (s : St) :
  Forall (other_section sid) pre ->
  dict_get sec "id" = Some (JStr sid) ->
  Routes.find_section (pre ++ JDict sec :: post) sid w s = (Ok (Some (JDict sec)), s).
Proof.
  intros Hpre Hid. induction Hpre as [| x r (d & i & -> & Hi & Hne) _ IH].
  - cbn [app Routes.find_section]. rewrite bind_run. unfold py_getitem. rewrite Hid.
    unfold ret at 1. cbv beta iota. unfold eq_str. rewrite String.eqb_refl. reflexivity.
  - cbn [app Routes.find_section]. rewrite bind_run. unfold py_getitem. rewrite Hi.
    unfold ret at 1. cbv beta iota. rewrite Hne. exact IH.
Qed.

Lemma assign_first_section_raise (sid : string) (rhs : M Json) (pre post : list Json)
  (sec : dict) (e : exn) (w : World) (s s' : St) :
  Forall (other_section sid) pre ->
  dict_get sec "id" = Some (JStr sid) ->
  rhs w s = (Raise e, s') ->
  Routes.assign_section_data (pre ++ JDict sec :: post) sid rhs w s = (Raise e, s').
Proof.
  intros Hpre Hid Hrhs.
  induction Hpre as [| x r (d & i & -> & Hi & Hne) _ IH].
  - cbn [app Routes.assign_section_data]. rewrite bind_run. unfold py_getitem. rewrite Hid.
    unfold ret at 1. cbv beta iota. unfold eq_str. rewrite String.eqb_refl.
    rewrite bind_run, Hrhs. reflexivity.
  - cbn [app Routes.assign_section_data]. rewrite bind_run. unfold py_getitem. rewrite Hi.
    unfold ret at 1. cbv beta iota. rewrite Hne, bind_run, IH. reflexivity.
Qed.

(** X19. A regeneration that succeeds stores the [data] of the
    provider's reply and nothing else of it.  On a stored page with an
    integer version [n], for the first section with the id asked for, of
    a string type, a request without [context], and a reply that parses
    to an object: one request is sent, built from that section and an
    empty context; when the reply has a [data] the store holds the page
    with that section's [data] replaced by the reply's, at version
    [n + 1]; when it has none the answer is HTTP 500 with the missing
    key and the store is as it was. *)
Theorem regenerate_stores_data_of_reply
  (pid sid ty t : string) (request_data reply : dict) (w : World) (s : St) (p : Document)
  (pre post : list Json) (sec : dict) (n : Z) :
  stored pid s = Some p ->
  sections p = JList (pre ++ JDict sec :: post) ->
  Forall (other_section sid) pre ->
  dict_get sec "id" = Some (JStr sid) ->
  dict_get sec "type" = Some (JStr ty) ->
  int_value (version p) = Some n ->
  dict_get request_data "context" = None ->
  chat_completions_create w (regeneration_request sec ty [] None) = inr (Some t) ->
  json_loads t = inr (JDict reply) ->
  let r := Routes.regenerate_section_endpoint pid
             (Routes.mkEditSectionRequest sid request_data) w s in
  sent (snd r) = sent s ++ [regeneration_request sec ty [] None]
  /\ match dict_get reply "data" with
     | Some v =>
         fst r = Ok (JDict [ ("message", JStr "Section regenerated successfully");
                             ("page_id", JStr pid); ("version", JInt (n + 1)) ])
         /\ stored pid (snd r)
            = Some (Db.set_sections
                      (JList (pre ++ JDict (dict_set sec "data" v) :: post))
                      (JInt (n + 1)) (utcnow w (clock_k s)) p)
     | None =>
         fst r = Raise (HTTPException 500 "Failed to regenerate section: 'data'")
         /\ store (snd r) = store s
     end.
Proof.
  intros Hp Hl Hpre Hid Hty Hn Hctx Hchat Hjson. cbv zeta.
  set (q := regeneration_request sec ty [] None).
  set (s1 := mkSt (store s) (log s) (fetched s) (sent s ++ [q]) (uuid_k s) (clock_k s)).
  assert (Hgen : Generator.regenerate_section sec (JDict []) w s = (Ok (JDict reply), s1)).
  { unfold Generator.regenerate_section.
    rewrite try_except_run, bind_run.
    change (Generator.as_dict (JDict []) w s) with (Ok (@nil (string * Json)), s).
    cbv beta iota. rewrite bind_run.
    change (Generator.crawl_if_url [] w s) with (Ok (@None string), s).
    cbv beta iota. rewrite bind_run.
    unfold Prompts.build_section_regenerate_prompt. rewrite Hty.
    unfold ret at 1. cbv beta iota. rewrite bind_run.
    unfold Generator.chat_create at 1.
    change (mkChatRequest "gpt-4o" Generator.system_prompt
              (Prompts.section_regenerate_prompt sec ty [] None) (7 # 10) 2000)
      with (regeneration_request sec ty [] None).
    rewrite Hchat. cbv beta iota. rewrite bind_run. unfold Generator.loads.
    rewrite Hjson. reflexivity. }
  assert (Hrun : Routes.regenerate_section_endpoint pid
                   (Routes.mkEditSectionRequest sid request_data) w s
                 = match dict_get reply "data" with
                   | Some v =>
                       (Ok (JDict [ ("message", JStr "Section regenerated successfully");
                                    ("page_id", JStr pid); ("version", JInt (n + 1)) ]),
                        mkSt (Db.update_first pid
                                (Db.set_sections
                                   (JList (pre ++ JDict (dict_set sec "data" v) :: post))
                                   (JInt (n + 1)) (utcnow w (clock_k s))) (store s))
                             (log s) (fetched s) (sent s ++ [q]) (uuid_k s) (S (clock_k s)))
                   | None =>
                       (Raise (HTTPException 500 "Failed to regenerate section: 'data'"), s1)
                   end).
  { unfold Routes.regenerate_section_endpoint.
    rewrite try_except_run, bind_run, get_page_run, Hp. cbv beta iota zeta.
    rewrite Hl, bind_run.
    change (py_iter (JList (pre ++ JDict sec :: post)) w s)
      with (Ok (pre ++ JDict sec :: post), s).
    cbv beta iota. cbn [Routes.section_id Routes.data].
    rewrite bind_run, (find_first_section sid pre post sec w s Hpre Hid). cbv beta iota.
    unfold dict_get_default at 1. rewrite Hctx.
    rewrite bind_run, Hgen. cbv beta iota. rewrite bind_run.
    destruct (dict_get reply "data") as [v |] eqn:Hdata.
    - rewrite (assign_first_section sid _ pre post sec v w s1 s1 Hpre Hid).
      2: { unfold py_getitem. rewrite Hdata. reflexivity. }
      cbv beta iota. cbn [fst snd Routes.mutated].
      assert (Hp1 : stored pid s1 = Some p) by exact Hp.
      rewrite bind_run, update_page_run, Hp1, Hn. reflexivity.
    - rewrite (assign_first_section_raise sid _ pre post sec (KeyError "data") w s1 s1
                 Hpre Hid).
      2: { unfold py_getitem. rewrite Hdata. reflexivity. }
      reflexivity. }
  rewrite Hrun. destruct (dict_get reply "data") as [v |].
  - cbn [fst snd sent]. split; [reflexivity |]. split; [reflexivity |].
    apply (stored_after_update pid _ s _ p); [intros d; reflexivity | exact Hp | reflexivity].
  - cbn [fst snd]. split; [reflexivity |]. split; reflexivity.
Qed.

End MoreRouteFacts.

(** * The model on explicit inputs *)

#[local] Existing Instance Demo.platform.

(** *** The extractor on the three-page site *)

(** With the pricing page down, the crawl goes on to the next candidate
    and keeps the home page. *)
Lemma crawl_website_never_raises_example :
  fst (Crawler.crawl_website "https://acme.test" 2 Demo.world_pricing_down Demo.empty_state)
  = Ok (Some (Crawler._build_brand_context
                [Crawler.page_data_of "https://acme.test" (Demo.source Demo.home_page);
                 Crawler.page_data_of "https://acme.test/about" (Demo.source Demo.about_page)]))
  /\ fetched (snd (Crawler.crawl_website "https://acme.test" 2
                     Demo.world_pricing_down Demo.empty_state))
     = ["https://acme.test"; "https://acme.test/pricing"; "https://acme.test/about"].
Proof.
  destruct (crawl_website_never_raises 
              "https://acme.test" 2 Demo.world_pricing_down Demo.empty_state)
    as (_ & _ & H).
  destruct (H (Demo.source Demo.home_page) eq_refl) as (H1 & H2 & _).
  split; [exact H1 | exact H2].
Defined.

Lemma brand_context_blocks_witness :
  0 <= 2
  /\ fst (Crawler.crawl_website "https://acme.test" 2 Demo.world_a Demo.empty_state)
     = Ok (Some Demo.acme_context_a)
  /\ exists home inner,
       Crawler.url home = "https://acme.test"%string
       /\ Demo.acme_context_a
          = join nl (map (fun ip => block (fst ip) (snd ip)) (enumerate (home :: inner)))
       /\ startswith Demo.acme_context_a
            ("=== HOME PAGE ===" ++ nl ++ "URL: " ++ "https://acme.test") = true
       /\ Z.of_nat (length (home :: inner)) <= 1 + 2
       /\ (links_of Demo.world_a "https://acme.test" (Crawler.html home) = Ok [] ->
           Demo.acme_context_a = block 0 home).
Proof.
  split; [lia |]. split; [vm_compute; reflexivity |].
  apply (brand_context_blocks 
           "https://acme.test" 2 Demo.world_a Demo.empty_state Demo.acme_context_a).
  - lia.
  - vm_compute. reflexivity.
Defined.

(** A site without internal links: the context is the home page's block. *)
Lemma brand_context_no_links_example :
  fst (Crawler.crawl_website "https://solo.test" 2 Demo.world_a Demo.empty_state)
  = Ok (Some Demo.solo_context)
  /\ Demo.solo_context
     = block 0 (Crawler.page_data_of "https://solo.test" (Demo.source Demo.lone_page)).
Proof. split; vm_compute; reflexivity. Qed.

(** C9, as stated, fails: the two worlds below serve the same content for
    every URL and differ in the hash seed only; the crawl of the same root
    URL fetches the blog and about pages in one, the pricing and about pages
    in the other, and returns different brand contexts. *)
Lemma crawl_website_depends_on_hash_seed :
  (forall u, requests_get Demo.world_a u = requests_get Demo.world_b u)
  /\ fst (Crawler.crawl_website "https://acme.test" 2 Demo.world_a Demo.empty_state)
     = Ok (Some Demo.acme_context_a)
  /\ fst (Crawler.crawl_website "https://acme.test" 2 Demo.world_b Demo.empty_state)
     = Ok (Some Demo.acme_context_b)
  /\ Demo.acme_context_a <> Demo.acme_context_b
  /\ fetched (snd (Crawler.crawl_website "https://acme.test" 2 Demo.world_a Demo.empty_state))
     = ["https://acme.test"; "https://acme.test/blog"; "https://acme.test/about"]
  /\ fetched (snd (Crawler.crawl_website "https://acme.test" 2 Demo.world_b Demo.empty_state))
     = ["https://acme.test"; "https://acme.test/pricing"; "https://acme.test/about"].
Proof.
  split; [intros u; reflexivity |].
  split; [vm_compute; reflexivity |].
  split; [vm_compute; reflexivity |].
  split; [vm_compute; discriminate |].
  split; vm_compute; reflexivity.
Qed.

Lemma crawl_website_deterministic_witness :
  (forall u, requests_get Demo.world_b u
             = requests_get (Demo.world Demo.site Demo.hash_b (inr None)) u)
  /\ (forall x, str_hash Demo.world_b x
                = str_hash (Demo.world Demo.site Demo.hash_b (inr None)) x)
  /\ fst (Crawler.crawl_website "https://acme.test" 2 Demo.world_b Demo.empty_state)
     = fst (Crawler.crawl_website "https://acme.test" 2
              (Demo.world Demo.site Demo.hash_b (inr None)) Demo.state_with_page).
Proof.
  split; [intros u; reflexivity |]. split; [intros x; reflexivity |].
  apply (crawl_website_deterministic  "https://acme.test" 2
           Demo.world_b (Demo.world Demo.site Demo.hash_b (inr None))
           Demo.empty_state Demo.state_with_page);
    intros; reflexivity.
Defined.

(** *** The prompt composer on a brief with missing fields *)

Lemma build_landing_page_prompt_defaults_witness :
  dict_get Demo.partial_brief "industry" = None
  /\ dict_get Demo.partial_brief "brand_tone" = None
  /\ exists prompt,
       fst (Prompts.build_landing_page_prompt Demo.partial_brief None
              Demo.world_a Demo.empty_state) = Ok prompt
       /\ occurs_in ("- Industry: general business" ++ nl) prompt
       /\ occurs_in ("- Brand Tone: professional" ++ nl) prompt
       /\ occurs_in "Use a professional tone throughout all copy." prompt
       /\ ends_with "Generate the complete landing page JSON now:" prompt.
Proof.
  split; [reflexivity |]. split; [reflexivity |].
  destruct (build_landing_page_prompt_defaults Demo.partial_brief None
              Demo.world_a Demo.empty_state)
    as (prompt & Hrun & _ & Hi & _ & _ & Hb & _ & _ & _ & Htone & _ & _ & _ & _ & Hend).
  exists prompt. split; [exact Hrun |]. split; [exact (Hi eq_refl) |].
  split; [exact (Hb eq_refl) |]. split; [exact (Htone eq_refl) | exact Hend].
Defined.

(** *** The generation route on a brief with a website *)

(** C1, on the code. The brief names a website whose crawl succeeds, and
    the page is stored with the brand context crawled; yet the one prompt
    sent to the provider is the prompt without brand context: it holds
    neither the context nor its marker, and tells the model to use the
    free-text tone. *)
Lemma generate_route_drops_brand_context :
  let r := Routes.generate_landing_page Demo.bakery Demo.world_a Demo.empty_state in
  let prompt :=
    Prompts.landing_page_prompt "landing-01234567" (Routes.user_input_of Demo.bakery) None in
  fst (Crawler.crawl_website_default "https://solo.test" Demo.world_a Demo.empty_state)
  = Ok (Some Demo.solo_context)
  /\ map crawled_context (store (snd r)) = [Some Demo.solo_context]
  /\ map user_content (sent (snd r)) = [prompt]
  /\ str_contains Demo.solo_context prompt = false
  /\ str_contains "BRAND CONTEXT" prompt = false
  /\ str_contains "Use a warm tone throughout all copy." prompt = true
  /\ str_contains Demo.solo_context
       (Prompts.landing_page_prompt "landing-01234567" (Routes.user_input_of Demo.bakery)
          (Some Demo.solo_context)) = true.
Proof. cbv zeta. repeat split; vm_compute; reflexivity. Qed.

(** *** Regenerating a section of a stored page *)

(** C2, on the code. The page is stored with its brief (a bakery, a warm
    tone) and its brand context; the request carries no context.  The one
    prompt sent is built from the empty context: its brief fields are
    empty, and neither the stored brief nor the stored brand context
    occurs in it. *)
Lemma regenerate_ignores_stored_context :
  let r := Routes.regenerate_section_endpoint "landing-1" Demo.regenerate_hero
             Demo.world_regenerating Demo.state_with_page in
  let prompt :=
    Prompts.section_regenerate_prompt
      [("id", JStr "hero-1"); ("type", JStr "hero"); ("order", JInt 0);
       ("data", JDict [("headline", JStr "Old")])] "hero" [] None in
  map user_context (store Demo.state_with_page)
  = [JDict [("industry", JStr "bakery"); ("offer", JStr "custom cakes");
            ("target_audience", JStr "event planners"); ("brand_tone", JStr "warm")]]
  /\ map crawled_context (store Demo.state_with_page) = [Some "=== HOME PAGE ==="%string]
  /\ map user_content (sent (snd r)) = [prompt]
  /\ str_contains ("- Industry: " ++ nl ++ "- Offer: " ++ nl ++ "- Target Audience: " ++ nl
                   ++ "- Brand Tone: " ++ nl) prompt = true
  /\ str_contains "bakery" prompt = false
  /\ str_contains "warm" prompt = false
  /\ str_contains "=== HOME PAGE ===" prompt = false
  /\ str_contains "BRAND CONTEXT FROM WEBSITE" prompt = false.
Proof. cbv zeta. repeat split; vm_compute; reflexivity. Qed.

Lemma regenerate_preserves_identity_witness :
  stored "landing-1" Demo.state_with_page = Some Demo.stored_page
  /\ exists doc',
       stored "landing-1"
         (Api.regenerate_many "landing-1" Demo.regenerate_hero
            [Demo.world_regenerating; Demo.world_not_json; Demo.world_regenerating]
            Demo.state_with_page) = Some doc'
       /\ exists l',
            sections doc' = JList l'
            /\ length l' = 1%nat
            /\ exists y,
                 nth_error l' 0 = Some y
                 /\ field y "id" = Some (JStr "hero-1")
                 /\ field y "type" = Some (JStr "hero")
                 /\ field y "order" = Some (JInt 0).
Proof.
  split; [reflexivity |].
  destruct (regenerate_preserves_identity "landing-1" Demo.regenerate_hero
              [Demo.world_regenerating; Demo.world_not_json; Demo.world_regenerating]
              Demo.state_with_page Demo.stored_page eq_refl)
    as (doc' & Hs & _ & Hl).
  exists doc'. split; [exact Hs |].
  destruct (Hl [Demo.hero] eq_refl) as (l' & El & Hlen & Hn).
  exists l'. split; [exact El |]. split; [exact Hlen |].
  destruct (Hn 0%nat Demo.hero eq_refl) as (y & Hy & Hi & Ht & Ho & _).
  exists y. split; [exact Hy |]. split; [exact Hi |]. split; [exact Ht | exact Ho].
Defined.

(** The provider's reply names another id, type and order; the stored
    section keeps its own and takes the reply's data. *)
Lemma regenerate_once_example :
  map sections
    (store (snd (Api.post_regenerate_section "landing-1" Demo.regenerate_hero
                   Demo.world_regenerating Demo.state_with_page)))
  = [JList [JDict [("id", JStr "hero-1"); ("type", JStr "hero"); ("order", JInt 0);
                   ("data", JDict [("headline", JStr "New")])]]].
Proof. vm_compute. reflexivity. Qed.


(** Publishing the stored page: the flag is set, the version stays. *)
Lemma publish_example :
  map (fun d => (published d, version d, updated_at d))
      (store (snd (Api.post_publish "landing-1" Demo.world_a Demo.state_with_page)))
  = [(true, JInt 1, 1002)].
Proof. vm_compute. reflexivity. Qed.

(** *** Replies that cannot be used *)

Lemma store_written_only_after_parse_witness :
  unusable_reply Demo.world_not_json
    (generation_request Demo.world_not_json Demo.state_with_page
       (Routes.user_input_of Demo.bakery))
  /\ store (snd (Api.respond (Routes.generate_landing_page Demo.bakery)
                   Demo.world_not_json Demo.state_with_page))
     = [Demo.stored_page]
  /\ (store (snd (Api.post_regenerate_section "landing-1" Demo.regenerate_hero
                    Demo.world_not_json Demo.state_with_page))
      = [Demo.stored_page]
      \/ exists body,
           fst (Api.post_regenerate_section "landing-1" Demo.regenerate_hero
                  Demo.world_not_json Demo.state_with_page) = Api.Http200 body).
Proof.
  assert (H : unusable_reply Demo.world_not_json
                (generation_request Demo.world_not_json Demo.state_with_page
                   (Routes.user_input_of Demo.bakery))).
  { unfold unusable_reply. cbn. eexists. reflexivity. }
  split; [exact H |].
  destruct (store_written_only_after_parse Demo.world_not_json Demo.state_with_page)
    as [Hg Hr].
  split.
  - destruct (Hg Demo.bakery) as (_ & Hfail & _). exact (proj1 (Hfail H)).
  - destruct (Hr "landing-1"%string Demo.regenerate_hero) as [Hs | [Hb _]];
      [left; exact Hs | right; exact Hb].
Defined.

(** With a reply that is not JSON the regeneration changes nothing. *)
Lemma regenerate_not_json_example :
  Api.post_regenerate_section "landing-1" Demo.regenerate_hero
    Demo.world_not_json Demo.state_with_page
  = (Api.HttpError 500
       "Failed to regenerate section: Failed to parse LLM response as JSON: Expecting value: line 1 column 1 (char 0)",
     mkSt [Demo.stored_page] [] []
          [regeneration_request
             [("id", JStr "hero-1"); ("type", JStr "hero"); ("order", JInt 0);
              ("data", JDict [("headline", JStr "Old")])] "hero" [] None]
          1 2).
Proof. vm_compute. reflexivity. Qed.

(** C5, on the code. Generation is not all-or-nothing with respect to
    the store.  The provider's reply parses (it is the empty object) but
    is no page: the route draws an identifier, saves a page document
    with the brief and the brand context, and only then fails to build
    its response; the client is answered HTTP 500 and is never told the
    identifier of the page that was stored. *)
Lemma generate_fails_with_page_stored :
  store Demo.empty_state = []
  /\ fst (Api.respond (Routes.generate_landing_page Demo.bakery)
            Demo.world_empty_object Demo.empty_state)
     = Api.HttpError 500 "Failed to generate landing page: 'sections'"
  /\ store (snd (Api.respond (Routes.generate_landing_page Demo.bakery)
                   Demo.world_empty_object Demo.empty_state))
     = [ mkDocument (JStr "landing-01234567") (JInt 1) (JList []) 1000 1001 None false
                    (JDict [ ("industry", JStr "bakery"); ("offer", JStr "custom cakes");
                             ("target_audience", JStr "event planners");
                             ("brand_tone", JStr "warm") ])
                    (Some Demo.solo_context) ].
Proof. split; [reflexivity |]. split; vm_compute; reflexivity. Qed.


(** ** Further runs *)

#[local] Existing Instance Demo.response_model.

(** *** The crawler *)

Lemma internal_links_are_few_distinct_and_internal_witness :
  links_of Demo.world_a "https://acme.test" (Demo.source Demo.home_page)
  = Ok ["https://acme.test/blog"; "https://acme.test/about"; "https://acme.test/pricing"]
  /\ NoDup ["https://acme.test/blog"; "https://acme.test/about"; "https://acme.test/pricing"]%string.
Proof.
  assert (H : links_of Demo.world_a "https://acme.test" (Demo.source Demo.home_page)
              = Ok ["https://acme.test/blog"; "https://acme.test/about";
                    "https://acme.test/pricing"])
    by (vm_compute; reflexivity).
  split; [exact H |].
  exact (proj1 (proj2 (internal_links_are_few_distinct_and_internal _ _ _ _ H))).
Defined.

(** A home page whose second link cannot be resolved: the first link,
    which could, is not crawled either. *)
Lemma crawl_website_keeps_home_when_links_fail_witness :
  links_of (P := Faulty.platform) Faulty.world "https://gate.test"
    (Demo.source Faulty.gate_page)
  = Raise (ValueError "Invalid IPv6 URL")
  /\ fetched (snd (Crawler.crawl_website (P := Faulty.platform) "https://gate.test" 2
                     Faulty.world Demo.empty_state))
     = ["https://gate.test"].
Proof.
  assert (H : links_of (P := Faulty.platform) Faulty.world "https://gate.test"
                (Demo.source Faulty.gate_page)
              = Raise (ValueError "Invalid IPv6 URL"))
    by (vm_compute; reflexivity).
  split; [exact H |].
  rewrite (crawl_website_keeps_home_when_links_fail (P := Faulty.platform)
             "https://gate.test" 2 Faulty.world Demo.empty_state
             (Crawler.page_data_of (P := Faulty.platform) "https://gate.test"
                (Demo.source Faulty.gate_page))
             (ValueError "Invalid IPv6 URL") eq_refl H).
  reflexivity.
Defined.

Lemma fetched_page_data_is_bounded_witness :
  Crawler.url (Crawler.page_data_of "https://acme.test" (Demo.source Demo.home_page))
  = "https://acme.test"%string
  /\ (String.length
        (Crawler.text_content
           (Crawler.page_data_of "https://acme.test" (Demo.source Demo.home_page)))
      <= 3000)%nat.
Proof.
  destruct (fetched_page_data_is_bounded "https://acme.test" Demo.world_a Demo.empty_state
              (Crawler.page_data_of "https://acme.test" (Demo.source Demo.home_page))
              eq_refl) as (Hu & Ht & _).
  split; [exact Hu | exact Ht].
Defined.

(** *** Prompts and the client *)

Lemma regenerate_prompt_shows_section_witness :
  exists prompt,
    Prompts.build_section_regenerate_prompt
      [("id", JStr "team-1"); ("type", JStr "team"); ("order", JInt 6)] [] None
      Demo.world_a Demo.empty_state
    = (Ok prompt, Demo.empty_state)
    /\ occurs_in ("CURRENT TEAM SECTION TO REPLACE:" ++ nl ++ "{}" ++ nl)%string prompt
    /\ occurs_in ("REGENERATION INSTRUCTIONS:" ++ nl ++ Prompts.default_instructions ++ nl)%string
                 prompt.
Proof.
  destruct (regenerate_prompt_shows_section
              [("id", JStr "team-1"); ("type", JStr "team"); ("order", JInt 6)] [] None
              "team" Demo.world_a Demo.empty_state eq_refl)
    as (prompt & Hrun & Hdata & Hins & _).
  exists prompt. split; [exact Hrun |]. split; [exact Hdata | exact Hins].
Defined.

Lemma regenerate_section_needs_string_type_witness :
  (forall ty, dict_get [("id", JStr "hero-1")] "type" <> Some (JStr ty))
  /\ sent (snd (Generator.regenerate_section [("id", JStr "hero-1")] (JDict [])
                  Demo.world_regenerating Demo.state_with_page))
     = [].
Proof.
  assert (H : forall ty, dict_get [("id", JStr "hero-1")] "type" <> Some (JStr ty))
    by (intros ty; discriminate).
  split; [exact H |].
  exact (proj1 (proj2 (regenerate_section_needs_string_type
                         [("id", JStr "hero-1")] (JDict [])
                         Demo.world_regenerating Demo.state_with_page H))).
Defined.

Lemma generate_page_spec_crawls_url_of_brief_witness :
  crawl_result Demo.world_a "https://solo.test" 2 = Some Demo.solo_context
  /\ fetched (snd (Generator.generate_page_spec
                     [("offer", JStr "custom cakes"); ("url", JStr "https://solo.test")]
                     None Demo.world_a Demo.empty_state))
     = ["https://solo.test"].
Proof.
  assert (H : crawl_result Demo.world_a "https://solo.test" 2 = Some Demo.solo_context)
    by (vm_compute; reflexivity).
  split; [exact H |].
  rewrite (proj1 (generate_page_spec_crawls_url_of_brief
                    [("offer", JStr "custom cakes"); ("url", JStr "https://solo.test")]
                    "https://solo.test" None Demo.solo_context
                    Demo.world_a Demo.empty_state eq_refl eq_refl H)).
  vm_compute. reflexivity.
Defined.

(** *** The collection and the routes *)

Lemma save_page_then_get_page_witness :
  Db.get_page "landing-1" Demo.world_b
    (snd (Db.save_page Demo.reply_page_json [] None None Demo.world_a Demo.empty_state))
  = (Ok (Some (mkDocument (JStr "landing-1") (JInt 1) (JList []) 1000 1001 None false
                          (JDict []) None)),
     snd (Db.save_page Demo.reply_page_json [] None None Demo.world_a Demo.empty_state)).
Proof.
  exact (proj1 (proj2 (proj2
           (save_page_then_get_page
              [("pageId", JStr "landing-1"); ("version", JInt 1); ("sections", JList [])]
              [] None None "landing-1" Demo.world_a Demo.world_b Demo.empty_state _ _
              eq_refl eq_refl)))).
Defined.

Lemma save_page_rejects_stored_id_witness :
  stored "landing-1" Demo.state_with_page = Some Demo.stored_page
  /\ store (snd (Db.save_page Demo.reply_page_json [] None None
                   Demo.world_a Demo.state_with_page))
     = [Demo.stored_page].
Proof.
  split; [reflexivity |].
  exact (proj2 (save_page_rejects_stored_id
                  [("pageId", JStr "landing-1"); ("version", JInt 1); ("sections", JList [])]
                  [] None None "landing-1" Demo.world_a Demo.state_with_page
                  Demo.stored_page eq_refl eq_refl)).
Defined.

Lemma unknown_page_is_404_witness :
  stored "landing-9" Demo.state_with_page = None
  /\ Routes.publish_landing_page "landing-9" Demo.world_a Demo.state_with_page
     = (Raise (HTTPException 404 "Page landing-9 not found"), Demo.state_with_page).
Proof.
  split; [reflexivity |].
  destruct (unknown_page_is_404 "landing-9" Demo.edit_hero Demo.reorder_one
              Demo.world_a Demo.state_with_page eq_refl) as (_ & _ & _ & _ & H & _).
  exact H.
Defined.

Lemma unknown_section_is_404_witness :
  Routes.regenerate_section_endpoint "landing-1" (Routes.mkEditSectionRequest "faq-9" [])
    Demo.world_regenerating Demo.state_with_page
  = (Raise (HTTPException 404 "Section faq-9 not found"), Demo.state_with_page).
Proof.
  refine (proj2 (unknown_section_is_404 "landing-1" (Routes.mkEditSectionRequest "faq-9" [])
                   Demo.world_regenerating Demo.state_with_page Demo.stored_page
                   [Demo.hero] eq_refl eq_refl _)).
  constructor; [| constructor].
  eexists. exists (JStr "hero-1"). split; [reflexivity |]. split; reflexivity.
Defined.

Lemma edit_section_round_trip_witness :
  stored "landing-1"
    (snd (Routes.edit_section "landing-1" Demo.edit_hero Demo.world_a Demo.state_with_page))
  = Some (Db.set_sections
            (JList [JDict [ ("id", JStr "hero-1"); ("type", JStr "hero"); ("order", JInt 0);
                            ("data", JDict [("headline", JStr "Edited")]) ]])
            (JInt 2) 1002 Demo.stored_page)
  /\ fst (Routes.get_landing_page "landing-1" Demo.world_b
            (snd (Routes.edit_section "landing-1" Demo.edit_hero Demo.world_a
                    Demo.state_with_page)))
     = Ok (JDict [ ("pageId", JStr "landing-1"); ("version", JInt 2);
                   ("sections",
                    JList [JDict [ ("id", JStr "hero-1"); ("type", JStr "hero");
                                   ("order", JInt 0);
                                   ("data", JDict [("headline", JStr "Edited")]) ]]);
                   ("user_context", user_context Demo.stored_page) ]).
Proof.
  destruct (edit_section_round_trip "landing-1" "hero-1" [("headline", JStr "Edited")]
              Demo.world_a Demo.world_b Demo.state_with_page Demo.stored_page [] []
              [ ("id", JStr "hero-1"); ("type", JStr "hero"); ("order", JInt 0);
                ("data", JDict [("headline", JStr "Old")]) ] 1
              eq_refl eq_refl (Forall_nil _) eq_refl eq_refl) as (_ & Hst & Hget).
  split; [exact Hst |]. cbv zeta in Hget.
  etransitivity; [exact (f_equal fst Hget) | vm_compute; reflexivity].
Defined.

(** Sections that are no sections can be stored, but not read back: the
    response model rejects them and the client gets HTTP 500. *)
Lemma get_rejects_stored_sections_example :
  Api.respond (Routes.get_landing_page "landing-1") Demo.world_a
    (snd (Routes.reorder_sections "landing-1"
            (Routes.mkReorderSectionsRequest [[("id", JStr "hero-1")]])
            Demo.world_a Demo.state_with_page))
  = (Api.HttpError 500 "Internal Server Error",
     snd (Routes.reorder_sections "landing-1"
            (Routes.mkReorderSectionsRequest [[("id", JStr "hero-1")]])
            Demo.world_a Demo.state_with_page)).
Proof. vm_compute. reflexivity. Qed.

(** A reordering that empties the page. *)
Lemma reorder_sections_stores_request_witness :
  stored "landing-1"
    (snd (Routes.reorder_sections "landing-1" (Routes.mkReorderSectionsRequest [])
            Demo.world_a Demo.state_with_page))
  = Some (Db.set_sections (JList []) (JInt 2) 1002 Demo.stored_page).
Proof.
  exact (proj2 (reorder_sections_stores_request "landing-1"
                  (Routes.mkReorderSectionsRequest []) Demo.world_a Demo.state_with_page
                  Demo.stored_page 1 eq_refl eq_refl)).
Defined.

Lemma delete_removes_the_page_witness :
  stored "landing-1" Demo.state_with_page = Some Demo.stored_page
  /\ store (snd (Api.delete_page_endpoint "landing-1" Demo.world_a Demo.state_with_page)) = [].
Proof.
  split; [reflexivity |].
  exact (proj1 (proj2 (delete_removes_the_page "landing-1" Demo.world_a Demo.state_with_page
                         Demo.stored_page eq_refl))).
Defined.

Lemma generate_stores_brief_and_context_witness :
  store (snd (Routes.generate_landing_page Demo.bakery Demo.world_a Demo.empty_state))
  = [ mkDocument (JStr "landing-1") (JInt 1) (JList []) 1000 1001 None false
                 (JDict (Routes.user_input_of Demo.bakery)) (Some Demo.solo_context) ]
  /\ fst (Routes.get_landing_page "landing-1" Demo.world_b
            (snd (Routes.generate_landing_page Demo.bakery Demo.world_a Demo.empty_state)))
     = Ok (JDict [ ("pageId", JStr "landing-1"); ("version", JInt 1);
                   ("sections", JList []);
                   ("user_context", JDict (Routes.user_input_of Demo.bakery)) ]).
Proof.
  pose proof (generate_stores_brief_and_context Demo.bakery Demo.world_a Demo.empty_state
                Demo.reply_page
                [("pageId", JStr "landing-1"); ("version", JInt 1); ("sections", JList [])]
                eq_refl eq_refl) as H.
  cbv zeta in H. cbn [existsb store Demo.empty_state] in H.
  destruct H as [H Hget]. split.
  - rewrite H. vm_compute. reflexivity.
  - etransitivity; [exact (f_equal fst (Hget "landing-1"%string Demo.world_b eq_refl)) |].
    vm_compute. reflexivity.
Defined.

Lemma publish_marks_before_answering_witness :
  stored "landing-1"
    (snd (Routes.publish_landing_page "landing-1" Demo.world_a Demo.state_with_page))
  = Some (Db.set_published 1002 Demo.stored_page).
Proof.
  exact (proj1 (publish_marks_before_answering "landing-1" Demo.world_a Demo.state_with_page
                  Demo.stored_page eq_refl)).
Defined.

Lemma regenerate_stores_data_of_reply_witness :
  stored "landing-1"
    (snd (Routes.regenerate_section_endpoint "landing-1" Demo.regenerate_hero
            Demo.world_regenerating Demo.state_with_page))
  = Some (Db.set_sections
            (JList [JDict [ ("id", JStr "hero-1"); ("type", JStr "hero"); ("order", JInt 0);
                            ("data", JDict [("headline", JStr "New")]) ]])
            (JInt 2) 1002 Demo.stored_page).
Proof.
  pose proof (regenerate_stores_data_of_reply "landing-1" "hero-1" "hero" Demo.reply_section
                [] [ ("id", JStr "other"); ("type", JStr "footer"); ("order", JInt 9);
                     ("data", JDict [("headline", JStr "New")]) ]
                Demo.world_regenerating Demo.state_with_page Demo.stored_page [] []
                [ ("id", JStr "hero-1"); ("type", JStr "hero"); ("order", JInt 0);
                  ("data", JDict [("headline", JStr "Old")]) ] 1
                eq_refl eq_refl (Forall_nil _) eq_refl eq_refl eq_refl eq_refl eq_refl
                eq_refl) as H.
  cbv zeta in H. destruct H as [_ H]. cbn [dict_get String.eqb Ascii.eqb Bool.eqb] in H.
  exact (proj2 H).
Defined.

(** *** Sessions *)

Lemma session_keeps_page_and_counts_rewrites_witness :
  exists doc',
    stored "landing-1"
      (snd (Api.serve_all
              [ (Api.EditSection "landing-1" Demo.edit_hero, Demo.world_a);
                (Api.Publish "landing-1", Demo.world_b);
                (Api.EditSection "landing-1" (Routes.mkEditSectionRequest "faq-9" []),
                 Demo.world_a);
                (Api.Delete "landing-9", Demo.world_a) ]
              Demo.state_with_page))
    = Some doc'
    /\ version doc' = JInt 2 /\ published doc' = true
    /\ crawled_context doc' = Some "=== HOME PAGE ==="%string.
Proof.
  destruct (session_keeps_page_and_counts_rewrites "landing-1"
              [ (Api.EditSection "landing-1" Demo.edit_hero, Demo.world_a);
                (Api.Publish "landing-1", Demo.world_b);
                (Api.EditSection "landing-1" (Routes.mkEditSectionRequest "faq-9" []),
                 Demo.world_a);
                (Api.Delete "landing-9", Demo.world_a) ]
              Demo.state_with_page Demo.stored_page eq_refl eq_refl)
    as (doc' & Hst & _).
  exists doc'. split; [exact Hst |].
  vm_compute in Hst. injection Hst as <-. repeat split.
Defined.

Lemma session_keeps_ids_unique_witness :
  unique_ids
    (store (snd (Api.serve_all
                   [ (Api.Generate Demo.bakery, Demo.world_a);
                     (Api.Publish "landing-1", Demo.world_a) ]
                   Demo.state_with_page))).
Proof.
  apply session_keeps_ids_unique. cbn. split; [constructor | exact I].
Defined.

(** *** A regeneration with a URL in its context *)

Lemma regenerate_section_crawls_url_of_context_witness :
  fetched (snd (Generator.regenerate_section
                  [ ("id", JStr "hero-1"); ("type", JStr "hero"); ("order", JInt 0) ]
                  (JDict [("url", JStr "https://solo.test")])
                  Demo.world_regenerating Demo.state_with_page))
  = ["https://solo.test"].
Proof.
  rewrite (proj1 (regenerate_section_crawls_url_of_context
                    [ ("id", JStr "hero-1"); ("type", JStr "hero"); ("order", JInt 0) ]
                    [("url", JStr "https://solo.test")] "hero" "https://solo.test"
                    Demo.world_regenerating Demo.state_with_page eq_refl eq_refl eq_refl)).
  vm_compute. reflexivity.
Defined.
